(** * LLM router: a shallow embedding of the routing core

    The development follows the Python sources of the repository:

    - [app/token_utils.py]      token estimation ([TokenUtils]);
    - [app/routing_policy.py]   cost-first model selection ([RoutingPolicy]);
    - [app/providers/*.py]      provider adapters ([Providers]);
    - [app/models.py]           the job table and its helpers ([Models]);
    - [app/queue_worker.py]     the queue consumer ([QueueWorker]);
    - [app/queue_client.py]     the publisher's connection loop ([QueueClient]);
    - [app/utils.py]            the rate limiter ([Utils]);
    - [api/main.py]             the HTTP router ([ApiMain]).

    Conventions.  Python [int] is [Z].  A Python [float] that the code
    computes and compares, that is a price, an estimated cost or a
    budget, is an IEEE 754 binary64 number: a [spec_float] of the
    standard library at precision 53, with its rounding to nearest
    even, its infinities, its signed zeros and NaN.  A delay or a clock
    reading is the rational [Q] it denotes: the rounding of a delay is
    not modelled, the exceptions that computing it or sleeping for it
    raise are.  A [str] is a [string], one character per code point.
    A function that can raise returns a [result]; a function that talks
    to the outside world receives the world as an argument and returns
    the trace of what it did. *)

From Stdlib Require Import ZArith QArith Qround Qpower List String Ascii Bool Lia Lqa.
From Stdlib Require Import SpecFloat.
Import ListNotations.

Set Warnings "-register-all".

Local Open Scope string_scope.
Local Open Scope Z_scope.

(** ** Python values shared by all modules *)

Module Py.

(** An exception is identified by the name of its class and carries its
    message.  [HTTPException] (FastAPI) also carries a status code. *)
Inductive exn : Type :=
| Exc (cls : string) (msg : string)
| HTTPException (status_code : Z) (detail : string).

Definition exc_class (e : exn) : string :=
  match e with
  | Exc cls _ => cls
  | HTTPException _ _ => "HTTPException"
  end.

(** [str(e)] *)
Definition exc_str (e : exn) : string :=
  match e with
  | Exc _ msg => msg
  | HTTPException _ detail => detail
  end.

Inductive result (A : Type) : Type :=
| Ok (a : A)
| Raise (e : exn).
Arguments Ok {A} a.
Arguments Raise {A} e.

Definition bind {A B : Type} (r : result A) (k : A -> result B) : result B :=
  match r with
  | Ok a => k a
  | Raise e => Raise e
  end.

(** Truthiness of a [str]: the empty string is falsy. *)
Definition truthy_str (s : string) : bool := negb (s =? "")%string.

(** Truthiness of an [Optional[str]]: [None] and [""] are falsy. *)
Definition truthy_opt (o : option string) : bool :=
  match o with
  | Some s => truthy_str s
  | None => false
  end.

(** JSON documents as [json.loads] / [resp.json()] return them.
    Objects are association lists read with [dict.get]. *)
Inductive json : Type :=
| JNull
| JBool (b : bool)
| JInt (z : Z)
| JFloat (q : Q)
| JStr (s : string)
| JArr (l : list json)
| JObj (fields : list (string * json)).

Definition jobject : Type := list (string * json).

Fixpoint get (key : string) (d : jobject) : option json :=
  match d with
  | [] => None
  | (k, v) :: d' => if (k =? key)%string then Some v else get key d'
  end.

(** [d.get(key, default)] *)
Definition get_default (key : string) (default : json) (d : jobject) : json :=
  match get key d with
  | Some v => v
  | None => default
  end.

Definition truthy (v : json) : bool :=
  match v with
  | JNull => false
  | JBool b => b
  | JInt z => negb (z =? 0)
  | JFloat q => negb (Qeq_bool q 0)
  | JStr s => truthy_str s
  | JArr l => match l with [] => false | _ => true end
  | JObj d => match d with [] => false | _ => true end
  end.

(** [a or b] *)
Definition por (a b : json) : json := if truthy a then a else b.

(** [int(v)]: a float is truncated towards zero; [int] of a list, a dict
    or [None] raises [TypeError]; parsing of numeric strings is not
    modelled and counts as [ValueError]. *)
Definition int (v : json) : result Z :=
  match v with
  | JInt z => Ok z
  | JBool b => Ok (if b then 1 else 0)
  | JFloat q => Ok (Z.quot (Qnum q) (Z.pos (Qden q)))
  | JStr _ => Raise (Exc "ValueError" "invalid literal for int()")
  | JNull | JArr _ | JObj _ =>
      Raise (Exc "TypeError" "int() argument must be a string or a number")
  end.

(** Whitespace that [str.strip] removes (ASCII range). *)
Definition is_space (c : ascii) : bool :=
  let n := nat_of_ascii c in
  ((9 <=? n) && (n <=? 13) || (28 <=? n) && (n <=? 32))%nat.

Fixpoint lstrip (s : string) : string :=
  match s with
  | EmptyString => EmptyString
  | String c t => if is_space c then lstrip t else s
  end.

Fixpoint rstrip (s : string) : string :=
  match s with
  | EmptyString => EmptyString
  | String c t =>
      let t' := rstrip t in
      if is_space c && (t' =? "")%string then EmptyString else String c t'
  end.

Definition strip (s : string) : string := rstrip (lstrip s).

(** *** Floats

    A [float] is a binary64 number in the canonical form that every
    operation below returns.  Arithmetic rounds to nearest, ties to
    even; it overflows to an infinity and never raises, except for the
    conversion of an [int], which raises [OverflowError]. *)
Definition float : Type := spec_float.

Definition prec : Z := 53.
Definition emax : Z := 1024.

(** The float nearest to an integer, an infinity when the integer is
    beyond the largest float. *)
Definition nearest_float (n : Z) : float := binary_normalize prec emax n 0 false.

(** [float(n)], also applied to the [int] operand of a mixed operation:
    an integer of magnitude [2 ^ 1024 - 2 ^ 970] or more rounds beyond
    the largest float, and the conversion raises. *)
Definition overflow_error : exn :=
  Exc "OverflowError" "int too large to convert to float".

Definition float_of_int (n : Z) : result float :=
  if Z.abs n <? 2 ^ 1024 - 2 ^ 970 then Ok (nearest_float n)
  else Raise overflow_error.

(** [x * y], [x + y], and [x / y] for a divisor that is not zero. *)
Definition fmul : float -> float -> float := SFmul prec emax.
Definition fadd : float -> float -> float := SFadd prec emax.
Definition fdiv : float -> float -> float := SFdiv prec emax.

(** [x < y] and [x <= y]: false as soon as one side is NaN. *)
Definition flt : float -> float -> bool := SFltb.
Definition fle : float -> float -> bool := SFleb.

Definition is_nan (x : float) : bool :=
  match x with
  | S754_nan => true
  | _ => false
  end.

Definition fzero : float := S754_zero false.

(** The float that the decimal literal [num / 10 ^ digits] denotes, as
    [0.15] is [decimal 15 2]: the correctly rounded quotient of two
    integers that are floats themselves ([num] below [2 ^ 53], at most
    22 digits). *)
Definition decimal (num : Z) (digits : nat) : float :=
  fdiv (nearest_float num) (nearest_float (10 ^ Z.of_nat digits)).

(** [c in s] for a one-character [c]. *)
Fixpoint contains_char (c : ascii) (s : string) : bool :=
  match s with
  | EmptyString => false
  | String a t => Ascii.eqb a c || contains_char c t
  end.

(** [s.split(c, 1)[0]] *)
Fixpoint before_char (c : ascii) (s : string) : string :=
  match s with
  | EmptyString => EmptyString
  | String a t => if Ascii.eqb a c then EmptyString else String a (before_char c t)
  end.

(** [x in l] for a list of strings. *)
Definition mem (x : string) (l : list string) : bool :=
  existsb (fun y => (y =? x)%string) l.

End Py.

Import Py.

Notation "x <- c1 ;; c2" := (Py.bind c1 (fun x => c2))
  (at level 61, c1 at next level, right associativity).
Notation "' pat <- c1 ;; c2" :=
  (Py.bind c1 (fun x => match x with pat => c2 end))
  (at level 61, pat pattern, c1 at next level, right associativity).

(** Strict comparison of rationals, as a boolean. *)
Definition Qlt_bool (a b : Q) : bool := negb (Qle_bool b a).

(** [list.sort(key=...)] is a stable sort that compares keys with [<]
    only.  [insert_by_key lt key x l] puts [x], which comes before the
    elements of [l] in the unsorted list, in front of the first element
    whose key is not strictly smaller.  On keys that [<] orders (floats
    without NaN among them) every stable sort returns this list; on two
    elements it is the list the interpreter returns whatever the keys. *)
Fixpoint insert_by_key {A K : Type} (lt : K -> K -> bool) (key : A -> K)
    (x : A) (l : list A) : list A :=
  match l with
  | [] => [x]
  | y :: t =>
      if lt (key y) (key x) then y :: insert_by_key lt key x t
      else x :: y :: t
  end.

Fixpoint sort_by_key {A K : Type} (lt : K -> K -> bool) (key : A -> K)
    (l : list A) : list A :=
  match l with
  | [] => []
  | x :: t => insert_by_key lt key x (sort_by_key lt key t)
  end.

(** The order of [flt] on numbers (floats other than NaN): they are
    ranked by sign, exponent and mantissa, and both zeros have the same
    rank. *)

Definition rank (x : float) : Z * Z * Z :=
  match x with
  | S754_nan => (0, 0, 0)
  | S754_infinity true => (-2, 0, 0)
  | S754_infinity false => (2, 0, 0)
  | S754_zero _ => (0, 0, 0)
  | S754_finite true m e => (-1, - e, - Z.pos m)
  | S754_finite false m e => (1, e, Z.pos m)
  end.

Definition lex_lt (a b : Z * Z * Z) : Prop :=
  let '(a1, a2, a3) := a in
  let '(b1, b2, b3) := b in
  a1 < b1 \/ (a1 = b1 /\ (a2 < b2 \/ (a2 = b2 /\ a3 < b3))).

(** ** app/token_utils.py *)

Module TokenUtils.

Record TokenStats : Type := mkTokenStats {
  tokens_in : Z;
  tokens_out : Z
}.

(** [approx_tokens]: about four characters per token; the empty text
    has no token.  [int(len(text) / 4)] truncates a non-negative
    quotient, which is its floor. *)
Definition approx_tokens (text : string) : Z :=
  if negb (truthy_str text) then 0
  else Z.max 1 (Z.of_nat (String.length text) / 4).

Section Estimator.

(** [len(enc.encode(prompt))] of the tiktoken encoding, or [None]
    when tiktoken raises. *)
Variable tiktoken_count : string -> option Z.

Definition count_tokens_openai (prompt : string) : Z :=
  match tiktoken_count prompt with
  | Some n => n
  | None => approx_tokens prompt
  end.

Definition estimate_tokens (provider model prompt : string)
    (expected_output_tokens : Z) : TokenStats :=
  let tin :=
    if (provider =? "openai")%string then count_tokens_openai prompt
    else approx_tokens prompt in
  let tout := expected_output_tokens in
  mkTokenStats tin tout.

End Estimator.

End TokenUtils.

(** ** app/routing_policy.py *)

Module RoutingPolicy.

Import TokenUtils.

(** One row of the [models] list of the price table.  The loop reads
    every field with [row[...]]; a well-formed catalog row has them all,
    the limits and the quality as integers, the prices as floats. *)
Record ModelRow : Type := mkModelRow {
  provider : string;
  model : string;
  price_in_per_1k : float;
  price_out_per_1k : float;
  max_input_tokens : Z;
  max_output_tokens : Z;
  baseline_quality : Z
}.

(** [provider_hints]: the two keys the policy reads with [.get]. *)
Record Hints : Type := mkHints {
  hint_provider : option string;
  hint_model : option string
}.

Record RouteDecision : Type := mkRouteDecision {
  rd_provider : string;
  rd_model : string;
  estimated_cost_usd : float;
  system_prompt : string;
  temperature : Q;
  cache_hit : bool;
  tokens : TokenStats
}.

Definition Candidate : Type := (ModelRow * float * TokenStats)%type.

Definition cand_cost (c : Candidate) : float := snd (fst c).

(** [provider_hints.get(k) and row[k] != provider_hints[k]]: a hint that
    is absent or empty excludes nothing. *)
Definition hint_excludes (hint : option string) (value : string) : bool :=
  match hint with
  | Some h => truthy_str h && negb (value =? h)%string
  | None => false
  end.

(** The literal [1000.0]. *)
Definition thousand : float := decimal 1000 0.

(** [(tokens.tokens_in / 1000.0) * float(row["price_in_per_1k"])
     + (tokens.tokens_out / 1000.0) * float(row["price_out_per_1k"])]:
    each token count is converted to a float before the division. *)
Definition estimated_cost (row : ModelRow) (tokens : TokenStats) : result float :=
  tin <- float_of_int (tokens_in tokens) ;;
  tout <- float_of_int (tokens_out tokens) ;;
  Ok (fadd (fmul (fdiv tin thousand) (price_in_per_1k row))
           (fmul (fdiv tout thousand) (price_out_per_1k row))).

Section Policy.

(** The tokenizer behind [estimate_tokens], [settings.DEFAULT_SYSTEM_PROMPT]
    and the rows read from the price table, in file order. *)
Variable tiktoken_count : string -> option Z.
Variable DEFAULT_SYSTEM_PROMPT : string.
Variable price_rows : list ModelRow.

Section Request.

Variable input_text : string.
Variable expected_output_tokens : Z.
Variable quality_floor : Z.
Variable cost_ceiling_usd : float.
Variable provider_hints : Hints.

(** One iteration of the loop over [self.price_rows]: [None] for a row
    that hits a [continue], the appended candidate otherwise; the
    budget gate is [cost_ceiling_usd > 0 and cost > cost_ceiling_usd]. *)
Definition consider (row : ModelRow) : result (option Candidate) :=
  if hint_excludes (hint_provider provider_hints) (provider row) then Ok None
  else if hint_excludes (hint_model provider_hints) (model row) then Ok None
  else if baseline_quality row <? quality_floor then Ok None
  else
    let tokens :=
      estimate_tokens tiktoken_count (provider row) (model row)
                      input_text expected_output_tokens in
    if max_input_tokens row <? tokens_in tokens then Ok None
    else if max_output_tokens row <? tokens_out tokens then Ok None
    else
      cost <- estimated_cost row tokens ;;
      if flt fzero cost_ceiling_usd && flt cost_ceiling_usd cost
      then Ok None
      else Ok (Some (row, cost, tokens)).

(** The loop: the candidates in catalog order, or the exception of the
    first row whose cost cannot be computed. *)
Fixpoint collect (rows : list ModelRow) : result (list Candidate) :=
  match rows with
  | [] => Ok []
  | row :: rest =>
      c <- consider row ;;
      cs <- collect rest ;;
      Ok (match c with
          | Some c => c :: cs
          | None => cs
          end)
  end.

Definition no_models_message : string :=
  "No models meet your quality or budget. Try lowering quality_floor or raising cost_ceiling_usd.".

Definition choose_model : result RouteDecision :=
  candidates <- collect price_rows ;;
  match candidates with
  | [] => Raise (Exc "ValueError" no_models_message)
  | _ :: _ =>
      match sort_by_key flt cand_cost candidates with
      | (row, cost, tokens) :: _ =>
          Ok (mkRouteDecision (provider row) (model row) cost
                DEFAULT_SYSTEM_PROMPT (2 # 10) false tokens)
      | [] => Raise (Exc "IndexError" "list index out of range")
      end
  end.

End Request.

End Policy.

End RoutingPolicy.

(** ** app/providers/local_ollama_provider.py and openai_provider.py *)

Module Providers.

Import TokenUtils.

Definition attribute_error : exn :=
  Exc "AttributeError" "object has no attribute".

(** [(v or "").strip()] *)
Definition text_of (v : json) : result string :=
  match por v (JStr "") with
  | JStr s => Ok (strip s)
  | _ => Raise attribute_error
  end.

(** [int(d.get(key, 0) or 0)] *)
Definition usage_count (key : string) (d : jobject) : result Z :=
  Py.int (por (get_default key (JInt 0) d) (JInt 0)).

(** [(v or "")] for an optional string field. *)
Definition or_empty (o : option string) : string :=
  match o with
  | Some s => s
  | None => ""
  end.

Section Ollama.

(** [difflib.get_close_matches(req, available, n=1, cutoff=0.6)] *)
Variable get_close_matches : string -> list string -> list string.

Definition first_available (available : list string) : option string :=
  match available with
  | a :: _ => Some a
  | [] => None
  end.

Definition _choose_best_model (requested : string) (available : list string)
    : option string :=
  let req := strip requested in
  if negb (truthy_str req) then first_available available
  else if mem req available then Some req
  else
    let prefix := before_char "."%char req in
    if contains_char "."%char req && mem prefix available then Some prefix
    else
      match get_close_matches req available with
      | m :: _ => Some m
      | [] => first_available available
      end.

(** The local inference server: what [_list_installed_models] returns
    and what [POST /api/generate] answers to a request body (the parsed
    JSON, or the error of the transport or of [raise_for_status]). *)
Variable installed_models : result (list string).
Variable post_generate : jobject -> result json.

Definition ollama_full_prompt (system_prompt : option string) (prompt : string)
    : string :=
  match system_prompt with
  | Some sp =>
      if truthy_str sp then strip sp ++ String "010" (String "010" (strip prompt))
      else strip prompt
  | None => strip prompt
  end.

(** The JSON body of [POST /api/generate]. *)
Definition generate_body (chosen full_prompt : string) (temperature : Q)
    (max_tokens : Z) : jobject :=
  [ ("model", JStr chosen);
    ("prompt", JStr full_prompt);
    ("stream", JBool false);
    ("options", JObj [ ("temperature", JFloat temperature);
                       ("num_predict", JInt max_tokens) ]) ].

Definition ollama_complete (model prompt : string) (max_tokens : Z)
    (temperature : Q) (system_prompt : option string)
    : result (string * TokenStats) :=
  available <- installed_models ;;
  match _choose_best_model model available with
  | None => Raise (Exc "RuntimeError"
      "No Ollama models are installed. Install one with: docker compose exec ollama ollama pull llama3")
  | Some chosen =>
      let full_prompt := ollama_full_prompt system_prompt prompt in
      let body := generate_body chosen full_prompt temperature max_tokens in
      j <- post_generate body ;;
      match j with
      | JObj d =>
          text <- text_of (get_default "response" JNull d) ;;
          tokens_in <- usage_count "prompt_eval_count" d ;;
          tokens_out <- usage_count "eval_count" d ;;
          Ok (text, mkTokenStats tokens_in tokens_out)
      | _ => Raise attribute_error
      end
  end.

End Ollama.

Section OpenAI.

(** [settings.OPENAI_API_KEY] and the answer of the chat completions
    endpoint to a request body. *)
Variable OPENAI_API_KEY : option string.
Variable post_chat : jobject -> result json.

Definition openai_options : list string :=
  ["top_p"; "frequency_penalty"; "presence_penalty"; "stop"; "seed"].

(** [for k in (...): if k in kwargs: data[k] = kwargs[k]] *)
Definition picked_options (kwargs : jobject) : jobject :=
  flat_map (fun k => match get k kwargs with
                     | Some v => [(k, v)]
                     | None => []
                     end) openai_options.

(** The dict behind [j.get(key) or {}]. *)
Definition dict_or_empty (v : json) : result jobject :=
  match por v (JObj []) with
  | JObj d => Ok d
  | _ => Raise attribute_error
  end.

Definition openai_text (j : jobject) : result string :=
  match por (get_default "choices" JNull j) (JArr []) with
  | JArr [] => Ok ""
  | JArr (JObj c0 :: _) =>
      msg <- dict_or_empty (get_default "message" (JObj []) c0) ;;
      text_of (get_default "content" JNull msg)
  | JArr (_ :: _) => Raise attribute_error
  | _ => Raise (Exc "TypeError" "object is not subscriptable")
  end.

(** The JSON body of the chat completions request. *)
Definition chat_body (model prompt : string) (max_tokens : Z)
    (temperature : Q) (system_prompt : option string) (kwargs : jobject)
    : jobject :=
  let user_message := JObj [("role", JStr "user"); ("content", JStr prompt)] in
  let messages :=
    match system_prompt with
    | Some sp =>
        if truthy_str sp
        then [JObj [("role", JStr "system"); ("content", JStr sp)]; user_message]
        else [user_message]
    | None => [user_message]
    end in
  ([ ("model", JStr model);
     ("messages", JArr messages);
     ("max_tokens", JInt max_tokens);
     ("temperature", JFloat temperature) ] ++ picked_options kwargs)%list.

Definition openai_complete (model prompt : string) (max_tokens : Z)
    (temperature : Q) (system_prompt : option string) (kwargs : jobject)
    : result (string * TokenStats) :=
  if negb (truthy_opt OPENAI_API_KEY)
  then Raise (Exc "RuntimeError" "OPENAI_API_KEY not configured")
  else
    let data :=
      chat_body model prompt max_tokens temperature system_prompt kwargs in
    j <- post_chat data ;;
    match j with
    | JObj d =>
        text <- openai_text d ;;
        usage <- dict_or_empty (get_default "usage" JNull d) ;;
        tokens_in <- usage_count "prompt_tokens" usage ;;
        tokens_out <- usage_count "completion_tokens" usage ;;
        Ok (text, mkTokenStats (Z.max 0 tokens_in) (Z.max 0 tokens_out))
    | _ => Raise attribute_error
    end.

End OpenAI.

(** *** [_list_installed_models]

    An entry of the [models] list of [GET /api/tags]: its [name] and
    [model] fields, each possibly absent. *)
Record TagEntry : Type := mkTagEntry {
  tag_name : option string;
  tag_model : option string
}.

(** [sorted(...)] on strings, by code point. *)
Fixpoint insert_sorted (x : string) (l : list string) : list string :=
  match l with
  | [] => [x]
  | y :: t => if String.ltb y x then y :: insert_sorted x t else x :: y :: t
  end.

Definition sorted (l : list string) : list string :=
  fold_right insert_sorted [] l.

(** [set(names)], as the list of its elements. *)
Definition set_of (l : list string) : list string := nodup string_dec l.

(** First loop: the part of [name] before the colon, when not empty. *)
Fixpoint names_of (models : list TagEntry) : list string :=
  match models with
  | [] => []
  | m :: rest =>
      let name0 := or_empty (tag_name m) in
      let name :=
        if contains_char ":"%char name0 then before_char ":"%char name0
        else name0 in
      if truthy_str name then name :: names_of rest else names_of rest
  end.

(** Second loop: the stripped [model] field, when new. *)
Fixpoint add_alternatives (models : list TagEntry) (names : list string)
    : list string :=
  match models with
  | [] => names
  | m :: rest =>
      let alt := strip (or_empty (tag_model m)) in
      if truthy_str alt && negb (mem alt names)
      then add_alternatives rest (names ++ [alt])%list
      else add_alternatives rest names
  end.

Definition _list_installed_models (models : list TagEntry) : list string :=
  sorted (set_of (add_alternatives models (names_of models))).

(** *** Shapes of a well-formed upstream answer

    A text field is absent, [null] or a string; a counter is absent,
    [null] or an integer. *)

Definition text_field_ok (key : string) (d : jobject) : bool :=
  match get key d with
  | None | Some JNull | Some (JStr _) => true
  | Some _ => false
  end.

Definition count_field_ok (key : string) (d : jobject) : bool :=
  match get key d with
  | None | Some JNull | Some (JInt _) => true
  | Some _ => false
  end.

Definition ollama_answer_ok (d : jobject) : bool :=
  text_field_ok "response" d
  && count_field_ok "prompt_eval_count" d
  && count_field_ok "eval_count" d.

Definition openai_choices_ok (d : jobject) : bool :=
  match get "choices" d with
  | None | Some JNull | Some (JArr []) => true
  | Some (JArr (JObj c0 :: _)) =>
      match get "message" c0 with
      | None | Some JNull => true
      | Some (JObj m) => text_field_ok "content" m
      | Some _ => false
      end
  | Some _ => false
  end.

Definition openai_usage_ok (d : jobject) : bool :=
  match get "usage" d with
  | None | Some JNull => true
  | Some (JObj u) =>
      count_field_ok "prompt_tokens" u && count_field_ok "completion_tokens" u
  | Some _ => false
  end.

Definition openai_answer_ok (d : jobject) : bool :=
  openai_choices_ok d && openai_usage_ok d.

End Providers.

(** ** app/models.py *)

Module Models.

Inductive JobStatus : Type := queued | running | succeeded | failed.

(** A row of table [jobs].  Timestamps are seconds on the clock of the
    database host. *)
Record Job : Type := mkJob {
  job_id : string;
  user_id : string;
  task_type : string;
  status : JobStatus;
  created_at : Z;
  updated_at : Z;
  cost_ceiling_usd : Q;
  dedupe_key : option string
}.

(** A row of table [job_costs] (without its surrogate key and timestamp). *)
Record JobCost : Type := mkJobCost {
  jc_job_id : string;
  jc_provider : string;
  jc_model : string;
  jc_tokens_in : Z;
  jc_tokens_out : Z;
  jc_cost_usd : float;
  jc_latency_ms : Z
}.

(** A row of table [events]. *)
Record Event : Type := mkEvent {
  ev_job_id : string;
  ev_level : string;
  ev_message : string
}.

(** The database a session works on: each table in insertion order. *)
Record Db : Type := mkDb {
  jobs : list Job;
  job_costs : list JobCost;
  events : list Event
}.

Definition set_status (s : JobStatus) (j : Job) : Job :=
  mkJob (job_id j) (user_id j) (task_type j) s (created_at j) (updated_at j)
        (cost_ceiling_usd j) (dedupe_key j).

Definition set_updated_at (t : Z) (j : Job) : Job :=
  mkJob (job_id j) (user_id j) (task_type j) (status j) (created_at j) t
        (cost_ceiling_usd j) (dedupe_key j).

Definition has_id (id : string) (j : Job) : bool := (job_id j =? id)%string.

(** [Job.dedupe_key == key] in a [WHERE] clause: a [NULL] key matches
    nothing. *)
Definition has_dedupe_key (key : string) (j : Job) : bool :=
  match dedupe_key j with
  | Some k => (k =? key)%string
  | None => false
  end.

(** [session.get(Job, job_id)] *)
Definition get_job_by_id (db : Db) (id : string) : option Job :=
  find (has_id id) (jobs db).

(** Write the attributes of a loaded row back on flush. *)
Definition update_job (j : Job) (db : Db) : Db :=
  mkDb (map (fun r => if has_id (job_id j) r then j else r) (jobs db))
       (job_costs db) (events db).

(** [session.add(job); await session.flush()] for a new object: the
    primary key [job_id] must not be taken. *)
Definition insert_job (j : Job) (db : Db) : result Db :=
  if existsb (has_id (job_id j)) (jobs db)
  then Raise (Exc "IntegrityError" "duplicate key value violates unique constraint")
  else Ok (mkDb (jobs db ++ [j]) (job_costs db) (events db)).

(** [result.scalar_one_or_none()] *)
Definition scalar_one_or_none (rows : list Job) : result (option Job) :=
  match rows with
  | [] => Ok None
  | [j] => Ok (Some j)
  | _ => Raise (Exc "MultipleResultsFound"
                    "Multiple rows were found when one or none was required")
  end.

(** [upsert_job_by_dedupe_key]; [now] is [datetime.utcnow()]. *)
Definition upsert_job_by_dedupe_key (db : Db) (key : option string)
    (defaults : Job) (now : Z) : result (Db * Job) :=
  match key with
  | None => db' <- insert_job defaults db ;; Ok (db', defaults)
  | Some k =>
      if negb (truthy_str k)
      then db' <- insert_job defaults db ;; Ok (db', defaults)
      else
        found <- scalar_one_or_none (filter (has_dedupe_key k) (jobs db)) ;;
        match found with
        | Some job =>
            let job' := set_updated_at now job in
            Ok (update_job job' db, job')
        | None => db' <- insert_job defaults db ;; Ok (db', defaults)
        end
  end.

(** The primary keys in use, and the rows carrying a dedupe key. *)
Definition ids (db : Db) : list string := map job_id (jobs db).

Definition rows_with_key (key : string) (db : Db) : list Job :=
  filter (has_dedupe_key key) (jobs db).

Definition id_is_free (j : Job) (db : Db) : bool :=
  negb (existsb (has_id (job_id j)) (jobs db)).

Definition record_event (db : Db) (id level message : string) : Db :=
  mkDb (jobs db) (job_costs db) (events db ++ [mkEvent id level message]).

Definition record_cost (db : Db) (id provider model : string)
    (tokens_in tokens_out : Z) (cost_usd : float) (latency_ms : Z) : Db :=
  mkDb (jobs db)
       (job_costs db ++
          [mkJobCost id provider model tokens_in tokens_out cost_usd latency_ms])
       (events db).

End Models.

(** ** app/queue_worker.py *)

Module QueueWorker.

Import TokenUtils RoutingPolicy Models.

(** The [body] of a queued message: the keys [_handle_message] reads,
    each possibly absent. *)
Record Body : Type := mkBody {
  b_prompt : option string;
  b_redact_pii : bool;
  b_expected_output_tokens : option Z;
  b_quality_floor : option Z;
  b_cost_ceiling_usd : option float;
  b_provider_hints : option Hints
}.

Record Payload : Type := mkPayload {
  p_job_id : string;
  p_body : Body
}.

(** One call of [adapter.complete]: the registry key of the adapter and
    the keyword arguments. *)
Record AdapterCall : Type := mkAdapterCall {
  ac_provider : string;
  ac_model : string;
  ac_prompt : string;
  ac_max_tokens : Z;
  ac_temperature : Q;
  ac_system_prompt : string;
  ac_timeout_s : Z
}.

(** How [message.process(requeue=True)] leaves the delivery: acknowledged
    on a normal exit, rejected and put back on the queue when the block
    raises, the exception travelling on to the consumer. *)
Inductive Delivery : Type :=
| Acked
| Requeued (e : exn).

Definition or_default {A : Type} (o : option A) (d : A) : A :=
  match o with
  | Some a => a
  | None => d
  end.

(** The keys of [LLMAdapterRegistry._registry]. *)
Definition registry_keys : list string :=
  ["openai"; "anthropic"; "google"; "mistral"; "ollama"; "local"].

(** [min(a, b)] of Python: the first argument unless the second is
    strictly smaller. *)
Definition py_min (a b : Q) : Q := if Qlt_bool b a then b else a.

(** [min(cap, base * 2 ** (attempt - 1))] as a number. *)
Definition capped_delay (base cap : Q) (attempt : Z) : Q :=
  py_min cap (base * 2 ^ (attempt - 1))%Q.

(** The delay of [_sleep_backoff(attempt, base, cap)].  From the first
    attempt on the power [2 ** (attempt - 1)] is an [int], converted to
    a float for the product: the conversion raises [OverflowError] from
    attempt 1025 on.  The product scales [base] by a power of two and is
    exact; one that overflows is infinite and loses against the cap.
    ([2 ^ (attempt - 1)] on [Z] is 0 below the first attempt, where the
    power is a float already and nothing is converted.) *)
Definition backoff_delay (base cap : Q) (attempt : Z) : result Q :=
  _ <- float_of_int (2 ^ (attempt - 1)) ;;
  Ok (capped_delay base cap attempt).

(** What a connection loop does: a connection attempt, a wait. *)
Inductive conn_event : Type :=
| Connect (attempt : Z)
| Wait (delay : Q).

Fixpoint connects (tr : list conn_event) : list Z :=
  match tr with
  | [] => []
  | Connect a :: tr' => a :: connects tr'
  | Wait _ :: tr' => connects tr'
  end.

Fixpoint waits (tr : list conn_event) : list Q :=
  match tr with
  | [] => []
  | Connect _ :: tr' => waits tr'
  | Wait d :: tr' => d :: waits tr'
  end.

Section Connection.

(** [aio_pika.connect_robust(url)] at a given attempt: the connection
    or the exception. *)
Variable connect_robust : Z -> result string.

(** The [while True] loop of [_connect_rabbitmq_with_retry], entered
    with [attempt] attempts made; [None] when [fuel] iterations did not
    end it.  [max_attempts = 0] means no limit; the default [cap] of
    this module's [_sleep_backoff] is 15 s.  [_sleep_backoff] is called
    inside the [except] block: an exception it raises ends the loop. *)
Fixpoint connect_loop (fuel : nat) (max_attempts : Z) (attempt : Z)
    (tr : list conn_event) : option (result string * list conn_event) :=
  match fuel with
  | O => None
  | S fuel' =>
      let attempt := attempt + 1 in
      let tr1 := (tr ++ [Connect attempt])%list in
      match connect_robust attempt with
      | Ok conn => Some (Ok conn, tr1)
      | Raise e =>
          if negb (max_attempts =? 0) && (max_attempts <=? attempt)
          then Some (Raise e, tr1)
          else
            match backoff_delay 1 15 attempt with
            | Ok delay =>
                connect_loop fuel' max_attempts attempt
                  (tr1 ++ [Wait delay])%list
            | Raise e' => Some (Raise e', tr1)
            end
      end
  end.

Definition _connect_rabbitmq_with_retry (fuel : nat) (max_attempts : Z)
    : option (result string * list conn_event) :=
  connect_loop fuel max_attempts 0 [].

End Connection.

Section Worker.

Variable tiktoken_count : string -> option Z.
Variable DEFAULT_SYSTEM_PROMPT : string.
Variable PII_REDACTION_ENABLED : bool.
Variable LLM_TIMEOUT_S : Z.
Variable price_rows : list ModelRow.

(** The two regular-expression substitutions of [maybe_redact_pii]. *)
Variable mask_pii : string -> string.

(** [adapter.complete(...)] of the adapter registered for a provider:
    given the calls this delivery has made before, the provider, model,
    prompt, max_tokens, temperature, system prompt and timeout give the
    text and the usage, or the exception the call raises. *)
Variable complete :
  list AdapterCall ->
  string -> string -> string -> Z -> Q -> string -> Z ->
  result (string * TokenStats).

(** Elapsed wall-clock time between routing and the end of the call. *)
Variable latency_ms : Z.

Definition maybe_redact_pii (text : string) : string :=
  if negb (truthy_str text) then text else mask_pii text.

(** [LLMAdapterRegistry.get] *)
Definition registry_get (provider : string) : result string :=
  if mem provider registry_keys then Ok provider
  else Raise (Exc "ValueError" ("Unknown provider '" ++ provider ++ "'")).

Definition hints_or_empty (h : option Hints) : Hints :=
  or_default h (mkHints None None).

(** The prompt of the job, with the optional PII redaction. *)
Definition prepare_prompt (body : Body) : string :=
  let prompt := or_default (b_prompt body) "" in
  let redact := b_redact_pii body && PII_REDACTION_ENABLED in
  if redact then maybe_redact_pii prompt else prompt.

(** [RoutingPolicy().choose_model(...)] on the fields of the body. *)
Definition route_decision (body : Body) : result RouteDecision :=
  choose_model tiktoken_count DEFAULT_SYSTEM_PROMPT price_rows
    (prepare_prompt body)
    (or_default (b_expected_output_tokens body) 512)
    (or_default (b_quality_floor body) 1)
    (or_default (b_cost_ceiling_usd body) (decimal 1 1))
    (hints_or_empty (b_provider_hints body)).

(** [_handle_message]: the database and the delivery it leaves, and the
    calls it made to the adapter, in order. *)
Definition _handle_message (db : Db) (payload : Payload)
    : Db * Delivery * list AdapterCall :=
  let id := p_job_id payload in
  let body := p_body payload in
  match get_job_by_id db id with
  | None => (db, Acked, [])
  | Some job =>
      let db1 := update_job (set_status running job) db in
      let prompt := prepare_prompt body in
      let expected := or_default (b_expected_output_tokens body) 512 in
      match route_decision body with
      | Raise e => (db1, Requeued e, [])
      | Ok decision =>
          match registry_get (rd_provider decision) with
          | Raise e => (db1, Requeued e, [])
          | Ok adapter =>
              let call :=
                mkAdapterCall adapter (rd_model decision) prompt expected
                  (temperature decision) (system_prompt decision)
                  LLM_TIMEOUT_S in
              match complete [] adapter (rd_model decision) prompt expected
                      (temperature decision) (system_prompt decision)
                      LLM_TIMEOUT_S with
              | Raise e => (db1, Requeued e, [call])
              | Ok (output_text, token_stats) =>
                  match get_job_by_id db1 id with
                  | None => (db1, Acked, [call])
                  | Some db_job =>
                      let db2 := update_job (set_status succeeded db_job) db1 in
                      let db3 :=
                        record_cost db2 (job_id db_job)
                          (rd_provider decision) (rd_model decision)
                          (tokens_in token_stats) (tokens_out token_stats)
                          (estimated_cost_usd decision) latency_ms in
                      let db4 :=
                        record_event db3 (job_id db_job) "info"
                          ("Routed to " ++ rd_provider decision ++ ":"
                             ++ rd_model decision) in
                      (db4, Acked, [call])
                  end
              end
          end
      end
  end.

End Worker.

End QueueWorker.

(** ** api/main.py *)

Module ApiMain.

(** A row of [_MODELS]: the keys the planner reads, each possibly absent. *)
Record Row : Type := mkRow {
  r_provider : option string;
  r_model : option string;
  r_baseline_quality : option Z;
  r_price_in_per_1k : option Q;
  r_price_out_per_1k : option Q
}.

Record IntegrationSpec : Type := mkIntegrationSpec {
  kind : string;
  file_name : option string;
  folder : option string;
  extra : jobject
}.

Record RouteRequest : Type := mkRouteRequest {
  req_user_id : string;
  req_task_type : string;
  req_prompt : string;
  req_quality_floor : Z;
  req_cost_ceiling_usd : Q;
  req_expected_output_tokens : Z;
  req_integration : option IntegrationSpec
}.

Record RouteResponse : Type := mkRouteResponse {
  job_id : string;
  provider : string;
  model : string;
  output_text : string;
  estimated_cost_usd : Q;
  latency_ms : Z;
  cached : bool;
  artifact_uri : option string;
  integration_status : option string
}.

(** What the process does to the inference server and to the clock, in
    order.  A request is tagged with the call site that sent it. *)
Inductive role : Type := Primary | Fallback.

Inductive event : Type :=
| Post (r : role) (model : string)
| Sleep (seconds : Q).

Definition trace : Type := list event.

(** The outcome of one [client.post(...)] block: the parsed body, an
    [httpx.HTTPError] (time-outs, transport errors and the status errors
    of [raise_for_status] are all subclasses), or any other exception
    raised inside the [try]. *)
Inductive post_result : Type :=
| Responded (data : jobject)
| HTTPError (msg : string)
| Crashed (e : exn).

(** [range(n)] *)
Definition py_range (n : Z) : list Z := map Z.of_nat (seq 0 (Z.to_nat n)).

(** The requests and the waits of a trace. *)
Definition is_post (e : event) : bool :=
  match e with
  | Post _ _ => true
  | Sleep _ => false
  end.

Definition calls (tr : trace) : list event := filter is_post tr.

Fixpoint sleeps (tr : trace) : list Q :=
  match tr with
  | [] => []
  | Sleep q :: tr' => q :: sleeps tr'
  | Post _ _ :: tr' => sleeps tr'
  end.

(** [time.sleep(secs)] converts the delay to nanoseconds, which must fit
    a signed 64-bit integer or the call raises [OverflowError], and then
    refuses a negative delay with [ValueError].  The bound is the one of
    exact arithmetic: the interpreter rounds the product to a float
    first, which moves the bound by less than a microsecond. *)
Definition time_sleep (secs : Q) : result unit :=
  let ns := (secs * inject_Z (10 ^ 9))%Q in
  if Qle_bool (inject_Z (2 ^ 63)) ns || Qlt_bool ns (inject_Z (- 2 ^ 63))
  then Raise (Exc "OverflowError"
                  "timestamp too large to convert to C _PyTime_t")
  else if Qlt_bool secs 0
  then Raise (Exc "ValueError" "sleep length must be non-negative")
  else Ok tt.

(** A wait that [time.sleep] accepts with room to spare: nine billion
    seconds, some 285 years, where [2 ^ 63] ns are some 292 years. *)
Definition max_wait : Q := 9000000000.

(** The number of attempts [for attempt in range(retries + 1)] allows:
    the first one and [retries] more. *)
Definition max_attempts (retries : Z) : nat := Z.to_nat (retries + 1).

(** A server that answers every request with a transient error. *)
Definition always_fails (post : trace -> string -> string -> post_result)
    : Prop :=
  forall tr model prompt, exists msg, post tr model prompt = HTTPError msg.

(** Shapes of a sequence of waits: each wait is the previous one plus
    [step]; each wait is the previous one times [factor]. *)
Fixpoint arithmetic (step : Q) (l : list Q) : Prop :=
  match l with
  | a :: ((b :: _) as t) => (b == a + step)%Q /\ arithmetic step t
  | _ => True
  end.

Fixpoint geometric (factor : Q) (l : list Q) : Prop :=
  match l with
  | a :: ((b :: _) as t) => (b == a * factor)%Q /\ geometric factor t
  | _ => True
  end.

Definition or_default {A : Type} (o : option A) (d : A) : A :=
  match o with
  | Some a => a
  | None => d
  end.

Definition _chars_to_tokens (chars : Z) : Z := Z.max 1 (chars / 4).

Definition _estimate_tokens (prompt : string) (expected_out_tokens : Z) : Z * Z :=
  let ptoks := _chars_to_tokens (Z.of_nat (String.length prompt)) in
  let otoks := Z.max 1 expected_out_tokens in
  (ptoks, otoks).

Definition _estimate_cost (model_row : Row) (in_tokens out_tokens : Z) : Q :=
  let pi := or_default (r_price_in_per_1k model_row) 0%Q in
  let po := or_default (r_price_out_per_1k model_row) 0%Q in
  ((inject_Z in_tokens / 1000) * pi + (inject_Z out_tokens / 1000) * po)%Q.

Definition is_ollama (p : option string) : bool :=
  match p with
  | Some s => (s =? "ollama")%string
  | None => false
  end.

Definition tiny_local_default : Row :=
  mkRow (Some "ollama") (Some "tinyllama") (Some 2) None None.

Definition triage_kinds : list string :=
  ["ms.mail_triage"; "pd.inbox_lead_actions"; "pd.mail_lead";
   "pd.thread_summary_to_pd"; "g.gmail_summarize"; "g.gmail_draft_reply"].

Section Router.

(** The process environment ([os.getenv]) and the module constants read
    from it or from the price table at import time. *)
Variable getenv : string -> option string.
Variable _MODELS : list Row.
Variable RETRIES : Z.
Variable RETRY_BACKOFF_S : Q.
Variable MODEL_TRIAGE_PRIMARY : string.
Variable MODEL_TRIAGE_FALLBACK : string.

(** The inference server: its answer to a request for a model and a
    prompt, given everything the process did before. *)
Variable post : trace -> string -> string -> post_result.

Definition _has_key_for (provider : option string) : bool :=
  match provider with
  | Some "openai" => truthy_opt (getenv "OPENAI_API_KEY")
  | Some "anthropic" => truthy_opt (getenv "ANTHROPIC_API_KEY")
  | Some "mistral" => truthy_opt (getenv "MISTRAL_API_KEY")
  | Some "google" =>
      truthy_opt (getenv "GOOGLE_API_KEY")
      || truthy_opt (getenv "GOOGLE_GENAI_API_KEY")
  | _ => false
  end.

(** Step 1 of [_pick_model_by_policy]: the viable rows with their
    estimated cost. *)
Fixpoint gather_viable (in_toks out_toks quality_floor : Z) (rows : list Row)
    : list (Q * Row) :=
  match rows with
  | [] => []
  | m :: rest =>
      let q := or_default (r_baseline_quality m) 1 in
      if q <? quality_floor
      then gather_viable in_toks out_toks quality_floor rest
      else if negb (is_ollama (r_provider m)) && negb (_has_key_for (r_provider m))
      then gather_viable in_toks out_toks quality_floor rest
      else (_estimate_cost m in_toks out_toks, m)
             :: gather_viable in_toks out_toks quality_floor rest
  end.

Definition _pick_model_by_policy (prompt : string) (expected_out_tokens : Z)
    (quality_floor : Z) : result Row :=
  let '(in_toks, out_toks) := _estimate_tokens prompt expected_out_tokens in
  match gather_viable in_toks out_toks quality_floor _MODELS with
  | [] =>
      match filter (fun m => is_ollama (r_provider m)) _MODELS with
      | m :: _ => Ok m
      | [] => Ok tiny_local_default
      end
  | (_ :: _) as viable =>
      match sort_by_key Qlt_bool fst viable with
      | (_, m) :: _ => Ok m
      | [] => Raise (Exc "IndexError" "list index out of range")
      end
  end.

(** The lightweight policy of the router; shadows nothing of
    [RoutingPolicy]. *)
Definition choose_model (quality_floor : Z) (integration_kind : option string)
    : string :=
  let structured :=
    match integration_kind with
    | Some k => mem k triage_kinds
    | None => false
    end in
  if structured then MODEL_TRIAGE_PRIMARY
  else if quality_floor <=? 2 then "tinyllama" else "phi3:mini".

Section Call.

Variable model : string.
Variable prompt : string.
Variable retries : Z.

Definition response_of (data : jobject) : json :=
  get_default "response" (JStr "") data.

(** The body of the [for attempt in range(retries + 1)] loop, over the
    attempts still to make.  The wait between two attempts is requested
    inside the [except] block, so an exception of [time.sleep] leaves
    the function as it is. *)
Fixpoint call_ollama_from (attempts : list Z) (tr : trace)
    : result json * trace :=
  match attempts with
  | [] =>
      (Raise (HTTPException 502 "Ollama call fell through unexpectedly"), tr)
  | attempt :: rest =>
      let tr1 := (tr ++ [Post Primary model])%list in
      match post tr model prompt with
      | Responded data => (Ok (response_of data), tr1)
      | HTTPError last_err =>
          if attempt <? retries
          then
            let delay := (RETRY_BACKOFF_S * inject_Z (attempt + 1))%Q in
            match time_sleep delay with
            | Ok _ => call_ollama_from rest (tr1 ++ [Sleep delay])%list
            | Raise e => (Raise e, tr1)
            end
          else if (model =? MODEL_TRIAGE_PRIMARY)%string
                  && truthy_str MODEL_TRIAGE_FALLBACK
          then
            let tr2 := (tr1 ++ [Post Fallback MODEL_TRIAGE_FALLBACK])%list in
            match post tr1 MODEL_TRIAGE_FALLBACK prompt with
            | Responded data => (Ok (response_of data), tr2)
            | HTTPError e2 =>
                (Raise (HTTPException 502
                          ("Ollama error (fallback failed): " ++ e2)), tr2)
            | Crashed e2 =>
                (Raise (HTTPException 502
                          ("Ollama error (fallback failed): " ++ exc_str e2)), tr2)
            end
          else (Raise (HTTPException 502 ("Ollama error: " ++ last_err)), tr1)
      | Crashed e => (Raise e, tr1)
      end
  end.

Definition call_ollama (tr : trace) : result json * trace :=
  call_ollama_from (py_range (retries + 1)) tr.

End Call.

(** The collaborators of [route]: the prefetch step, the prompt
    templates, the integration dispatcher, the elapsed time and the
    random job identifier. *)
Variable _prefetch_context : string -> IntegrationSpec -> result (option string).
Variable _build_triage_prompt : string -> string -> string.
Variable _build_pd_mailtriage_prompt : string -> string -> string.
Variable _build_pd_maillead_prompt : string -> string -> string.
Variable _build_gmail_summary_prompt : string -> string -> string.
Variable dispatch_integration : string -> json -> IntegrationSpec -> result jobject.
Variable elapsed_ms : Z.
Variable random_job_id : string.

Definition newline : string := String "010" EmptyString.

(** The prompt that reaches the model, after the optional prefetch. *)
Definition build_prompt (req : RouteRequest) : result string :=
  match req_integration req with
  | None => Ok (req_prompt req)
  | Some spec =>
      pre <- _prefetch_context (kind spec) spec ;;
      let k := kind spec in
      if truthy_opt pre then
        let ctx := or_default pre "" in
        if (k =? "ms.mail_triage")%string
        then Ok (_build_triage_prompt ctx (req_prompt req))
        else if (k =? "pd.inbox_lead_actions")%string
        then Ok (_build_pd_mailtriage_prompt ctx (req_prompt req))
        else if (k =? "pd.mail_lead")%string
        then Ok (_build_pd_maillead_prompt ctx (req_prompt req))
        else if (k =? "g.gmail_summarize")%string
        then Ok (_build_gmail_summary_prompt ctx (req_prompt req))
        else Ok (ctx ++ newline ++ newline ++ "=== USER REQUEST ===" ++ newline
                   ++ req_prompt req)
      else Ok (req_prompt req)
  end.

Definition validation_error : exn :=
  Exc "ValidationError" "validation error for RouteResponse".

(** Validation of a [str] and of an [Optional[str]] field of the
    response model. *)
Definition as_str (v : json) : result string :=
  match v with
  | JStr s => Ok s
  | _ => Raise validation_error
  end.

Definition as_opt_str (v : json) : result (option string) :=
  match v with
  | JNull => Ok None
  | JStr s => Ok (Some s)
  | _ => Raise validation_error
  end.

(** [route] after the call to the model: integration dispatch and the
    response. *)
Definition finish_route (req : RouteRequest) (provider model : string)
    (output : json) : result RouteResponse :=
  '(artifact_uri, integration_status, output) <-
    match req_integration req with
    | None => Ok (JNull, JNull, output)
    | Some spec =>
        result <- dispatch_integration (kind spec) output spec ;;
        let artifact_uri := get_default "artifact_uri" JNull result in
        let integration_status :=
          get_default "integration_status" (JStr "ok") result in
        let override := get_default "output_override" JNull result in
        Ok (artifact_uri, integration_status,
            if truthy override then override else output)
    end ;;
  output_text <- as_str output ;;
  artifact_uri <- as_opt_str artifact_uri ;;
  integration_status <- as_opt_str integration_status ;;
  Ok (mkRouteResponse random_job_id provider model output_text 0%Q
        elapsed_ms false artifact_uri integration_status).

Definition route (req : RouteRequest) : result RouteResponse * trace :=
  let kind := option_map kind (req_integration req) in
  match build_prompt req with
  | Raise e => (Raise e, [])
  | Ok prompt =>
      match _pick_model_by_policy prompt (req_expected_output_tokens req)
              (req_quality_floor req) with
      | Raise e => (Raise e, [])
      | Ok planned =>
          match r_provider planned, r_model planned with
          | None, _ => (Raise (Exc "KeyError" "'provider'"), [])
          | Some _, None => (Raise (Exc "KeyError" "'model'"), [])
          | Some provider0, Some model0 =>
              let coerce := negb (provider0 =? "ollama")%string in
              let provider := if coerce then "ollama" else provider0 in
              let model :=
                if coerce then choose_model (req_quality_floor req) kind
                else model0 in
              match call_ollama model prompt RETRIES [] with
              | (Raise e, tr) => (Raise e, tr)
              | (Ok output, tr) => (finish_route req provider model output, tr)
              end
          end
      end
  end.

(** [GET /warmup]: load a model with one short prompt, without retries.
    An [HTTPException] of the call becomes an error report. *)
Definition warmup (kind : option string) : result jobject * trace :=
  let model := choose_model 3 (Some (or_default kind "")) in
  match call_ollama model "ok" 0 [] with
  | (Ok _, tr) =>
      (Ok [("status", JStr "ok"); ("model", JStr model);
           ("latency_ms", JInt elapsed_ms)], tr)
  | (Raise (HTTPException _ detail), tr) =>
      (Ok [("status", JStr "error"); ("model", JStr model);
           ("detail", JStr detail)], tr)
  | (Raise e, tr) => (Raise e, tr)
  end.

End Router.

(** The trace of [n] failed attempts in a row, the first of them attempt
    number [a], each followed by its wait. *)
Fixpoint failed_attempts (backoff : Q) (model : string) (a n : nat) : trace :=
  match n with
  | O => []
  | S n' =>
      Post Primary model
        :: Sleep (backoff * inject_Z (Z.of_nat a + 1))
        :: failed_attempts backoff model (S a) n'
  end.

(** The time a trace spends asleep. *)
Definition total_wait (tr : trace) : Q := fold_right Qplus 0%Q (sleeps tr).

(** The viability test of the planner's first loop. *)
Definition viable (getenv : string -> option string) (quality_floor : Z)
    (m : Row) : bool :=
  negb (or_default (r_baseline_quality m) 1 <? quality_floor)
  && (is_ollama (r_provider m) || _has_key_for getenv (r_provider m)).

End ApiMain.

(** ** app/queue_client.py *)

Module QueueClient.

Import QueueWorker.

Section Connection.

Variable connect_robust : Z -> result string.

(** The [while True] loop of [_connect_with_retry]: the limit always
    applies, and the waits are capped at 10 s. *)
Fixpoint connect_loop (fuel : nat) (max_attempts : Z) (attempt : Z)
    (tr : list conn_event) : option (result string * list conn_event) :=
  match fuel with
  | O => None
  | S fuel' =>
      let attempt := attempt + 1 in
      let tr1 := (tr ++ [Connect attempt])%list in
      match connect_robust attempt with
      | Ok conn => Some (Ok conn, tr1)
      | Raise e =>
          if max_attempts <=? attempt
          then Some (Raise e, tr1)
          else
            match backoff_delay 1 10 attempt with
            | Ok delay =>
                connect_loop fuel' max_attempts attempt
                  (tr1 ++ [Wait delay])%list
            | Raise e' => Some (Raise e', tr1)
            end
      end
  end.

Definition _connect_with_retry (fuel : nat) (max_attempts : Z)
    : option (result string * list conn_event) :=
  connect_loop fuel max_attempts 0 [].

End Connection.

End QueueClient.

(** ** app/utils.py *)

Module Utils.

(** The limiter: [self.bucket] is read with [.get(k, 0)] only, so it is
    a total map from (key, start of window) to a count.  The window is
    60 s; the start of a window is a whole number of seconds. *)
Record RateLimiter : Type := mkRateLimiter {
  enabled : bool;
  reqs : Z;
  bucket : string -> Z -> Z
}.

Definition window : Z := 60.

(** [int(now // self.window) * self.window] *)
Definition window_start (now : Q) : Z := Qfloor (now / inject_Z window) * window.

Definition bucket_set (b : string -> Z -> Z) (key : string) (ws : Z) (n : Z)
    : string -> Z -> Z :=
  fun k w => if (k =? key)%string && (w =? ws) then n else b k w.

(** [RateLimiter.allow]: the verdict, the seconds left in the window
    when refused, and the limiter afterwards. *)
Definition allow (rl : RateLimiter) (key : string) (now : Q)
    : (bool * Q) * RateLimiter :=
  if negb (enabled rl) then ((true, 0%Q), rl)
  else
    let ws := window_start now in
    let count := bucket rl key ws in
    if reqs rl <=? count
    then ((false, (inject_Z window - (now - inject_Z ws))%Q), rl)
    else ((true, 0%Q),
          mkRateLimiter (enabled rl) (reqs rl)
            (bucket_set (bucket rl) key ws (count + 1))).

(** A run of calls for one key, at the given times. *)
Fixpoint allow_all (rl : RateLimiter) (key : string) (times : list Q)
    : list bool * RateLimiter :=
  match times with
  | [] => ([], rl)
  | now :: rest =>
      let '((ok, _), rl1) := allow rl key now in
      let '(oks, rl2) := allow_all rl1 key rest in
      (ok :: oks, rl2)
  end.

End Utils.

(** ** Scenario data *)

(** The two-row catalog of the routing scenarios: a free local model of
    quality 2 and a hosted model of quality 4. *)
Definition local_tiny : RoutingPolicy.ModelRow :=
  RoutingPolicy.mkModelRow "local" "tiny" fzero fzero 1000000 1000000 2.

Definition hosted_big : RoutingPolicy.ModelRow :=
  RoutingPolicy.mkModelRow "hosted" "big" (decimal 2 3) (decimal 6 3)
    1000000 1000000 4.

Definition no_hints : RoutingPolicy.Hints := RoutingPolicy.mkHints None None.

Definition no_tiktoken : string -> option Z := fun _ => None.

Definition two_row_catalog : list RoutingPolicy.ModelRow :=
  [local_tiny; hosted_big].

(** A queued job and the message that carries it. *)
Definition queued_job : Models.Job :=
  Models.mkJob "job-1" "user-1" "summarize" Models.queued 100 100 0 None.

Definition one_job_db : Models.Db := Models.mkDb [queued_job] [] [].

Definition job_message : QueueWorker.Payload :=
  QueueWorker.mkPayload "job-1"
    (QueueWorker.mkBody (Some "hello world!") false (Some 50) (Some 2) None None).

(** An adapter whose first call times out and whose later calls would
    answer. *)
Definition times_out_once :
    list QueueWorker.AdapterCall ->
    string -> string -> string -> Z -> Q -> string -> Z ->
    result (string * TokenUtils.TokenStats) :=
  fun before _ _ _ _ _ _ _ =>
    match before with
    | [] => Raise (Exc "ReadTimeout" "timed out")
    | _ :: _ => Ok ("done", TokenUtils.mkTokenStats 3 7)
    end.

(** An inference server that is down, and one that answers. *)
Definition server_down : ApiMain.trace -> string -> string -> ApiMain.post_result :=
  fun _ _ _ => ApiMain.HTTPError "timed out".

Definition server_up : ApiMain.trace -> string -> string -> ApiMain.post_result :=
  fun _ _ _ => ApiMain.Responded [("response", JStr "done")].

(** A price table that plans a hosted model, an environment that holds
    its key, and a plain request. *)
Definition hosted_catalog : list ApiMain.Row :=
  [ApiMain.mkRow (Some "openai") (Some "gpt-4o-mini") (Some 4)
     (Some (15 # 100)) (Some (6 # 10))].

Definition env_with_openai_key : string -> option string :=
  fun name => if (name =? "OPENAI_API_KEY")%string then Some "sk-test" else None.

Definition plain_request : ApiMain.RouteRequest :=
  ApiMain.mkRouteRequest "user-1" "summarize" "hello world!" 3 (5 # 100) 128 None.

(** Two submissions under the dedupe key ["k1"]. *)
Definition first_submission : Models.Job :=
  Models.mkJob "job-2" "user-1" "summarize" Models.queued 200 200 0 (Some "k1").

Definition second_submission : Models.Job :=
  Models.mkJob "job-3" "user-1" "summarize" Models.queued 300 300 0 (Some "k1").

(** Upstream answers that carry a text and no usage fields. *)
Definition ollama_answer_without_usage : jobject :=
  [("response", JStr " hi ")].

Definition openai_answer_without_usage : jobject :=
  [("choices",
    JArr [JObj [("message", JObj [("role", JStr "assistant");
                                  ("content", JStr "hi")])]])].

(** A server that fails its first request and answers from then on,
    and one whose triage model is down while [tinyllama] answers. *)
Definition flaky_server : ApiMain.trace -> string -> string -> ApiMain.post_result :=
  fun tr _ _ =>
    if (List.length (ApiMain.calls tr) <? 1)%nat
    then ApiMain.HTTPError "timed out"
    else ApiMain.Responded [("response", JStr "done")].

Definition primary_down : ApiMain.trace -> string -> string -> ApiMain.post_result :=
  fun _ model _ =>
    if (model =? "tinyllama")%string
    then ApiMain.Responded [("response", JStr "from fallback")]
    else ApiMain.HTTPError "timed out".

(** A request with a document integration, and a dispatcher whose result
    replaces the model's output. *)
Definition word_spec : ApiMain.IntegrationSpec :=
  ApiMain.mkIntegrationSpec "ms.word_upsert" (Some "notes.docx") None [].

Definition word_request : ApiMain.RouteRequest :=
  ApiMain.mkRouteRequest "user-1" "summarize" "hello world!" 2 (5 # 100) 128
    (Some word_spec).

Definition dispatch_with_override :
    string -> json -> ApiMain.IntegrationSpec -> result jobject :=
  fun _ _ _ =>
    Ok [("artifact_uri", JStr "https://example.test/notes.docx");
        ("output_override", JStr "Saved.")].

(** A local catalog: a small and a larger local model, and a hosted
    one. *)
Definition mixed_catalog : list ApiMain.Row :=
  [ApiMain.mkRow (Some "openai") (Some "gpt-4o-mini") (Some 4)
     (Some (15 # 100)) (Some (6 # 10));
   ApiMain.mkRow (Some "ollama") (Some "phi3:mini") (Some 3) None None;
   ApiMain.mkRow (Some "ollama") (Some "tinyllama") (Some 2) None None].

Definition empty_env : string -> option string := fun _ => None.

(** An adapter that answers every call. *)
Definition always_answers :
    string -> string -> string -> Z -> Q -> string -> Z ->
    result (string * TokenUtils.TokenStats) :=
  fun _ _ _ _ _ _ _ => Ok ("done", TokenUtils.mkTokenStats 3 7).

(** A broker that refuses every connection, and one that accepts the
    third attempt. *)
Definition broker_down : Z -> result string :=
  fun _ => Raise (Exc "AMQPConnectionError" "connection refused").

Definition broker_up_at_third : Z -> result string :=
  fun attempt =>
    if attempt =? 3 then Ok "connection"
    else Raise (Exc "AMQPConnectionError" "connection refused").

(** A limiter of two requests per minute that has seen nothing yet. *)
Definition fresh_limiter : Utils.RateLimiter :=
  Utils.mkRateLimiter true 2 (fun _ _ => 0).

(** The estimated costs of the two rows for 3 input and 50 output
    tokens, and the decisions that carry them. *)
Definition hosted_cost : float :=
  fadd (fmul (fdiv (nearest_float 3) RoutingPolicy.thousand) (decimal 2 3))
       (fmul (fdiv (nearest_float 50) RoutingPolicy.thousand) (decimal 6 3)).

Definition local_cost : float :=
  fadd (fmul (fdiv (nearest_float 3) RoutingPolicy.thousand) fzero)
       (fmul (fdiv (nearest_float 50) RoutingPolicy.thousand) fzero).

Definition hosted_decision : RoutingPolicy.RouteDecision :=
  RoutingPolicy.mkRouteDecision "hosted" "big" hosted_cost
    "Be brief." (2 # 10) false (TokenUtils.mkTokenStats 3 50).

Definition local_decision : RoutingPolicy.RouteDecision :=
  RoutingPolicy.mkRouteDecision "local" "tiny" local_cost
    "Be brief." (2 # 10) false (TokenUtils.mkTokenStats 3 50).

(** The response of a plain request served by [phi3:mini]. *)
Definition plain_response : ApiMain.RouteResponse :=
  ApiMain.mkRouteResponse "a1b2c3d4e5f60718" "ollama" "phi3:mini" "done" 0 42
    false None None.

Definition tags_answer : list Providers.TagEntry :=
  [Providers.mkTagEntry (Some "llama3:latest") (Some "llama3:latest");
   Providers.mkTagEntry (Some "phi3:mini") (Some " phi3:mini ");
   Providers.mkTagEntry None None].

(** * Properties *)

Local Open Scope list_scope.

(** ** Comparisons and the stable sort *)

Lemma Qlt_bool_iff (a b : Q) : Qlt_bool a b = true <-> (a < b)%Q.
Proof.
  unfold Qlt_bool. rewrite negb_true_iff.
  split; intro H.
  - apply Qnot_le_lt. intro Hle. apply Qle_bool_iff in Hle. congruence.
  - destruct (Qle_bool b a) eqn:E; [|reflexivity].
    apply Qle_bool_iff in E. exfalso. exact (Qlt_not_le _ _ H E).
Qed.

Lemma Qlt_bool_false_iff (a b : Q) : Qlt_bool a b = false <-> (b <= a)%Q.
Proof.
  unfold Qlt_bool. rewrite negb_false_iff. apply Qle_bool_iff.
Qed.

(** *** The order of floats *)

Section FloatOrder.

Lemma flt_rank (a b : float) :
  is_nan a = false -> is_nan b = false ->
  (flt a b = true <-> lex_lt (rank a) (rank b)).
Proof.
  intros Ha Hb.
  destruct a as [sa|sa| |sa ma ea]; try discriminate;
  destruct b as [sb|sb| |sb mb eb]; try discriminate;
  try destruct sa; try destruct sb;
  unfold flt, SFltb, SFcompare, rank, lex_lt;
  try (split; [discriminate | lia]);
  try (split; [lia | reflexivity ]);
  try (split; [intros _; lia | reflexivity ]).
  all: change (Pos.compare_cont Eq ma mb) with (Pos.compare ma mb).
  all: destruct (Z.compare_spec ea eb); destruct (Pos.compare_spec ma mb);
    simpl; split; intro; try discriminate; try reflexivity; try lia.
Qed.

Lemma fle_rank (a b : float) :
  is_nan a = false -> is_nan b = false ->
  (fle a b = true <-> ~ lex_lt (rank b) (rank a)).
Proof.
  intros Ha Hb.
  destruct a as [sa|sa| |sa ma ea]; try discriminate;
  destruct b as [sb|sb| |sb mb eb]; try discriminate;
  try destruct sa; try destruct sb;
  unfold fle, SFleb, SFcompare, rank, lex_lt;
  try (split; [discriminate | lia]);
  try (split; [lia | reflexivity ]);
  try (split; [intros _; lia | reflexivity ]).
  all: change (Pos.compare_cont Eq ma mb) with (Pos.compare ma mb).
  all: destruct (Z.compare_spec ea eb); destruct (Pos.compare_spec ma mb);
    simpl; split; intro; try discriminate; try reflexivity; try lia.
Qed.

Lemma lex_lt_asym (a b : Z * Z * Z) : lex_lt a b -> ~ lex_lt b a.
Proof. destruct a as [[a1 a2] a3], b as [[b1 b2] b3]. simpl. lia. Qed.

Lemma lex_le_trans (a b c : Z * Z * Z) :
  ~ lex_lt a b -> ~ lex_lt b c -> ~ lex_lt a c.
Proof.
  destruct a as [[a1 a2] a3], b as [[b1 b2] b3], c as [[c1 c2] c3].
  simpl. lia.
Qed.

(** A comparison that holds has numbers on both sides. *)
Lemma flt_true_number (a b : float) :
  flt a b = true -> is_nan a = false /\ is_nan b = false.
Proof.
  destruct a as [sa|sa| |sa ma ea], b as [sb|sb| |sb mb eb];
    try discriminate; auto.
Qed.

Lemma fle_true_number (a b : float) :
  fle a b = true -> is_nan a = false /\ is_nan b = false.
Proof.
  destruct a as [sa|sa| |sa ma ea], b as [sb|sb| |sb mb eb];
    try discriminate; auto.
Qed.

Lemma flt_false_iff (a b : float) :
  is_nan a = false -> is_nan b = false ->
  (flt a b = false <-> fle b a = true).
Proof.
  intros Ha Hb.
  rewrite (fle_rank b a Hb Ha), <- (flt_rank a b Ha Hb).
  destruct (flt a b); split; intro H; congruence.
Qed.

Lemma flt_asym (a b : float) : flt a b = true -> flt b a = false.
Proof.
  intro H. destruct (flt_true_number _ _ H) as [Ha Hb].
  apply (flt_rank a b Ha Hb) in H.
  destruct (flt b a) eqn:E; [|reflexivity].
  apply (flt_rank b a Hb Ha) in E.
  exfalso. exact (lex_lt_asym _ _ H E).
Qed.

Lemma flt_negtrans (a b c : float) :
  is_nan a = false -> is_nan b = false -> is_nan c = false ->
  flt a b = false -> flt b c = false -> flt a c = false.
Proof.
  intros Ha Hb Hc Hab Hbc.
  destruct (flt a c) eqn:E; [|reflexivity].
  apply (flt_rank a c Ha Hc) in E.
  exfalso. apply (lex_le_trans (rank a) (rank b) (rank c)); auto.
  - intro H. apply (flt_rank a b Ha Hb) in H. congruence.
  - intro H. apply (flt_rank b c Hb Hc) in H. congruence.
Qed.

Lemma fle_trans (a b c : float) :
  fle a b = true -> fle b c = true -> fle a c = true.
Proof.
  intros Hab Hbc.
  destruct (fle_true_number _ _ Hab) as [Ha Hb].
  destruct (fle_true_number _ _ Hbc) as [_ Hc].
  apply (flt_false_iff c a Hc Ha).
  apply (flt_negtrans c b a Hc Hb Ha).
  - apply (flt_false_iff c b Hc Hb). exact Hbc.
  - apply (flt_false_iff b a Hb Ha). exact Hab.
Qed.

Lemma flt_fle (a b : float) : flt a b = true -> fle a b = true.
Proof.
  intro H. destruct (flt_true_number _ _ H) as [Ha Hb].
  apply (flt_false_iff b a Hb Ha). exact (flt_asym _ _ H).
Qed.

Lemma fle_refl (a : float) : is_nan a = false -> fle a a = true.
Proof.
  intro Ha. apply (flt_false_iff a a Ha Ha).
  destruct (flt a a) eqn:E; [|reflexivity].
  pose proof (flt_asym _ _ E). congruence.
Qed.

End FloatOrder.

Section SortFacts.

Context {A K : Type} (lt : K -> K -> bool) (key : A -> K).

Lemma insert_by_key_not_nil (x : A) (l : list A) :
  insert_by_key lt key x l <> [].
Proof.
  destruct l as [|y t]; simpl; [discriminate|].
  destruct (lt (key y) (key x)); discriminate.
Qed.

Lemma sort_by_key_nil_inv (l : list A) : sort_by_key lt key l = [] -> l = [].
Proof.
  destruct l as [|x t]; [reflexivity|].
  simpl. intro H. exfalso. exact (insert_by_key_not_nil _ _ H).
Qed.

(** The keys that [lt] orders: on them it is asymmetric, and its
    negation is transitive. *)
Variable ordered : K -> Prop.
Hypothesis lt_asym :
  forall a b, ordered a -> ordered b -> lt a b = true -> lt b a = false.
Hypothesis lt_negtrans :
  forall a b c, ordered a -> ordered b -> ordered c ->
    lt a b = false -> lt b c = false -> lt a c = false.

(** The head of the sorted list is the first element of the input whose
    key is minimal: everything before it is strictly greater, nothing
    after it is smaller. *)
Lemma sort_by_key_head (l : list A) :
  Forall (fun y => ordered (key y)) l ->
  forall x rest,
    sort_by_key lt key l = x :: rest ->
    exists l1 l2,
      l = l1 ++ x :: l2
      /\ Forall (fun y => lt (key x) (key y) = true) l1
      /\ Forall (fun y => lt (key y) (key x) = false) l2.
Proof.
  induction l as [|a t IH]; intros Hord x rest Hs; [discriminate|].
  inversion Hord as [|? ? Ha Ht]; subst.
  simpl in Hs.
  destruct (sort_by_key lt key t) as [|y s] eqn:Et.
  - apply sort_by_key_nil_inv in Et. subst t.
    simpl in Hs. injection Hs as <- _.
    exists [], []. repeat split; constructor.
  - destruct (IH Ht y s eq_refl) as (t1 & t2 & Hsplit & H1 & H2).
    assert (Hy : ordered (key y)).
    { rewrite Hsplit in Ht. apply Forall_app in Ht. destruct Ht as [_ Ht].
      inversion Ht; assumption. }
    simpl in Hs.
    destruct (lt (key y) (key a)) eqn:Ecmp.
    + injection Hs as <- _.
      exists (a :: t1), t2. subst t. repeat split; auto.
    + injection Hs as <- _.
      exists [], t. split; [reflexivity|]. split; [constructor|].
      rewrite Forall_forall in Ht.
      rewrite Hsplit. rewrite Hsplit in Ht.
      apply Forall_app. split.
      * rewrite Forall_forall in H1. apply Forall_forall. intros z Hz.
        assert (Hzo : ordered (key z))
          by (apply Ht; apply in_or_app; left; exact Hz).
        apply (lt_negtrans _ (key y) _ Hzo Hy Ha); [|exact Ecmp].
        apply lt_asym; auto.
      * constructor; [exact Ecmp|].
        rewrite Forall_forall in H2. apply Forall_forall. intros z Hz.
        assert (Hzo : ordered (key z))
          by (apply Ht; apply in_or_app; right; right; exact Hz).
        apply (lt_negtrans _ (key y) _ Hzo Hy Ha); [|exact Ecmp].
        apply H2. exact Hz.
Qed.

End SortFacts.


Lemma sort_by_key_head_float {A : Type} (key : A -> float) (l : list A) :
  Forall (fun y => is_nan (key y) = false) l ->
  forall x rest,
    sort_by_key flt key l = x :: rest ->
    exists l1 l2,
      l = l1 ++ x :: l2
      /\ Forall (fun y => flt (key x) (key y) = true) l1
      /\ Forall (fun y => fle (key x) (key y) = true) l2.
Proof.
  intros Hnum x rest Hs.
  destruct (sort_by_key_head flt key (fun k => is_nan k = false))
    with (l := l) (x := x) (rest := rest) as (l1 & l2 & Hl & H1 & H2).
  - intros a b _ _. apply flt_asym.
  - exact flt_negtrans.
  - exact Hnum.
  - exact Hs.
  - exists l1, l2. split; [exact Hl|]. split; [exact H1|].
    rewrite Forall_forall in Hnum, H2. apply Forall_forall. intros y Hy.
    assert (Hx : is_nan (key x) = false).
    { apply Hnum. rewrite Hl. apply in_or_app. right. left. reflexivity. }
    assert (Hyn : is_nan (key y) = false).
    { apply Hnum. rewrite Hl. apply in_or_app. right. right. exact Hy. }
    apply (flt_false_iff _ _ Hyn Hx). apply H2. exact Hy.
Qed.

(** ** Token estimation *)

Section TokenUtilsFacts.

Import TokenUtils.

(** C4 (as amended).  For a provider other than ["openai"], the estimate
    has [tokens_in = 0] for the empty prompt and
    [max 1 (len prompt / 4)] for any other prompt, and [tokens_out] is
    the caller's [expected_output_tokens] unchanged, whatever its sign. *)
Theorem estimate_tokens_heuristic
    (tiktoken_count : string -> option Z)
    (provider model prompt : string) (expected_output_tokens : Z) :
  provider <> "openai" ->
  estimate_tokens tiktoken_count provider model prompt expected_output_tokens
  = mkTokenStats
      (if (prompt =? "")%string then 0
       else Z.max 1 (Z.of_nat (String.length prompt) / 4))
      expected_output_tokens.
Proof.
  intro Hp. unfold estimate_tokens.
  apply String.eqb_neq in Hp. rewrite Hp.
  unfold approx_tokens, truthy_str. rewrite negb_involutive.
  reflexivity.
Qed.

Lemma estimate_tokens_heuristic_witness :
  estimate_tokens (fun _ => None) "ollama" "tinyllama" "hello world!" (-3)
  = mkTokenStats 3 (-3).
Proof.
  apply (estimate_tokens_heuristic (fun _ => None) "ollama" "tinyllama"
           "hello world!" (-3)).
  discriminate.
Defined.

(** C4 (as stated) fails on the empty prompt with no expected output:
    the estimate is [(0, 0)], not [(max 1 0, max 1 0) = (1, 1)]. *)
Lemma estimate_tokens_not_clamped :
  estimate_tokens (fun _ => None) "ollama" "tinyllama" "" 0
  <> mkTokenStats (Z.max 1 (Z.of_nat (String.length "") / 4)) (Z.max 1 0).
Proof.
  vm_compute. discriminate.
Qed.

End TokenUtilsFacts.

(** ** The routing policy *)

Section RoutingFacts.

Import TokenUtils RoutingPolicy.

Variable tiktoken_count : string -> option Z.
Variable default_prompt : string.
Variable input_text : string.
Variable expected_output_tokens : Z.
Variable quality_floor : Z.
Variable provider_hints : Hints.

Let tokens_of (row : ModelRow) :=
  estimate_tokens tiktoken_count (provider row) (model row)
                  input_text expected_output_tokens.

(** The gates of the loop that do not look at the cost. *)
Let passes (row : ModelRow) : Prop :=
  hint_excludes (hint_provider provider_hints) (provider row) = false
  /\ hint_excludes (hint_model provider_hints) (model row) = false
  /\ quality_floor <= baseline_quality row
  /\ tokens_in (tokens_of row) <= max_input_tokens row
  /\ tokens_out (tokens_of row) <= max_output_tokens row.

Section Ceiling.

Variable cost_ceiling_usd : float.

Let consider_row :=
  consider tiktoken_count input_text expected_output_tokens quality_floor
           cost_ceiling_usd provider_hints.
Let collect_rows :=
  collect tiktoken_count input_text expected_output_tokens quality_floor
          cost_ceiling_usd provider_hints.

(** A row that passes the first gates reaches the budget gate with its
    estimated cost. *)
Lemma consider_passes (row : ModelRow) :
  passes row ->
  consider_row row
  = (cost <- estimated_cost row (tokens_of row) ;;
     if flt fzero cost_ceiling_usd && flt cost_ceiling_usd cost
     then Ok None
     else Ok (Some (row, cost, tokens_of row))).
Proof.
  intros (Hp & Hm & Hq & Hi & Ho).
  unfold consider_row, consider. fold (tokens_of row).
  rewrite Hp, Hm.
  apply Z.ltb_ge in Hq, Hi, Ho. rewrite Hq, Hi, Ho. reflexivity.
Qed.

(** A surviving row is appended with its own cost and token estimate,
    and has passed every gate. *)
Lemma consider_Some (row : ModelRow) (c : Candidate) :
  consider_row row = Ok (Some c) ->
  exists cost,
    estimated_cost row (tokens_of row) = Ok cost
    /\ c = (row, cost, tokens_of row)
    /\ passes row
    /\ flt fzero cost_ceiling_usd && flt cost_ceiling_usd cost = false.
Proof.
  unfold consider_row, consider, passes. fold (tokens_of row).
  destruct (hint_excludes (hint_provider provider_hints) (provider row));
    [discriminate|].
  destruct (hint_excludes (hint_model provider_hints) (model row));
    [discriminate|].
  destruct (baseline_quality row <? quality_floor) eqn:Eq; [discriminate|].
  destruct (max_input_tokens row <? tokens_in (tokens_of row)) eqn:Ei;
    [discriminate|].
  destruct (max_output_tokens row <? tokens_out (tokens_of row)) eqn:Eo;
    [discriminate|].
  destruct (estimated_cost row (tokens_of row)) as [cost|e]; [|discriminate].
  simpl.
  destruct (flt fzero cost_ceiling_usd && flt cost_ceiling_usd cost) eqn:Eb;
    [discriminate|].
  intro H. injection H as <-.
  apply Z.ltb_ge in Eq, Ei, Eo.
  exists cost. repeat split; assumption.
Qed.

(** Whether a row raises does not depend on the ceiling. *)
Lemma consider_Ok_cases (row : ModelRow) (o : option Candidate) :
  consider_row row = Ok o ->
  (passes row /\ exists cost, estimated_cost row (tokens_of row) = Ok cost)
  \/ (~ passes row /\ o = None).
Proof.
  unfold consider_row, consider, passes. fold (tokens_of row).
  destruct (hint_excludes (hint_provider provider_hints) (provider row));
    [intro H; injection H as <-; right; split; [intros (? & _); discriminate|reflexivity]|].
  destruct (hint_excludes (hint_model provider_hints) (model row));
    [intro H; injection H as <-; right; split; [intros (_ & ? & _); discriminate|reflexivity]|].
  destruct (baseline_quality row <? quality_floor) eqn:Eq;
    [intro H; injection H as <-; right; split;
       [intros (_ & _ & ? & _); apply Z.ltb_lt in Eq; lia|reflexivity]|].
  destruct (max_input_tokens row <? tokens_in (tokens_of row)) eqn:Ei;
    [intro H; injection H as <-; right; split;
       [intros (_ & _ & _ & ? & _); apply Z.ltb_lt in Ei; lia|reflexivity]|].
  destruct (max_output_tokens row <? tokens_out (tokens_of row)) eqn:Eo;
    [intro H; injection H as <-; right; split;
       [intros (_ & _ & _ & _ & ?); apply Z.ltb_lt in Eo; lia|reflexivity]|].
  apply Z.ltb_ge in Eq, Ei, Eo.
  destruct (estimated_cost row (tokens_of row)) as [cost|e]; [|discriminate].
  intros _. left. split; [repeat split; assumption|].
  exists cost. reflexivity.
Qed.

Lemma consider_not_passes (row : ModelRow) :
  ~ passes row -> consider_row row = Ok None.
Proof.
  unfold consider_row, consider, passes. fold (tokens_of row).
  intro H.
  destruct (hint_excludes (hint_provider provider_hints) (provider row));
    [reflexivity|].
  destruct (hint_excludes (hint_model provider_hints) (model row));
    [reflexivity|].
  destruct (baseline_quality row <? quality_floor) eqn:Eq; [reflexivity|].
  destruct (max_input_tokens row <? tokens_in (tokens_of row)) eqn:Ei;
    [reflexivity|].
  destruct (max_output_tokens row <? tokens_out (tokens_of row)) eqn:Eo;
    [reflexivity|].
  apply Z.ltb_ge in Eq, Ei, Eo.
  exfalso. apply H. repeat split; assumption.
Qed.

Lemma collect_cons (row : ModelRow) (rest : list ModelRow)
    (cs : list Candidate) :
  collect_rows (row :: rest) = Ok cs ->
  exists o cs',
    consider_row row = Ok o
    /\ collect_rows rest = Ok cs'
    /\ cs = match o with
            | Some c => c :: cs'
            | None => cs'
            end.
Proof.
  unfold collect_rows, consider_row. simpl.
  destruct (consider tiktoken_count input_text expected_output_tokens
              quality_floor cost_ceiling_usd provider_hints row)
    as [o|e]; [|discriminate].
  simpl.
  destruct (collect tiktoken_count input_text expected_output_tokens
              quality_floor cost_ceiling_usd provider_hints rest)
    as [cs'|e]; [|discriminate].
  simpl. intro H. injection H as <-.
  exists o, cs'. auto.
Qed.

(** Candidates are collected in catalog order. *)
Lemma collect_split (rows : list ModelRow) :
  forall c1 c c2,
    collect_rows rows = Ok (c1 ++ c :: c2) ->
    exists r1 r r2,
      rows = r1 ++ r :: r2
      /\ collect_rows r1 = Ok c1
      /\ consider_row r = Ok (Some c)
      /\ collect_rows r2 = Ok c2.
Proof.
  induction rows as [|row rest IH]; intros c1 c c2 H.
  - unfold collect_rows in H. simpl in H. injection H as H.
    destruct c1; discriminate.
  - destruct (collect_cons _ _ _ H) as (o & cs' & Ho & Hrest & Hcs).
    destruct o as [c0|].
    + destruct c1 as [|c1h c1t]; simpl in Hcs.
      * injection Hcs as -> ->.
        exists [], row, rest. repeat split; auto.
      * injection Hcs as -> <-.
        destruct (IH _ _ _ Hrest) as (r1 & r & r2 & -> & H1 & H2 & H3).
        exists (row :: r1), r, r2. split; [reflexivity|].
        split; [|auto].
        unfold collect_rows, consider_row in *. simpl.
        rewrite Ho, H1. reflexivity.
    + subst cs'.
      destruct (IH _ _ _ Hrest) as (r1 & r & r2 & -> & H1 & H2 & H3).
      exists (row :: r1), r, r2. split; [reflexivity|].
      split; [|auto].
      unfold collect_rows, consider_row in *. simpl.
      rewrite Ho, H1. reflexivity.
Qed.

Lemma collect_In (rows : list ModelRow) (cs : list Candidate)
    (row : ModelRow) (c : Candidate) :
  collect_rows rows = Ok cs ->
  In row rows -> consider_row row = Ok (Some c) -> In c cs.
Proof.
  revert cs. induction rows as [|r rest IH]; intros cs Hcs Hin Hc;
    [contradiction|].
  destruct (collect_cons _ _ _ Hcs) as (o & cs' & Ho & Hrest & ->).
  destruct Hin as [->|Hin].
  - rewrite Hc in Ho. injection Ho as <-. left. reflexivity.
  - destruct o; [right|]; eauto.
Qed.

Lemma collect_Ok_consider (rows : list ModelRow) (cs : list Candidate)
    (row : ModelRow) :
  collect_rows rows = Ok cs ->
  In row rows -> exists o, consider_row row = Ok o.
Proof.
  revert cs. induction rows as [|r rest IH]; intros cs Hcs Hin;
    [contradiction|].
  destruct (collect_cons _ _ _ Hcs) as (o & cs' & Ho & Hrest & ->).
  destruct Hin as [->|Hin]; eauto.
Qed.

Lemma collect_Ok_intro (rows : list ModelRow) :
  (forall row, In row rows -> exists o, consider_row row = Ok o) ->
  exists cs, collect_rows rows = Ok cs.
Proof.
  induction rows as [|r rest IH]; intro H.
  - exists []. reflexivity.
  - destruct (H r (or_introl eq_refl)) as [o Ho].
    destruct IH as [cs Hcs]; [intros; apply H; right; assumption|].
    unfold collect_rows, consider_row in *. simpl. rewrite Ho, Hcs.
    simpl. eauto.
Qed.

Lemma collect_nil (rows : list ModelRow) :
  (forall row, In row rows -> consider_row row = Ok None) ->
  collect_rows rows = Ok [].
Proof.
  induction rows as [|r rest IH]; intro H; [reflexivity|].
  unfold collect_rows, consider_row in *. simpl.
  rewrite (H r (or_introl eq_refl)). simpl.
  rewrite IH; [reflexivity|]. intros; apply H; right; assumption.
Qed.

End Ceiling.

End RoutingFacts.

Section ChooseModelFacts.

Import TokenUtils RoutingPolicy.

Variable tiktoken_count : string -> option Z.
Variable default_prompt : string.
Variable price_rows : list ModelRow.
Variable input_text : string.
Variable expected_output_tokens : Z.
Variable quality_floor : Z.
Variable cost_ceiling_usd : float.
Variable provider_hints : Hints.

(** A decision is the head of the sorted, non-empty list of candidates. *)
Lemma choose_model_Ok_sorted (d : RouteDecision) :
  choose_model tiktoken_count default_prompt price_rows input_text
    expected_output_tokens quality_floor cost_ceiling_usd provider_hints
  = Ok d ->
  exists candidates row cost tokens rest,
    collect tiktoken_count input_text expected_output_tokens quality_floor
      cost_ceiling_usd provider_hints price_rows = Ok candidates
    /\ sort_by_key flt cand_cost candidates = (row, cost, tokens) :: rest
    /\ d = mkRouteDecision (provider row) (model row) cost default_prompt
             (2 # 10) false tokens.
Proof.
  unfold choose_model.
  destruct (collect tiktoken_count input_text expected_output_tokens
              quality_floor cost_ceiling_usd provider_hints price_rows)
    as [[|c0 cs]|e] eqn:Ecol; try discriminate.
  cbn [bind].
  destruct (sort_by_key flt cand_cost (c0 :: cs)) as [|[[row cost] tokens] rest]
    eqn:Es; [discriminate|].
  intro H. injection H as <-.
  exists (c0 :: cs), row, cost, tokens, rest. auto.
Qed.

(** An element of a list is an element of the sorted list. *)
Lemma insert_by_key_In {A K : Type} (lt : K -> K -> bool) (key : A -> K)
    (x y : A) (l : list A) :
  In y (insert_by_key lt key x l) <-> y = x \/ In y l.
Proof.
  induction l as [|a t IH]; simpl.
  - split; intros [H|H]; auto; contradiction.
  - destruct (lt (key a) (key x)); simpl; rewrite ?IH;
      split; intro H; intuition auto.
Qed.

Lemma sort_by_key_In {A K : Type} (lt : K -> K -> bool) (key : A -> K)
    (y : A) (l : list A) :
  In y (sort_by_key lt key l) <-> In y l.
Proof.
  induction l as [|a t IH]; simpl; [tauto|].
  rewrite insert_by_key_In, IH. split; intros [H|H]; auto.
Qed.

(** A decision comes from a catalog row that survived the loop. *)
Lemma choose_model_Ok_inv (d : RouteDecision) :
  choose_model tiktoken_count default_prompt price_rows input_text
    expected_output_tokens quality_floor cost_ceiling_usd provider_hints
  = Ok d ->
  exists row cost tokens,
    In row price_rows
    /\ consider tiktoken_count input_text expected_output_tokens
         quality_floor cost_ceiling_usd provider_hints row
       = Ok (Some (row, cost, tokens))
    /\ d = mkRouteDecision (provider row) (model row) cost default_prompt
             (2 # 10) false tokens.
Proof.
  intro Hd.
  destruct (choose_model_Ok_sorted d Hd)
    as (cands & row & cost & tk & rest & Hcol & Hs & ->).
  assert (Hin : In (row, cost, tk) cands).
  { apply (sort_by_key_In flt cand_cost). rewrite Hs. left. reflexivity. }
  apply in_split in Hin. destruct Hin as (l1 & l2 & Hl).
  rewrite Hl in Hcol.
  destruct (collect_split _ _ _ _ _ _ _ _ _ _ Hcol)
    as (r1 & r & r2 & Hrows & _ & Hc & _).
  destruct (consider_Some _ _ _ _ _ _ _ _ Hc) as (k & _ & Heq & _).
  assert (Hrow : row = r) by (injection Heq; auto). subst r.
  exists row, cost, tk.
  split; [rewrite Hrows; apply in_or_app; right; left; reflexivity|].
  split; [exact Hc|reflexivity].
Qed.


(** C2 (as amended).  When every catalog row is eliminated by the
    gates, [choose_model] returns no decision: it raises the built-in
    [ValueError] with the message that names the two knobs to relax. *)
Theorem choose_model_no_candidate_raises_ValueError :
  (forall row,
     In row price_rows ->
     consider tiktoken_count input_text expected_output_tokens
       quality_floor cost_ceiling_usd provider_hints row = Ok None) ->
  choose_model tiktoken_count default_prompt price_rows input_text
    expected_output_tokens quality_floor cost_ceiling_usd provider_hints
  = Raise (Exc "ValueError"
      "No models meet your quality or budget. Try lowering quality_floor or raising cost_ceiling_usd.").
Proof.
  intro H. unfold choose_model.
  rewrite (collect_nil _ _ _ _ _ _ _ H). reflexivity.
Qed.


End ChooseModelFacts.

Section ChooseModelScenarios.

Import TokenUtils RoutingPolicy.

(** The costs of the scenarios are the floats the interpreter computes:
    [0.000306] is [0x1.40dd3fe1975f3p-12]. *)
Example estimated_cost_hosted_big :
  estimated_cost hosted_big (mkTokenStats 3 50) = Ok hosted_cost
  /\ hosted_cost = S754_finite false 5644703686555123 (-64).
Proof. split; reflexivity. Qed.

Example estimated_cost_local_tiny :
  estimated_cost local_tiny (mkTokenStats 3 50) = Ok local_cost
  /\ local_cost = fzero.
Proof. split; reflexivity. Qed.

(** A token count beyond the largest float cannot be priced. *)
Example estimated_cost_overflow :
  estimated_cost hosted_big (mkTokenStats 3 (2 ^ 1024))
  = Raise (Exc "OverflowError" "int too large to convert to float").
Proof. reflexivity. Qed.


Example choose_model_local_when_uncapped :
  choose_model no_tiktoken "Be brief." two_row_catalog
    "hello world!" 50 2 fzero no_hints
  = Ok local_decision.
Proof. reflexivity. Qed.

Example choose_model_hosted_when_floor_is_4 :
  choose_model no_tiktoken "Be brief." two_row_catalog
    "hello world!" 50 4 fzero no_hints
  = Ok hosted_decision.
Proof. reflexivity. Qed.

(** Two rows of equal cost: the first-listed one wins. *)
Example choose_model_tie_first_listed :
  choose_model no_tiktoken "Be brief."
    [hosted_big; mkModelRow "hosted" "twin" (decimal 2 3) (decimal 6 3) 9 99 4;
     local_tiny]
    "hello world!" 50 4 fzero no_hints
  = Ok hosted_decision.
Proof. reflexivity. Qed.

(** Two rows whose costs are equal as decimals and differ as floats:
    [0.003 * 3.0 + 0.05 * 0.006] is [0.009300000000000001] and
    [0.003 * 0.6 + 0.05 * 0.15] is [0.0093], so the second-listed row
    is the cheaper one and is selected. *)
Example choose_model_rounding_decides :
  option_map rd_model
    (match choose_model no_tiktoken "Be brief."
             [mkModelRow "hosted" "first" (decimal 3 0) (decimal 6 3)
                1000000 1000000 4;
              mkModelRow "hosted" "second" (decimal 6 1) (decimal 15 2)
                1000000 1000000 4]
             "hello world!" 50 4 fzero no_hints with
     | Ok d => Some d
     | Raise _ => None
     end)
  = Some "second".
Proof. reflexivity. Qed.

(** A cost that equals the ceiling as a decimal and exceeds it as a
    float: [0.003 * 0.1 + 0.05 * 0.1] is [0.005300000000000001], above
    the ceiling [0.0053], and the row is dropped. *)
Example choose_model_rounding_at_the_ceiling :
  choose_model no_tiktoken "Be brief."
    [mkModelRow "hosted" "edge" (decimal 1 1) (decimal 1 1)
       1000000 1000000 4]
    "hello world!" 50 4 (decimal 53 4) no_hints
  = Raise (Exc "ValueError" no_models_message).
Proof. reflexivity. Qed.

(** Why C1 and C3 speak of numbers: an infinite price and no input
    token give the cost [0.0 * inf], which is NaN; [NaN > ceiling] is
    false, so the row survives a ceiling of one cent, and it is selected
    although the row listed after it costs nothing. *)
Example choose_model_selects_a_NaN_cost :
  choose_model no_tiktoken "Be brief."
    [mkModelRow "hosted" "unpriced" (S754_infinity false) fzero
       1000000 1000000 4;
     mkModelRow "local" "free" fzero fzero 1000000 1000000 4]
    "" 50 4 (decimal 1 2) no_hints
  = Ok (mkRouteDecision "hosted" "unpriced" S754_nan "Be brief." (2 # 10)
          false (mkTokenStats 0 50)).
Proof. reflexivity. Qed.

(** Quality floor 4 and a ceiling below the hosted row's cost: nothing
    survives. *)
Lemma choose_model_no_candidate_raises_ValueError_witness :
  choose_model no_tiktoken "Be brief." two_row_catalog
    "hello world!" 50 4 (decimal 1 5) no_hints
  = Raise (Exc "ValueError"
      "No models meet your quality or budget. Try lowering quality_floor or raising cost_ceiling_usd.").
Proof.
  apply (choose_model_no_candidate_raises_ValueError no_tiktoken "Be brief."
           two_row_catalog "hello world!" 50 4 (decimal 1 5) no_hints).
  intros row [<-|[<-|[]]]; reflexivity.
Defined.

(** C2 (as stated) fails: on that input the exception is not a
    [NoViableModelError]. *)
Lemma choose_model_does_not_raise_NoViableModelError :
  ~ (exists e,
       choose_model no_tiktoken "Be brief." two_row_catalog
         "hello world!" 50 4 (decimal 1 5) no_hints = Raise e
       /\ exc_class e = "NoViableModelError").
Proof.
  intros (e & He & Hcls).
  vm_compute in He. injection He as <-.
  discriminate Hcls.
Qed.


End ChooseModelScenarios.

(** ** Provider adapters *)

Section ProviderFacts.

Import TokenUtils Providers.

Lemma text_of_field (key : string) (d : jobject) :
  text_field_ok key d = true ->
  exists s, text_of (get_default key JNull d) = Ok s.
Proof.
  unfold text_field_ok, get_default, text_of, por.
  destruct (get key d) as [[| | | |s| |]|]; try discriminate; intros _; simpl.
  - eexists; reflexivity.
  - destruct (truthy_str s); eexists; reflexivity.
  - eexists; reflexivity.
Qed.

Lemma usage_count_field (key : string) (d : jobject) :
  count_field_ok key d = true ->
  exists n, usage_count key d = Ok n /\ (get key d = None -> n = 0).
Proof.
  unfold count_field_ok, usage_count, get_default, por.
  destruct (get key d) as [[| |z| | | |]|]; try discriminate; intros _; simpl.
  - exists 0. split; [reflexivity|discriminate].
  - exists z. split; [|discriminate].
    destruct (z =? 0) eqn:E; simpl; [|reflexivity].
    apply Z.eqb_eq in E. subst z. reflexivity.
  - exists 0. split; reflexivity.
Qed.

Lemma usage_count_empty (key : string) : usage_count key [] = Ok 0.
Proof. reflexivity. Qed.

Lemma openai_text_ok (d : jobject) :
  openai_choices_ok d = true -> exists s, openai_text d = Ok s.
Proof.
  unfold openai_choices_ok, openai_text, get_default, por.
  destruct (get "choices" d) as [[| | | | |l|]|]; try discriminate; simpl.
  - intros _. eexists; reflexivity.
  - destruct l as [|c0 l']; simpl; [intros _; eexists; reflexivity|].
    destruct c0 as [| | | | | |c0]; try discriminate.
    unfold dict_or_empty, por.
    destruct (get "message" c0) as [[| | | | | |m]|] eqn:Em;
      try discriminate; simpl.
    + intros _. eexists; reflexivity.
    + intro Hm.
      destruct m as [|f m']; simpl.
      * eexists; reflexivity.
      * exact (text_of_field "content" (f :: m') Hm).
    + intros _. eexists; reflexivity.
  - intros _. eexists; reflexivity.
Qed.

(** C8 (as amended).  On a well-formed answer of the upstream service
    both adapters return a text and a token-usage pair; when the answer
    carries no usage fields the pair is [(0, 0)]. *)
Theorem complete_usage_defaults_to_zero :
  (forall get_close_matches installed_models post_generate
          model prompt max_tokens temperature system_prompt
          available chosen d,
     installed_models = Ok available ->
     _choose_best_model get_close_matches model available = Some chosen ->
     post_generate
       (generate_body chosen (ollama_full_prompt system_prompt prompt)
          temperature max_tokens) = Ok (JObj d) ->
     ollama_answer_ok d = true ->
     exists text stats,
       ollama_complete get_close_matches installed_models post_generate
         model prompt max_tokens temperature system_prompt
       = Ok (text, stats)
       /\ (get "prompt_eval_count" d = None ->
           get "eval_count" d = None ->
           stats = mkTokenStats 0 0))
  /\
  (forall api_key post_chat model prompt max_tokens temperature
          system_prompt kwargs d,
     truthy_opt api_key = true ->
     post_chat
       (chat_body model prompt max_tokens temperature system_prompt kwargs)
     = Ok (JObj d) ->
     openai_answer_ok d = true ->
     exists text stats,
       openai_complete api_key post_chat model prompt max_tokens
         temperature system_prompt kwargs
       = Ok (text, stats)
       /\ (get "usage" d = None -> stats = mkTokenStats 0 0)).
Proof.
  split.
  - intros gcm installed post model prompt max_tokens temperature sp
           available chosen d Hinst Hch Hpost Hok.
    unfold ollama_answer_ok in Hok.
    apply andb_true_iff in Hok. destruct Hok as [Hok Hout].
    apply andb_true_iff in Hok. destruct Hok as [Htext Hin].
    destruct (text_of_field _ _ Htext) as (s & Hs).
    destruct (usage_count_field _ _ Hin) as (n_in & Hn_in & Hz_in).
    destruct (usage_count_field _ _ Hout) as (n_out & Hn_out & Hz_out).
    exists s, (mkTokenStats n_in n_out).
    unfold ollama_complete. rewrite Hinst. simpl.
    rewrite Hch, Hpost. simpl.
    rewrite Hs. simpl. rewrite Hn_in. simpl. rewrite Hn_out. simpl.
    split; [reflexivity|].
    intros H1 H2. rewrite (Hz_in H1), (Hz_out H2). reflexivity.
  - intros api_key post model prompt max_tokens temperature sp kwargs d
           Hkey Hpost Hok.
    unfold openai_answer_ok in Hok.
    apply andb_true_iff in Hok. destruct Hok as [Hchoices Husage].
    destruct (openai_text_ok _ Hchoices) as (s & Hs).
    unfold openai_complete. rewrite Hkey. simpl.
    rewrite Hpost. simpl. rewrite Hs. simpl.
    unfold openai_usage_ok in Husage.
    unfold dict_or_empty, get_default, por.
    destruct (get "usage" d) as [[| | | | | |u]|] eqn:Eu;
      try discriminate; simpl.
    + exists s, (mkTokenStats 0 0). split; [reflexivity|auto].
    + apply andb_true_iff in Husage. destruct Husage as [Hin Hout].
      destruct (usage_count_field _ _ Hin) as (n_in & Hn_in & _).
      destruct (usage_count_field _ _ Hout) as (n_out & Hn_out & _).
      destruct u as [|f u']; simpl.
      * exists s, (mkTokenStats 0 0). split; [reflexivity|discriminate].
      * rewrite Hn_in. simpl. rewrite Hn_out. simpl.
        eexists _, _. split; [reflexivity|discriminate].
    + exists s, (mkTokenStats 0 0). split; [reflexivity|auto].
Qed.

End ProviderFacts.

(** ** The job table *)

Section ModelsFacts.

Import Models.

Lemma NoDup_map_injective {A B : Type} (g : A -> B) (l : list A) :
  NoDup (map g l) ->
  forall x y, In x l -> In y l -> g x = g y -> x = y.
Proof.
  induction l as [|a l IH]; intros Hnd x y Hx Hy Hg; [contradiction|].
  simpl in Hnd. inversion Hnd as [|? ? Hnotin Hnd']; subst.
  destruct Hx as [->|Hx], Hy as [->|Hy]; auto.
  - exfalso. apply Hnotin. rewrite Hg. apply in_map. exact Hy.
  - exfalso. apply Hnotin. rewrite <- Hg. apply in_map. exact Hx.
Qed.

Lemma has_id_true (id : string) (j : Job) : has_id id j = true -> job_id j = id.
Proof. unfold has_id. apply String.eqb_eq. Qed.

Lemma update_job_ids (j : Job) (db : Db) : ids (update_job j db) = ids db.
Proof.
  unfold ids, update_job. simpl. rewrite map_map.
  apply map_ext. intro r.
  destruct (has_id (job_id j) r) eqn:E; [|reflexivity].
  symmetry. exact (has_id_true _ _ E).
Qed.

Lemma update_job_length (j : Job) (db : Db) :
  List.length (jobs (update_job j db)) = List.length (jobs db).
Proof. unfold update_job. simpl. apply length_map. Qed.

(** Refreshing [updated_at] on the one row that carries the key leaves
    it the one row that carries the key. *)
Lemma rows_with_key_refresh (key : string) (now : Z) (j : Job) (db : Db) :
  NoDup (ids db) ->
  rows_with_key key db = [j] ->
  rows_with_key key (update_job (set_updated_at now j) db)
  = [set_updated_at now j].
Proof.
  intros Hnd Hrows.
  assert (Hin : In j (jobs db)).
  { assert (H : In j (rows_with_key key db)) by (rewrite Hrows; left; auto).
    apply filter_In in H. tauto. }
  unfold rows_with_key, update_job in *. simpl.
  rewrite filter_map_swap.
  rewrite (filter_ext_in _ (has_dedupe_key key)).
  - rewrite Hrows. simpl. unfold has_id. simpl.
    rewrite String.eqb_refl. reflexivity.
  - intros r Hr. simpl.
    destruct (has_id (job_id j) r) eqn:E; [|reflexivity].
    apply has_id_true in E.
    assert (r = j) by (eapply NoDup_map_injective; eauto).
    subst r. reflexivity.
Qed.

Lemma upsert_existing (key : string) (now : Z) (j defaults : Job) (db : Db) :
  truthy_str key = true ->
  rows_with_key key db = [j] ->
  upsert_job_by_dedupe_key db (Some key) defaults now
  = Ok (update_job (set_updated_at now j) db, set_updated_at now j).
Proof.
  intros Hk Hrows. unfold upsert_job_by_dedupe_key.
  rewrite Hk. simpl. fold (rows_with_key key db). rewrite Hrows.
  reflexivity.
Qed.

Lemma id_is_free_not_in (j : Job) (db : Db) :
  id_is_free j db = true -> ~ In (job_id j) (ids db).
Proof.
  unfold id_is_free, ids. rewrite negb_true_iff.
  intros Hfree Hin.
  apply in_map_iff in Hin. destruct Hin as (r & Hid & Hr).
  assert (existsb (has_id (job_id j)) (jobs db) = true).
  { apply existsb_exists. exists r. split; [exact Hr|].
    unfold has_id. apply String.eqb_eq. exact Hid. }
  congruence.
Qed.

Lemma insert_job_free (j : Job) (db : Db) :
  id_is_free j db = true ->
  insert_job j db = Ok (mkDb (jobs db ++ [j]) (job_costs db) (events db)).
Proof.
  unfold id_is_free, insert_job. rewrite negb_true_iff.
  intros ->. reflexivity.
Qed.

(** A refresh changes [updated_at] and nothing else. *)
Lemma set_updated_at_fields (t : Z) (j : Job) :
  updated_at (set_updated_at t j) = t
  /\ job_id (set_updated_at t j) = job_id j
  /\ user_id (set_updated_at t j) = user_id j
  /\ task_type (set_updated_at t j) = task_type j
  /\ status (set_updated_at t j) = status j
  /\ created_at (set_updated_at t j) = created_at j
  /\ cost_ceiling_usd (set_updated_at t j) = cost_ceiling_usd j
  /\ dedupe_key (set_updated_at t j) = dedupe_key j.
Proof. repeat split. Qed.

(** C9.  On a table with unique primary keys that holds at most one row
    for a non-empty key, two submissions under that key leave exactly
    one row for it: the second call adds no row and returns the job of
    the first call, the same [job_id] and the same other fields, with
    [updated_at] set to the time of the second call, and that job is the
    one row the table holds for the key.  A submission with no key
    ([None] or the empty string) appends its job. *)
Theorem upsert_job_by_dedupe_key_idempotent :
  (forall db key d1 d2 now1 now2,
     truthy_str key = true ->
     NoDup (ids db) ->
     (List.length (rows_with_key key db) <= 1)%nat ->
     (rows_with_key key db = [] ->
      dedupe_key d1 = Some key /\ id_is_free d1 db = true) ->
     exists db1 j1 db2 j2,
       upsert_job_by_dedupe_key db (Some key) d1 now1 = Ok (db1, j1)
       /\ upsert_job_by_dedupe_key db1 (Some key) d2 now2 = Ok (db2, j2)
       /\ job_id j2 = job_id j1
       /\ updated_at j2 = now2
       /\ user_id j2 = user_id j1
       /\ task_type j2 = task_type j1
       /\ status j2 = status j1
       /\ created_at j2 = created_at j1
       /\ cost_ceiling_usd j2 = cost_ceiling_usd j1
       /\ dedupe_key j2 = Some key
       /\ rows_with_key key db1 = [j1]
       /\ rows_with_key key db2 = [j2]
       /\ get_job_by_id db2 (job_id j1) = Some j2
       /\ List.length (jobs db2) = List.length (jobs db1))
  /\
  (forall db key d now,
     truthy_opt key = false ->
     id_is_free d db = true ->
     upsert_job_by_dedupe_key db key d now
     = Ok (mkDb (jobs db ++ [d]) (job_costs db) (events db), d)).
Proof.
  assert (Hsecond : forall db1 key j1 d2 now2,
            truthy_str key = true ->
            NoDup (ids db1) ->
            rows_with_key key db1 = [j1] ->
            exists db2 j2,
              upsert_job_by_dedupe_key db1 (Some key) d2 now2 = Ok (db2, j2)
              /\ job_id j2 = job_id j1
              /\ updated_at j2 = now2
              /\ user_id j2 = user_id j1
              /\ task_type j2 = task_type j1
              /\ status j2 = status j1
              /\ created_at j2 = created_at j1
              /\ cost_ceiling_usd j2 = cost_ceiling_usd j1
              /\ dedupe_key j2 = Some key
              /\ rows_with_key key db1 = [j1]
              /\ rows_with_key key db2 = [j2]
              /\ get_job_by_id db2 (job_id j1) = Some j2
              /\ List.length (jobs db2) = List.length (jobs db1)).
  { intros db1 key j1 d2 now2 Hk Hnd1 Hrows1.
    assert (Hin : In j1 (rows_with_key key db1))
      by (rewrite Hrows1; left; reflexivity).
    apply filter_In in Hin. destruct Hin as [Hin Hkey].
    assert (Hdk : dedupe_key j1 = Some key).
    { unfold has_dedupe_key in Hkey.
      destruct (dedupe_key j1) as [k|]; [|discriminate].
      apply String.eqb_eq in Hkey. congruence. }
    assert (Hget : get_job_by_id db1 (job_id j1) = Some j1).
    { destruct (get_job_by_id db1 (job_id j1)) as [r|] eqn:Hr.
      - unfold get_job_by_id in Hr. apply find_some in Hr.
        destruct Hr as [Hr Hid]. apply has_id_true in Hid.
        f_equal. eapply NoDup_map_injective; eauto.
      - exfalso. unfold get_job_by_id in Hr.
        pose proof (find_none _ _ Hr j1 Hin) as Hno.
        unfold has_id in Hno. rewrite String.eqb_refl in Hno.
        discriminate. }
    exists (update_job (set_updated_at now2 j1) db1),
           (set_updated_at now2 j1).
    destruct (set_updated_at_fields now2 j1)
      as (F1 & F2 & F3 & F4 & F5 & F6 & F7 & F8).
    split; [exact (upsert_existing _ _ _ _ _ Hk Hrows1)|].
    split; [exact F2|]. split; [exact F1|]. split; [exact F3|].
    split; [exact F4|]. split; [exact F5|]. split; [exact F6|].
    split; [exact F7|]. split; [rewrite F8; exact Hdk|].
    split; [exact Hrows1|].
    split; [exact (rows_with_key_refresh _ _ _ _ Hnd1 Hrows1)|].
    split; [|apply update_job_length].
    unfold get_job_by_id, update_job. simpl.
    unfold get_job_by_id in Hget.
    clear - Hget. induction (jobs db1) as [|r rows IH]; [discriminate|].
    simpl in *. destruct (has_id (job_id j1) r) eqn:E.
    - unfold has_id. simpl. rewrite String.eqb_refl. reflexivity.
    - rewrite E. exact (IH Hget). }
  split.
  - intros db key d1 d2 now1 now2 Hk Hnd Hle Hnew.
    destruct (rows_with_key key db) as [|j [|j' rest]] eqn:Hrows.
    + destruct (Hnew eq_refl) as [Hd1 Hfree].
      set (db1 := mkDb (jobs db ++ [d1]) (job_costs db) (events db)).
      assert (H1 : upsert_job_by_dedupe_key db (Some key) d1 now1
                   = Ok (db1, d1)).
      { unfold upsert_job_by_dedupe_key. rewrite Hk. simpl.
        fold (rows_with_key key db). rewrite Hrows. simpl.
        rewrite (insert_job_free _ _ Hfree). reflexivity. }
      assert (Hrows1 : rows_with_key key db1 = [d1]).
      { unfold rows_with_key, db1. simpl. rewrite filter_app.
        fold (rows_with_key key db). rewrite Hrows. simpl.
        unfold has_dedupe_key. rewrite Hd1, String.eqb_refl. reflexivity. }
      assert (Hnd1 : NoDup (ids db1)).
      { unfold ids, db1. simpl. rewrite map_app. simpl.
        apply NoDup_app; [exact Hnd|repeat constructor; auto|].
        intros a Ha [<-|[]].
        exact (id_is_free_not_in _ _ Hfree Ha). }
      destruct (Hsecond db1 key d1 d2 now2 Hk Hnd1 Hrows1) as (db2 & j2 & H2).
      exists db1, d1, db2, j2. split; [exact H1|exact H2].
    + set (j1 := set_updated_at now1 j).
      set (db1 := update_job j1 db).
      assert (Hrows1 : rows_with_key key db1 = [j1])
        by exact (rows_with_key_refresh _ _ _ _ Hnd Hrows).
      assert (Hnd1 : NoDup (ids db1))
        by (unfold db1; rewrite update_job_ids; exact Hnd).
      destruct (Hsecond db1 key j1 d2 now2 Hk Hnd1 Hrows1) as (db2 & j2 & H2).
      exists db1, j1, db2, j2.
      split; [exact (upsert_existing _ _ _ _ _ Hk Hrows)|exact H2].
    + simpl in Hle. lia.
  - intros db key d now Hkey Hfree.
    unfold upsert_job_by_dedupe_key.
    destruct key as [k|].
    + simpl in Hkey. rewrite Hkey. simpl.
      rewrite (insert_job_free _ _ Hfree). reflexivity.
    + rewrite (insert_job_free _ _ Hfree). reflexivity.
Qed.

End ModelsFacts.

(** ** The queue worker *)

Section QueueWorkerFacts.

Import TokenUtils RoutingPolicy Models QueueWorker.

Lemma get_job_by_id_update (db : Db) (id : string) (old new : Job) :
  get_job_by_id db id = Some old ->
  job_id new = id ->
  get_job_by_id (update_job new db) id = Some new.
Proof.
  unfold get_job_by_id, update_job. simpl. intros Hfind <-.
  induction (jobs db) as [|r rows IH]; [discriminate|].
  simpl in *.
  destruct (has_id (job_id new) r) eqn:E.
  - unfold has_id. rewrite String.eqb_refl. reflexivity.
  - rewrite E. exact (IH Hfind).
Qed.

Lemma get_job_by_id_id (db : Db) (id : string) (j : Job) :
  get_job_by_id db id = Some j -> job_id j = id.
Proof.
  unfold get_job_by_id. intro H. apply find_some in H.
  exact (has_id_true _ _ (proj2 H)).
Qed.

Lemma get_job_by_id_update_other (db : Db) (j : Job) (id : string) :
  id <> job_id j ->
  get_job_by_id (update_job j db) id = get_job_by_id db id.
Proof.
  intro Hne. unfold get_job_by_id, update_job. simpl.
  induction (jobs db) as [|r rows IH]; [reflexivity|].
  simpl. destruct (has_id (job_id j) r) eqn:E.
  - apply has_id_true in E.
    assert (Hj : has_id id j = false).
    { unfold has_id. apply String.eqb_neq. congruence. }
    assert (Hr : has_id id r = false).
    { unfold has_id. apply String.eqb_neq. congruence. }
    rewrite Hj, Hr. exact IH.
  - destruct (has_id id r); [reflexivity|exact IH].
Qed.

Lemma update_job_In (db : Db) (j r : Job) :
  In r (jobs (update_job j db)) ->
  r = j \/ In r (jobs db).
Proof.
  unfold update_job. simpl. intro H.
  apply in_map_iff in H. destruct H as (x & Hx & Hin).
  destruct (has_id (job_id j) x); [left; congruence|right; congruence].
Qed.

Section Delivery.

Variable tiktoken_count : string -> option Z.
Variable default_prompt : string.
Variable redaction_enabled : bool.
Variable timeout_s : Z.
Variable price_rows : list ModelRow.
Variable mask_pii : string -> string.
Variable complete :
  list AdapterCall ->
  string -> string -> string -> Z -> Q -> string -> Z ->
  result (string * TokenStats).
Variable latency_ms : Z.
Variable db : Db.
Variable payload : Payload.

Let outcome :=
  _handle_message tiktoken_count default_prompt redaction_enabled timeout_s
    price_rows mask_pii complete latency_ms db payload.

Let prompt := prepare_prompt redaction_enabled mask_pii (p_body payload).
Let expected := or_default (b_expected_output_tokens (p_body payload)) 512.

(** The one call a delivery can make, and the adapter's answer to it
    as the first call of the delivery. *)
Let call_for (decision : RouteDecision) : AdapterCall :=
  mkAdapterCall (rd_provider decision) (rd_model decision) prompt expected
    (temperature decision) (system_prompt decision) timeout_s.

Let answer_for (decision : RouteDecision) : result (string * TokenStats) :=
  complete [] (rd_provider decision) (rd_model decision) prompt expected
    (temperature decision) (system_prompt decision) timeout_s.

(** The ways a delivery ends: the job is unknown; routing or the
    registry raises before any call; the one call raises; the one call
    answers. *)
Lemma handle_message_cases :
  (get_job_by_id db (p_job_id payload) = None /\ outcome = (db, Acked, []))
  \/ (exists job,
        get_job_by_id db (p_job_id payload) = Some job
        /\ ((exists e,
               outcome
               = (update_job (set_status running job) db, Requeued e, []))
            \/ (exists decision,
                  route_decision tiktoken_count default_prompt
                    redaction_enabled price_rows mask_pii (p_body payload)
                  = Ok decision
                  /\ mem (rd_provider decision) registry_keys = true
                  /\ ((exists e,
                         answer_for decision = Raise e
                         /\ outcome
                            = (update_job (set_status running job) db,
                               Requeued e, [call_for decision]))
                      \/ (exists text stats,
                            answer_for decision = Ok (text, stats)
                            /\ outcome
                               = (mkDb
                                    (jobs (update_job
                                             (set_status succeeded job)
                                             (update_job
                                                (set_status running job) db)))
                                    (job_costs db
                                       ++ [mkJobCost (p_job_id payload)
                                             (rd_provider decision)
                                             (rd_model decision)
                                             (tokens_in stats)
                                             (tokens_out stats)
                                             (estimated_cost_usd decision)
                                             latency_ms])
                                    (events db
                                       ++ [mkEvent (p_job_id payload) "info"
                                             ("Routed to "
                                                ++ rd_provider decision ++ ":"
                                                ++ rd_model decision)%string]),
                                  Acked, [call_for decision])))))).
Proof.
  unfold outcome, answer_for, call_for, prompt, expected, _handle_message.
  destruct (get_job_by_id db (p_job_id payload)) as [job|] eqn:Hjob;
    [right; exists job; split; [reflexivity|]|left; auto].
  pose proof (get_job_by_id_id _ _ _ Hjob) as Hid.
  destruct (route_decision _ _ _ _ _ _) as [decision|e];
    [|left; eexists; reflexivity].
  unfold registry_get.
  destruct (mem (rd_provider decision) registry_keys) eqn:Hreg;
    [|left; eexists; reflexivity].
  right. exists decision. split; [reflexivity|]. split; [exact Hreg|].
  destruct (complete _ _ _ _ _ _ _ _) as [[text stats]|e];
    [|left; eexists; split; reflexivity].
  rewrite (get_job_by_id_update db _ job (set_status running job) Hjob Hid).
  right. exists text, stats. split; [reflexivity|].
  unfold record_event, record_cost.
  cbn [job_id set_status jobs job_costs events].
  rewrite Hid. reflexivity.
Qed.

(** C5 (as amended).  When the provider call of a job raises, the
    worker makes no further call: the call log of the delivery holds
    that one call even if a second call would have answered, the job's
    row, marked [running] before routing, stays [running], no cost row
    is written, and the exception travels to the queue, which puts the
    message back.  Whatever happens, a delivery calls the adapter at
    most once, and every job row it leaves was there before or is the
    job of the message marked [running] or, after a call that answered,
    [succeeded]. *)
Theorem handle_message_failure_leaves_job_running :
  (forall job decision e,
     get_job_by_id db (p_job_id payload) = Some job ->
     route_decision tiktoken_count default_prompt redaction_enabled
       price_rows mask_pii (p_body payload) = Ok decision ->
     mem (rd_provider decision) registry_keys = true ->
     complete [] (rd_provider decision) (rd_model decision)
       (prepare_prompt redaction_enabled mask_pii (p_body payload))
       (or_default (b_expected_output_tokens (p_body payload)) 512)
       (temperature decision) (system_prompt decision) timeout_s = Raise e ->
     let db' := update_job (set_status running job) db in
     _handle_message tiktoken_count default_prompt redaction_enabled
       timeout_s price_rows mask_pii complete latency_ms db payload
     = (db', Requeued e,
        [mkAdapterCall (rd_provider decision) (rd_model decision)
           (prepare_prompt redaction_enabled mask_pii (p_body payload))
           (or_default (b_expected_output_tokens (p_body payload)) 512)
           (temperature decision) (system_prompt decision) timeout_s])
     /\ get_job_by_id db' (p_job_id payload) = Some (set_status running job)
     /\ job_costs db' = job_costs db)
  /\ (List.length
        (snd (_handle_message tiktoken_count default_prompt
                redaction_enabled timeout_s price_rows mask_pii complete
                latency_ms db payload)) <= 1)%nat
  /\ (forall r,
        In r (jobs (fst (fst (_handle_message tiktoken_count default_prompt
                                redaction_enabled timeout_s price_rows
                                mask_pii complete latency_ms db payload)))) ->
        In r (jobs db)
        \/ (exists job,
              get_job_by_id db (p_job_id payload) = Some job
              /\ (r = set_status running job
                  \/ (r = set_status succeeded job
                      /\ exists decision text stats,
                           route_decision tiktoken_count default_prompt
                             redaction_enabled price_rows mask_pii
                             (p_body payload) = Ok decision
                           /\ complete [] (rd_provider decision)
                                (rd_model decision)
                                (prepare_prompt redaction_enabled mask_pii
                                   (p_body payload))
                                (or_default
                                   (b_expected_output_tokens (p_body payload))
                                   512)
                                (temperature decision)
                                (system_prompt decision) timeout_s
                              = Ok (text, stats))))).
Proof.
  fold outcome prompt expected.
  split; [|split].
  - intros job decision e Hjob Hroute Hreg Hcall db'.
    split; [|split].
    + unfold outcome, _handle_message. rewrite Hjob, Hroute.
      unfold registry_get. rewrite Hreg.
      fold prompt expected. rewrite Hcall. reflexivity.
    + apply (get_job_by_id_update db _ job); [exact Hjob|].
      exact (get_job_by_id_id _ _ _ Hjob).
    + reflexivity.
  - destruct handle_message_cases
      as [[_ ->]|(job & _ & [[e ->]
                            |(d & _ & _ & [(e & _ & ->)
                                          |(t & st & _ & ->)])])];
      simpl; lia.
  - intros r Hin.
    destruct handle_message_cases
      as [[_ Hout]|(job & Hjob & [[e Hout]
                                |(d & Hd & _ & [(e & _ & Hout)
                                               |(t & st & Hans & Hout)])])];
      rewrite Hout in Hin; cbn [fst snd] in Hin.
    + left. exact Hin.
    + apply update_job_In in Hin. destruct Hin as [->|Hin]; [|left; exact Hin].
      right. exists job. auto.
    + apply update_job_In in Hin. destruct Hin as [->|Hin]; [|left; exact Hin].
      right. exists job. auto.
    + change (In r (jobs (update_job (set_status succeeded job)
                            (update_job (set_status running job) db))))
        in Hin.
      apply update_job_In in Hin.
      destruct Hin as [->|Hin].
      * right. exists job. split; [exact Hjob|]. right.
        split; [reflexivity|]. exists d, t, st. auto.
      * apply update_job_In in Hin.
        destruct Hin as [->|Hin]; [|left; exact Hin].
        right. exists job. auto.
Qed.

End Delivery.

End QueueWorkerFacts.

Section QueueWorkerScenarios.

Import TokenUtils RoutingPolicy Models QueueWorker.

(** The first call times out and a second one would answer: the worker
    does not make it. *)
Lemma handle_message_failure_leaves_job_running_witness :
  _handle_message no_tiktoken "Be brief." true 60 [local_tiny] (fun s => s)
    times_out_once 7 one_job_db job_message
  = (update_job (set_status running queued_job) one_job_db,
     Requeued (Exc "ReadTimeout" "timed out"),
     [mkAdapterCall "local" "tiny" "hello world!" 50 (2 # 10) "Be brief." 60])
  /\ get_job_by_id (update_job (set_status running queued_job) one_job_db)
       "job-1" = Some (set_status running queued_job)
  /\ job_costs (update_job (set_status running queued_job) one_job_db)
     = job_costs one_job_db.
Proof.
  apply (proj1 (handle_message_failure_leaves_job_running no_tiktoken
                  "Be brief." true 60 [local_tiny] (fun s => s) times_out_once
                  7 one_job_db job_message)
           queued_job local_decision (Exc "ReadTimeout" "timed out"));
    reflexivity.
Defined.

(** C5 (as stated) fails: after the failed call the job is not [failed]. *)
Lemma handle_message_failure_does_not_mark_failed :
  option_map status
    (get_job_by_id
       (fst (fst (_handle_message no_tiktoken "Be brief." true 60 [local_tiny]
                    (fun s => s) times_out_once 7 one_job_db job_message)))
       "job-1")
  <> Some failed.
Proof.
  vm_compute. discriminate.
Qed.

End QueueWorkerScenarios.

(** ** Calls to the local inference server *)

Section CallOllamaFacts.

Import ApiMain.

Local Arguments Z.of_nat : simpl never.
Local Arguments Z.ltb : simpl never.
Local Arguments Qmult : simpl never.
Local Arguments inject_Z : simpl never.
Local Arguments String.eqb : simpl never.

Variable backoff : Q.
Variable primary_model fallback_model : string.
Variable post : trace -> string -> string -> post_result.
Variable model prompt : string.
Variable retries : Z.

Let run := call_ollama_from backoff primary_model fallback_model post
                            model prompt retries.

(** The wait after failed attempt number [attempt] (counted from 0). *)
Let wait (attempt : Z) : Q := (backoff * inject_Z (attempt + 1))%Q.

Let fallback_expected : list event :=
  if (model =? primary_model)%string && truthy_str fallback_model
  then [Post Fallback fallback_model] else [].

Lemma calls_app (t1 t2 : trace) : calls (t1 ++ t2) = calls t1 ++ calls t2.
Proof. apply filter_app. Qed.

Lemma sleeps_app (t1 t2 : trace) : sleeps (t1 ++ t2) = sleeps t1 ++ sleeps t2.
Proof.
  induction t1 as [|[r m|q] t1 IH]; simpl; [reflexivity|exact IH|].
  rewrite IH. reflexivity.
Qed.

(** [time.sleep] accepts every wait of a backoff that is not negative
    and whose longest wait is at most [max_wait]. *)
Lemma time_sleep_accepts (attempt : Z) :
  (0 <= backoff)%Q ->
  (backoff * inject_Z retries <= max_wait)%Q ->
  0 <= attempt < retries ->
  time_sleep (wait attempt) = Ok tt.
Proof.
  intros Hpos Hmax Hatt. unfold time_sleep, wait, max_wait in *.
  assert (H1 : (1 <= inject_Z (attempt + 1))%Q).
  { change 1%Q with (inject_Z 1). rewrite <- Zle_Qle. lia. }
  assert (H2 : (inject_Z (attempt + 1) <= inject_Z retries)%Q).
  { rewrite <- Zle_Qle. lia. }
  set (x := inject_Z (attempt + 1)) in *.
  set (r := inject_Z retries) in *.
  assert (Hlo : (0 <= backoff * x)%Q) by nra.
  assert (Hhi : (backoff * x <= 9000000000)%Q) by nra.
  change (inject_Z (10 ^ 9)) with 1000000000%Q.
  change (inject_Z (2 ^ 63)) with 9223372036854775808%Q.
  change (inject_Z (- 2 ^ 63)) with (-9223372036854775808)%Q.
  assert (E1 : Qle_bool 9223372036854775808 (backoff * x * 1000000000) = false).
  { destruct (Qle_bool 9223372036854775808 (backoff * x * 1000000000)) eqn:E;
      [|reflexivity].
    apply Qle_bool_iff in E. exfalso. lra. }
  assert (E2 : Qlt_bool (backoff * x * 1000000000) (-9223372036854775808)
               = false).
  { apply Qlt_bool_false_iff. lra. }
  assert (E3 : Qlt_bool (backoff * x) 0 = false).
  { apply Qlt_bool_false_iff. exact Hlo. }
  rewrite E1, E2, E3. reflexivity.
Qed.

(** What the loop adds to the trace when it runs attempts
    [a, a+1, ..., a+n-1] and the last of them is attempt [retries]. *)
Lemma call_ollama_from_trace (n : nat) :
  forall (a : nat) (tr : trace),
    Z.of_nat a + Z.of_nat n = retries + 1 \/ n = 0%nat ->
    exists k fb,
      (k <= n)%nat
      /\ (n = 0%nat \/ 1 <= k)%nat
      /\ calls (snd (run (map Z.of_nat (seq a n)) tr))
         = calls tr ++ repeat (Post Primary model) k ++ fb
      /\ (fb = [] \/ fb = [Post Fallback fallback_model])
      /\ sleeps (snd (run (map Z.of_nat (seq a n)) tr))
         = sleeps tr ++ map wait (map Z.of_nat (seq a (k - 1)))
      /\ (always_fails post ->
          (exists e, fst (run (map Z.of_nat (seq a n)) tr) = Raise e)
          /\ ((forall j, 0 <= j < retries -> time_sleep (wait j) = Ok tt) ->
              k = n /\ (n <> 0%nat -> fb = fallback_expected))).
Proof.
  unfold run.
  induction n as [|n IH]; intros a tr Hinv.
  - exists 0%nat, []. simpl.
    rewrite !app_nil_r.
    split; [lia|]. split; [left; reflexivity|].
    split; [reflexivity|]. split; [left; reflexivity|].
    split; [reflexivity|].
    intros _. split; [eexists; reflexivity|].
    intros _. split; [reflexivity|congruence].
  - assert (Hlast : Z.of_nat a + Z.of_nat (S n) = retries + 1)
      by (destruct Hinv; [assumption|discriminate]).
    simpl seq. simpl map. simpl call_ollama_from.
    destruct (post tr model prompt) as [data|msg|e] eqn:Epost.
    + exists 1%nat, []. simpl.
      rewrite calls_app, sleeps_app. simpl. rewrite !app_nil_r.
      split; [lia|]. split; [right; lia|].
      split; [reflexivity|]. split; [left; reflexivity|].
      split; [reflexivity|].
      intro Hdown. destruct (Hdown tr model prompt) as [m Hm]. congruence.
    + destruct (Z.of_nat a <? retries) eqn:Eless.
      * apply Z.ltb_lt in Eless.
        destruct (time_sleep (backoff * inject_Z (Z.of_nat a + 1)))
          as [[]|e] eqn:Esleep.
        -- destruct (IH (S a)
                       ((tr ++ [Post Primary model])
                          ++ [Sleep (backoff * inject_Z (Z.of_nat a + 1))]))
             as (k & fb & Hk & Hk1 & Hcalls & Hfb & Hsleeps & Hdown).
           { left. lia. }
           destruct Hk1 as [Hn0|Hk1]; [lia|].
           exists (S k), fb.
           split; [lia|]. split; [right; lia|].
           split.
           { rewrite Hcalls, !calls_app. simpl.
             rewrite app_nil_r, <- app_assoc. reflexivity. }
           split; [exact Hfb|].
           split.
           { rewrite Hsleeps, !sleeps_app. simpl.
             rewrite app_nil_r, <- app_assoc. simpl.
             destruct k as [|k']; [lia|].
             simpl. rewrite Nat.sub_0_r. reflexivity. }
           intro Hd. destruct (Hdown Hd) as (He & Hexact).
           split; [exact He|].
           intro Hacc. destruct (Hexact Hacc) as (Hkn & Hexp).
           split; [lia|]. intros _. apply Hexp. lia.
        -- exists 1%nat, []. simpl.
           rewrite calls_app, sleeps_app. simpl. rewrite !app_nil_r.
           split; [lia|]. split; [right; lia|].
           split; [reflexivity|]. split; [left; reflexivity|].
           split; [reflexivity|].
           intros _. split; [eexists; reflexivity|].
           intro Hacc. exfalso.
           specialize (Hacc (Z.of_nat a) ltac:(lia)).
           unfold wait in Hacc. congruence.
      * apply Z.ltb_ge in Eless.
        assert (Hn : n = 0%nat) by lia. subst n.
        destruct ((model =? primary_model)%string
                  && truthy_str fallback_model) eqn:Efb.
        -- exists 1%nat, [Post Fallback fallback_model].
           split; [lia|]. split; [right; lia|].
           destruct (post (tr ++ [Post Primary model]) fallback_model prompt)
             as [data2|msg2|e2] eqn:Epost2; simpl snd;
             rewrite !calls_app, !sleeps_app; simpl; rewrite !app_nil_r;
             rewrite <- ?app_assoc; simpl.
           all: split; [reflexivity|].
           all: split; [right; reflexivity|].
           all: split; [reflexivity|].
           all: intro Hd.
           ++ destruct (Hd (tr ++ [Post Primary model]) fallback_model prompt)
                as [m Hm]. congruence.
           ++ split; [eexists; reflexivity|]. intros _.
              split; [reflexivity|].
              intros _; unfold fallback_expected; rewrite ?Efb; reflexivity.
           ++ split; [eexists; reflexivity|]. intros _.
              split; [reflexivity|].
              intros _; unfold fallback_expected; rewrite ?Efb; reflexivity.
        -- exists 1%nat, []. simpl.
           rewrite calls_app, sleeps_app. simpl. rewrite !app_nil_r.
           split; [lia|]. split; [right; lia|].
           split; [reflexivity|]. split; [left; reflexivity|].
           split; [reflexivity|].
           intros _. split; [eexists; reflexivity|]. intros _.
           split; [reflexivity|].
           intros _; unfold fallback_expected; rewrite ?Efb; reflexivity.
    + exists 1%nat, []. simpl.
      rewrite calls_app, sleeps_app. simpl. rewrite !app_nil_r.
      split; [lia|]. split; [right; lia|].
      split; [reflexivity|]. split; [left; reflexivity|].
      split; [reflexivity|].
      intro Hdown. destruct (Hdown tr model prompt) as [m Hm]. congruence.
Qed.

End CallOllamaFacts.

Section RetryFacts.

Import ApiMain.

Lemma linear_waits_arithmetic (backoff : Q) (n : nat) :
  forall a : nat,
    arithmetic backoff
      (map (fun attempt => (backoff * inject_Z (attempt + 1))%Q)
           (map Z.of_nat (seq a n))).
Proof.
  induction n as [|n IH]; intro a; [exact I|].
  specialize (IH (S a)).
  destruct n as [|n]; [exact I|].
  split; [|exact IH].
  rewrite Nat2Z.inj_succ. unfold Z.succ.
  rewrite !inject_Z_plus. ring.
Qed.

(** Whatever the server answers, the primary model is requested at most
    [max_attempts retries] times, then the fallback at most once. *)
Lemma call_ollama_calls_bounded
    (backoff : Q) (primary_model fallback_model : string)
    (post : trace -> string -> string -> post_result)
    (model prompt : string) (retries : Z) :
  exists k fb,
    calls (snd (call_ollama backoff primary_model fallback_model post
                  model prompt retries []))
    = repeat (Post Primary model) k ++ fb
    /\ (k <= max_attempts retries)%nat
    /\ (fb = [] \/ fb = [Post Fallback fallback_model]).
Proof.
  unfold call_ollama, py_range, max_attempts.
  destruct (call_ollama_from_trace backoff primary_model fallback_model post
              model prompt retries (Z.to_nat (retries + 1)) 0 [])
    as (k & fb & Hk & _ & Hcalls & Hfb & _).
  { lia. }
  exists k, fb. auto.
Qed.

(** C6.  Against a server that fails every request, [call_ollama] sends
    the primary model at most [max_attempts retries] requests (one
    attempt and [retries] retries), then at most one request to the
    fallback model, and nothing else; it ends by raising.  The bound is
    reached when [time.sleep] accepts the waits: with a backoff that is
    not negative and waits of at most [max_wait], the primary model is
    requested exactly [max_attempts retries] times. *)
Theorem call_ollama_attempts_bounded
    (backoff : Q) (primary_model fallback_model : string)
    (post : trace -> string -> string -> post_result)
    (model prompt : string) (retries : Z) :
  always_fails post ->
  exists k fb,
    calls (snd (call_ollama backoff primary_model fallback_model post
                  model prompt retries []))
    = repeat (Post Primary model) k ++ fb
    /\ (k <= max_attempts retries)%nat
    /\ (fb = [] \/ fb = [Post Fallback fallback_model])
    /\ (exists e,
          fst (call_ollama backoff primary_model fallback_model post
                 model prompt retries []) = Raise e)
    /\ ((0 <= backoff)%Q ->
        (backoff * inject_Z retries <= max_wait)%Q ->
        k = max_attempts retries).
Proof.
  intro Hdown.
  unfold call_ollama, py_range, max_attempts.
  destruct (call_ollama_from_trace backoff primary_model fallback_model post
              model prompt retries (Z.to_nat (retries + 1)) 0 [])
    as (k & fb & Hk & _ & Hcalls & Hfb & _ & Hexact).
  { lia. }
  destruct (Hexact Hdown) as (He & Hkn).
  exists k, fb.
  split; [exact Hcalls|]. split; [exact Hk|]. split; [exact Hfb|].
  split; [exact He|].
  intros Hpos Hmax. apply Hkn.
  intros j Hj. apply (time_sleep_accepts backoff retries); assumption.
Qed.

(** C7 (as amended).  Against a server that fails every request, and
    with a backoff whose waits [time.sleep] accepts (not negative, at
    most [max_wait]), the wait after failed attempt [attempt] (counted
    from 0) is [RETRY_BACKOFF_S * (attempt + 1)]: the waits grow
    linearly, each one the previous one plus [RETRY_BACKOFF_S]. *)
Theorem call_ollama_waits_linear
    (backoff : Q) (primary_model fallback_model : string)
    (post : trace -> string -> string -> post_result)
    (model prompt : string) (retries : Z) :
  always_fails post ->
  (0 <= backoff)%Q ->
  (backoff * inject_Z retries <= max_wait)%Q ->
  sleeps (snd (call_ollama backoff primary_model fallback_model post
                 model prompt retries []))
  = map (fun attempt => (backoff * inject_Z (attempt + 1))%Q) (py_range retries)
  /\ arithmetic backoff
       (sleeps (snd (call_ollama backoff primary_model fallback_model post
                       model prompt retries []))).
Proof.
  intros Hdown Hpos Hmax.
  assert (Hs : sleeps (snd (call_ollama backoff primary_model fallback_model
                              post model prompt retries []))
               = map (fun attempt => (backoff * inject_Z (attempt + 1))%Q)
                     (py_range retries)).
  { unfold call_ollama, py_range.
    destruct (call_ollama_from_trace backoff primary_model fallback_model post
                model prompt retries (Z.to_nat (retries + 1)) 0 [])
      as (k & fb & _ & _ & _ & _ & Hsleeps & Hexact).
    { lia. }
    destruct (Hexact Hdown) as (_ & Hkn).
    destruct Hkn as (Hkn & _).
    { intros j Hj. apply (time_sleep_accepts backoff retries); assumption. }
    rewrite Hsleeps. simpl.
    replace (k - 1)%nat with (Z.to_nat retries) by lia.
    reflexivity. }
  split; [exact Hs|].
  rewrite Hs. unfold py_range. apply linear_waits_arithmetic.
Qed.

End RetryFacts.

Section RetryScenarios.

Import ApiMain.

Lemma call_ollama_attempts_bounded_witness :
  exists k fb,
    calls (snd (call_ollama 5 "phi3:mini" "tinyllama" server_down
                  "phi3:mini" "ok" 2 []))
    = repeat (Post Primary "phi3:mini") k ++ fb
    /\ (k <= max_attempts 2)%nat
    /\ (fb = [] \/ fb = [Post Fallback "tinyllama"])
    /\ (exists e,
          fst (call_ollama 5 "phi3:mini" "tinyllama" server_down
                 "phi3:mini" "ok" 2 []) = Raise e)
    /\ ((0 <= 5)%Q -> (5 * inject_Z 2 <= max_wait)%Q -> k = max_attempts 2).
Proof.
  apply (call_ollama_attempts_bounded 5 "phi3:mini" "tinyllama" server_down
           "phi3:mini" "ok" 2).
  intros tr m p. exists "timed out". reflexivity.
Defined.

Example call_ollama_trace_when_down :
  snd (call_ollama 5 "phi3:mini" "tinyllama" server_down "phi3:mini" "ok" 2 [])
  = [Post Primary "phi3:mini"; Sleep (5 * inject_Z 1);
     Post Primary "phi3:mini"; Sleep (5 * inject_Z 2);
     Post Primary "phi3:mini"; Post Fallback "tinyllama"].
Proof. reflexivity. Qed.

(** With a negative backoff the first wait is refused: one request is
    sent, and the [ValueError] of [time.sleep] reaches the caller. *)
Example call_ollama_negative_backoff :
  call_ollama (-5) "phi3:mini" "tinyllama" server_down "phi3:mini" "ok" 2 []
  = (Raise (Exc "ValueError" "sleep length must be non-negative"),
     [Post Primary "phi3:mini"]).
Proof. reflexivity. Qed.

(** A backoff of ten billion seconds is beyond what [time.sleep] can
    represent. *)
Example call_ollama_oversized_backoff :
  call_ollama 10000000000 "phi3:mini" "tinyllama" server_down "phi3:mini"
    "ok" 2 []
  = (Raise (Exc "OverflowError"
                "timestamp too large to convert to C _PyTime_t"),
     [Post Primary "phi3:mini"]).
Proof. reflexivity. Qed.

Lemma call_ollama_waits_linear_witness :
  sleeps (snd (call_ollama 5 "phi3:mini" "tinyllama" server_down
                 "phi3:mini" "ok" 3 []))
  = map (fun attempt => (5 * inject_Z (attempt + 1))%Q) (py_range 3)
  /\ arithmetic 5
       (sleeps (snd (call_ollama 5 "phi3:mini" "tinyllama" server_down
                       "phi3:mini" "ok" 3 []))).
Proof.
  apply (call_ollama_waits_linear 5 "phi3:mini" "tinyllama" server_down
           "phi3:mini" "ok" 3).
  - intros tr m p. exists "timed out". reflexivity.
  - discriminate.
  - discriminate.
Defined.

(** C7 (as stated) fails: with three retries and a backoff of 5 s the
    waits are 5, 10 and 15 s, and no constant factor relates them. *)
Lemma call_ollama_waits_not_geometric :
  ~ (exists factor : Q,
       (1 < factor)%Q
       /\ geometric factor
            (sleeps (snd (call_ollama 5 "phi3:mini" "tinyllama" server_down
                            "phi3:mini" "ok" 3 [])))).
Proof.
  intros (factor & Hgt & Hgeo).
  change (geometric factor [(5 * inject_Z 1)%Q; (5 * inject_Z 2)%Q;
                            (5 * inject_Z 3)%Q]) in Hgeo.
  simpl in Hgeo. destruct Hgeo as (H1 & H2 & _).
  unfold inject_Z in H1, H2. lra.
Qed.

End RetryScenarios.

(** ** The [/route] endpoint *)

Section RouteFacts.

Import ApiMain.

Variable getenv : string -> option string.
Variable models : list Row.
Variable retries : Z.
Variable backoff : Q.
Variable primary_model fallback_model : string.
Variable post : trace -> string -> string -> post_result.
Variable prefetch : string -> IntegrationSpec -> result (option string).
Variable triage_prompt mailtriage_prompt maillead_prompt summary_prompt :
  string -> string -> string.
Variable dispatch : string -> json -> IntegrationSpec -> result jobject.
Variable elapsed_ms : Z.
Variable random_job_id : string.

Lemma finish_route_Ok (req : RouteRequest) (p m : string) (output : json)
    (resp : RouteResponse) :
  finish_route dispatch elapsed_ms random_job_id req p m output = Ok resp ->
  provider resp = p /\ model resp = m /\ estimated_cost_usd resp = 0%Q.
Proof.
  unfold finish_route.
  destruct (match req_integration req with
            | Some spec => _
            | None => _
            end) as [[[uri st] out]|e]; simpl; [|discriminate].
  destruct (as_str out); simpl; [|discriminate].
  destruct (as_opt_str uri); simpl; [|discriminate].
  destruct (as_opt_str st); simpl; [|discriminate].
  intro H. injection H as <-. auto.
Qed.

(** C10.  A [/route] request that completes reports provider ["ollama"]
    and an estimated cost of zero.  The model it reports is the one
    every primary request of the trace was sent for: the planned model
    when the plan is a local row, and otherwise the local model of
    [choose_model], substituted before the call. *)
Theorem route_reports_local_provider_and_zero_cost
    (req : RouteRequest) (resp : RouteResponse) (tr : trace) :
  route getenv models retries backoff primary_model fallback_model post
        prefetch triage_prompt mailtriage_prompt maillead_prompt
        summary_prompt dispatch elapsed_ms random_job_id req
  = (Ok resp, tr) ->
  provider resp = "ollama"
  /\ estimated_cost_usd resp = 0%Q
  /\ (exists k fb,
        calls tr = repeat (Post Primary (model resp)) k ++ fb
        /\ (fb = [] \/ fb = [Post Fallback fallback_model]))
  /\ (exists prompt planned,
        build_prompt prefetch triage_prompt mailtriage_prompt
          maillead_prompt summary_prompt req = Ok prompt
        /\ _pick_model_by_policy getenv models prompt
             (req_expected_output_tokens req) (req_quality_floor req)
           = Ok planned
        /\ ((r_provider planned = Some "ollama"
             /\ r_model planned = Some (model resp))
            \/ (r_provider planned <> Some "ollama"
                /\ model resp
                   = choose_model primary_model (req_quality_floor req)
                       (option_map kind (req_integration req))))).
Proof.
  unfold route.
  destruct (build_prompt prefetch triage_prompt mailtriage_prompt
              maillead_prompt summary_prompt req) as [prompt|e] eqn:Ebuild;
    [|discriminate].
  destruct (_pick_model_by_policy getenv models prompt
              (req_expected_output_tokens req) (req_quality_floor req))
    as [planned|e] eqn:Eplan; [|discriminate].
  destruct (r_provider planned) as [provider0|] eqn:Eprov; [|discriminate].
  destruct (r_model planned) as [model0|] eqn:Emodel; [|discriminate].
  set (m := if negb (provider0 =? "ollama")%string
            then choose_model primary_model (req_quality_floor req)
                   (option_map kind (req_integration req))
            else model0).
  destruct (call_ollama_calls_bounded backoff primary_model fallback_model
              post m prompt retries) as (k & fb & Hcalls & _ & Hfb).
  destruct (call_ollama backoff primary_model fallback_model post m prompt
              retries []) as [[output|e] tr0]; [|discriminate].
  intro H. injection H as Hfin <-.
  apply finish_route_Ok in Hfin. destruct Hfin as (Hp & Hm & Hcost).
  simpl in Hcalls.
  split.
  { rewrite Hp. destruct (provider0 =? "ollama")%string eqn:E; simpl;
      [apply String.eqb_eq in E; exact E|reflexivity]. }
  split; [exact Hcost|].
  split.
  { exists k, fb. rewrite Hm. auto. }
  exists prompt, planned.
  split; [reflexivity|]. split; [exact Eplan|].
  rewrite Hm. unfold m.
  destruct (provider0 =? "ollama")%string eqn:E; simpl.
  - left. apply String.eqb_eq in E. subst provider0. auto.
  - right. apply String.eqb_neq in E. split; [congruence|reflexivity].
Qed.

End RouteFacts.

Section RouteScenarios.

Import ApiMain.

(** The plan is a hosted row; the call goes to the local model of
    [choose_model] and the response says so. *)
Lemma route_reports_local_provider_and_zero_cost_witness :
  provider
    (mkRouteResponse "a1b2c3d4e5f60718" "ollama" "phi3:mini" "done" 0 42
       false None None) = "ollama"
  /\ estimated_cost_usd
       (mkRouteResponse "a1b2c3d4e5f60718" "ollama" "phi3:mini" "done" 0 42
          false None None) = 0%Q
  /\ (exists k fb,
        calls [Post Primary "phi3:mini"]
        = repeat
            (Post Primary
               (model
                  (mkRouteResponse "a1b2c3d4e5f60718" "ollama" "phi3:mini"
                     "done" 0 42 false None None))) k ++ fb
        /\ (fb = [] \/ fb = [Post Fallback "tinyllama"]))
  /\ (exists prompt planned,
        build_prompt (fun _ _ => Ok None) append append append append
          plain_request = Ok prompt
        /\ _pick_model_by_policy env_with_openai_key hosted_catalog prompt
             (req_expected_output_tokens plain_request)
             (req_quality_floor plain_request)
           = Ok planned
        /\ ((r_provider planned = Some "ollama"
             /\ r_model planned
                = Some (model
                          (mkRouteResponse "a1b2c3d4e5f60718" "ollama"
                             "phi3:mini" "done" 0 42 false None None)))
            \/ (r_provider planned <> Some "ollama"
                /\ model
                     (mkRouteResponse "a1b2c3d4e5f60718" "ollama" "phi3:mini"
                        "done" 0 42 false None None)
                   = choose_model "phi3:mini"
                       (req_quality_floor plain_request)
                       (option_map kind (req_integration plain_request))))).
Proof.
  apply (route_reports_local_provider_and_zero_cost env_with_openai_key
           hosted_catalog 2 5 "phi3:mini" "tinyllama" server_up
           (fun _ _ => Ok None) append append append append
           (fun _ _ _ => Ok []) 42 "a1b2c3d4e5f60718" plain_request).
  reflexivity.
Defined.

End RouteScenarios.

Section ProviderScenarios.

Import TokenUtils Providers.

Lemma complete_usage_defaults_to_zero_witness :
  (exists text stats,
     ollama_complete (fun _ _ => []) (Ok ["llama3"])
       (fun _ => Ok (JObj ollama_answer_without_usage))
       "llama3" "hello world!" 512 (2 # 10) (Some "Be brief.")
     = Ok (text, stats)
     /\ (get "prompt_eval_count" ollama_answer_without_usage = None ->
         get "eval_count" ollama_answer_without_usage = None ->
         stats = mkTokenStats 0 0))
  /\
  (exists text stats,
     openai_complete (Some "sk-test")
       (fun _ => Ok (JObj openai_answer_without_usage))
       "gpt-4o-mini" "hello world!" 512 (2 # 10) (Some "Be brief.") []
     = Ok (text, stats)
     /\ (get "usage" openai_answer_without_usage = None ->
         stats = mkTokenStats 0 0)).
Proof.
  split.
  - apply (proj1 complete_usage_defaults_to_zero
             (fun _ _ => []) (Ok ["llama3"])
             (fun _ => Ok (JObj ollama_answer_without_usage))
             "llama3" "hello world!" 512 (2 # 10) (Some "Be brief.")
             ["llama3"] "llama3" ollama_answer_without_usage);
      reflexivity.
  - apply (proj2 complete_usage_defaults_to_zero
             (Some "sk-test")
             (fun _ => Ok (JObj openai_answer_without_usage))
             "gpt-4o-mini" "hello world!" 512 (2 # 10) (Some "Be brief.") []
             openai_answer_without_usage);
      reflexivity.
Defined.

Example ollama_complete_without_usage :
  ollama_complete (fun _ _ => []) (Ok ["llama3"])
    (fun _ => Ok (JObj ollama_answer_without_usage))
    "llama3" "hello world!" 512 (2 # 10) (Some "Be brief.")
  = Ok ("hi", mkTokenStats 0 0).
Proof. reflexivity. Qed.

(** C8 (as stated) fails: for an answer without usage fields the pair
    returned is [(0, 0)], while the estimator's pair for the same prompt
    and output budget is [(3, 512)]. *)
Lemma ollama_complete_usage_is_not_the_estimate :
  ~ (forall text stats,
       ollama_complete (fun _ _ => []) (Ok ["llama3"])
         (fun _ => Ok (JObj ollama_answer_without_usage))
         "llama3" "hello world!" 512 (2 # 10) (Some "Be brief.")
       = Ok (text, stats) ->
       stats = estimate_tokens no_tiktoken "ollama" "llama3"
                 "hello world!" 512).
Proof.
  intro H.
  specialize (H "hi" (mkTokenStats 0 0) eq_refl).
  vm_compute in H. discriminate H.
Qed.

End ProviderScenarios.

Section ModelsScenarios.

Import Models.

Lemma upsert_job_by_dedupe_key_idempotent_witness :
  (exists db1 j1 db2 j2,
     upsert_job_by_dedupe_key one_job_db (Some "k1") first_submission 200
     = Ok (db1, j1)
     /\ upsert_job_by_dedupe_key db1 (Some "k1") second_submission 300
        = Ok (db2, j2)
     /\ job_id j2 = job_id j1
     /\ updated_at j2 = 300
     /\ user_id j2 = user_id j1
     /\ task_type j2 = task_type j1
     /\ status j2 = status j1
     /\ created_at j2 = created_at j1
     /\ cost_ceiling_usd j2 = cost_ceiling_usd j1
     /\ dedupe_key j2 = Some "k1"
     /\ rows_with_key "k1" db1 = [j1]
     /\ rows_with_key "k1" db2 = [j2]
     /\ get_job_by_id db2 (job_id j1) = Some j2
     /\ List.length (jobs db2) = List.length (jobs db1))
  /\ upsert_job_by_dedupe_key one_job_db None first_submission 200
     = Ok (mkDb (jobs one_job_db ++ [first_submission])
             (job_costs one_job_db) (events one_job_db),
           first_submission).
Proof.
  split.
  - apply (proj1 upsert_job_by_dedupe_key_idempotent one_job_db "k1"
             first_submission second_submission 200 300).
    + reflexivity.
    + repeat constructor. intros [].
    + simpl. lia.
    + intros _. split; reflexivity.
  - apply (proj2 upsert_job_by_dedupe_key_idempotent one_job_db None
             first_submission 200); reflexivity.
Defined.

(** The second submission, made at time 300 with another [job_id],
    returns the job of the first one, refreshed. *)
Example upsert_twice_returns_first_job :
  (r1 <- upsert_job_by_dedupe_key one_job_db (Some "k1") first_submission 200 ;;
   r2 <- upsert_job_by_dedupe_key (fst r1) (Some "k1") second_submission 300 ;;
   Ok (job_id (snd r2), updated_at (snd r2), created_at (snd r2)))
  = Ok ("job-2", 300, 200).
Proof. reflexivity. Qed.

Example upsert_twice_keeps_one_row :
  (r1 <- upsert_job_by_dedupe_key one_job_db (Some "k1") first_submission 200 ;;
   upsert_job_by_dedupe_key (fst r1) (Some "k1") second_submission 300)
  = Ok (mkDb [queued_job; set_updated_at 300 first_submission] [] [],
        set_updated_at 300 first_submission).
Proof. reflexivity. Qed.

End ModelsScenarios.

(** * Further properties of the code *)

(** ** More on the routing policy *)

Section RoutingPolicyMore.

Import TokenUtils RoutingPolicy.

Variable tiktoken_count : string -> option Z.
Variable default_prompt : string.
Variable price_rows : list ModelRow.
Variable input_text : string.
Variable expected_output_tokens : Z.
Variable quality_floor : Z.
Variable provider_hints : Hints.

Lemma sort_by_key_head_le {A : Type} (key : A -> float) (l : list A) (x : A)
    (rest : list A) :
  Forall (fun y => is_nan (key y) = false) l ->
  sort_by_key flt key l = x :: rest ->
  forall y, In y l -> fle (key x) (key y) = true.
Proof.
  intros Hnum Hs y Hy.
  destruct (sort_by_key_head_float key l Hnum x rest Hs)
    as (l1 & l2 & Hl & H1 & H2).
  rewrite Forall_forall in H1, H2, Hnum.
  rewrite Hl in Hy.
  apply in_app_or in Hy. destruct Hy as [Hy|[<-|Hy]].
  - apply flt_fle. exact (H1 _ Hy).
  - apply fle_refl. apply Hnum. rewrite Hl.
    apply in_or_app. right. left. reflexivity.
  - exact (H2 _ Hy).
Qed.

(** X1.  A decision always names a catalog row that meets the quality
    floor and whose context limits hold the estimated tokens; the
    tokens and the cost of the decision are those estimated for that
    row. *)
Theorem choose_model_decision_within_limits (ceiling : float)
    (d : RouteDecision) :
  choose_model tiktoken_count default_prompt price_rows input_text
    expected_output_tokens quality_floor ceiling provider_hints = Ok d ->
  exists row,
    In row price_rows
    /\ rd_provider d = provider row
    /\ rd_model d = model row
    /\ quality_floor <= baseline_quality row
    /\ tokens d = estimate_tokens tiktoken_count (provider row) (model row)
                    input_text expected_output_tokens
    /\ tokens_in (tokens d) <= max_input_tokens row
    /\ tokens_out (tokens d) <= max_output_tokens row
    /\ estimated_cost row (tokens d) = Ok (estimated_cost_usd d).
Proof.
  intro Hd.
  destruct (choose_model_Ok_inv _ _ _ _ _ _ _ _ _ Hd)
    as (row & cost & tk & Hin & Hc & ->).
  destruct (consider_Some _ _ _ _ _ _ _ _ Hc)
    as (k & Hk & Heq & (_ & _ & Hq & Hi & Ho) & _).
  injection Heq as -> ->.
  exists row. simpl. repeat split; auto.
Qed.

(** X2.  A non-empty provider or model hint is a hard filter: the
    decision carries exactly the hinted value. *)
Theorem choose_model_obeys_hints (ceiling : float) (d : RouteDecision) :
  choose_model tiktoken_count default_prompt price_rows input_text
    expected_output_tokens quality_floor ceiling provider_hints = Ok d ->
  (forall h, hint_provider provider_hints = Some h -> h <> "" ->
             rd_provider d = h)
  /\ (forall h, hint_model provider_hints = Some h -> h <> "" ->
                rd_model d = h).
Proof.
  intro Hd.
  destruct (choose_model_Ok_inv _ _ _ _ _ _ _ _ _ Hd)
    as (row & cost & tk & Hin & Hc & ->).
  destruct (consider_Some _ _ _ _ _ _ _ _ Hc)
    as (k & _ & _ & (Hp & Hm & _) & _).
  simpl. split; intros h Hh Hne.
  - rewrite Hh in Hp. simpl in Hp. unfold truthy_str in Hp.
    apply String.eqb_neq in Hne. rewrite Hne in Hp. simpl in Hp.
    apply negb_false_iff, String.eqb_eq in Hp. exact Hp.
  - rewrite Hh in Hm. simpl in Hm. unfold truthy_str in Hm.
    apply String.eqb_neq in Hne. rewrite Hne in Hm. simpl in Hm.
    apply negb_false_iff, String.eqb_eq in Hm. exact Hm.
Qed.

Lemma flt_nan_r (a : float) : flt a S754_nan = false.
Proof. destruct a as [s|s| |s m e]; reflexivity. Qed.

(** A row that survives under a positive ceiling survives, with the same
    cost, under any ceiling that is no cap or is at least as high. *)
Lemma consider_relax (ceiling ceiling' : float) (row : ModelRow)
    (c : Candidate) :
  flt fzero ceiling = true ->
  (flt fzero ceiling' = false \/ fle ceiling ceiling' = true) ->
  consider tiktoken_count input_text expected_output_tokens quality_floor
    ceiling provider_hints row = Ok (Some c) ->
  consider tiktoken_count input_text expected_output_tokens quality_floor
    ceiling' provider_hints row = Ok (Some c).
Proof.
  intros Hpos Hrel Hc.
  destruct (consider_Some _ _ _ _ _ _ _ _ Hc) as (k & Hk & -> & Hpass & Hb).
  rewrite Hpos in Hb. simpl in Hb.
  rewrite consider_passes by exact Hpass.
  rewrite Hk. simpl.
  assert (Hgate : flt fzero ceiling' && flt ceiling' k = false).
  { destruct Hrel as [Hcap|Hge]; [rewrite Hcap; reflexivity|].
    apply andb_false_iff. right.
    destruct (fle_true_number _ _ Hge) as [Hc1 Hc2].
    destruct (is_nan k) eqn:Hnan.
    - destruct k; try discriminate. apply flt_nan_r.
    - apply (flt_false_iff _ _ Hc2 Hnan).
      apply (fle_trans _ ceiling); [|exact Hge].
      apply (flt_false_iff _ _ Hc1 Hnan). exact Hb. }
  rewrite Hgate. reflexivity.
Qed.

(** Whether the loop completes does not depend on the ceiling. *)
Lemma collect_Ok_any_ceiling (ceiling ceiling' : float)
    (cs : list Candidate) :
  collect tiktoken_count input_text expected_output_tokens quality_floor
    ceiling provider_hints price_rows = Ok cs ->
  exists cs',
    collect tiktoken_count input_text expected_output_tokens quality_floor
      ceiling' provider_hints price_rows = Ok cs'.
Proof.
  intro Hcs. apply collect_Ok_intro. intros row Hin.
  destruct (collect_Ok_consider _ _ _ _ _ _ _ _ _ Hcs Hin) as [o Ho].
  destruct (consider_Ok_cases _ _ _ _ _ _ _ _ Ho)
    as [[Hpass [k Hk]]|[Hno _]].
  - rewrite consider_passes by exact Hpass. rewrite Hk. simpl.
    destruct (flt fzero ceiling' && flt ceiling' k); eauto.
  - rewrite consider_not_passes by exact Hno. eauto.
Qed.

Lemma collect_In_inv (ceiling : float) (cs : list Candidate) (c : Candidate) :
  collect tiktoken_count input_text expected_output_tokens quality_floor
    ceiling provider_hints price_rows = Ok cs ->
  In c cs ->
  exists row,
    In row price_rows
    /\ consider tiktoken_count input_text expected_output_tokens
         quality_floor ceiling provider_hints row = Ok (Some c).
Proof.
  intros Hcs Hin. apply in_split in Hin. destruct Hin as (l1 & l2 & ->).
  destruct (collect_split _ _ _ _ _ _ _ _ _ _ Hcs)
    as (r1 & r & r2 & -> & _ & Hc & _).
  exists r. split; [apply in_or_app; right; left; reflexivity|exact Hc].
Qed.

(** X3.  Relaxing the budget never loses a decision and never makes it
    dearer: if a positive ceiling yields a decision, then so does the
    absence of a cap and so does any higher ceiling, at a cost that is
    not greater, provided the costs of the rows that survive the relaxed
    budget are numbers (none is NaN). *)
Theorem choose_model_relaxed_budget (ceiling ceiling' : float)
    (d : RouteDecision) :
  flt fzero ceiling = true ->
  (flt fzero ceiling' = false \/ fle ceiling ceiling' = true) ->
  (forall row c,
     In row price_rows ->
     consider tiktoken_count input_text expected_output_tokens quality_floor
       ceiling' provider_hints row = Ok (Some c) ->
     is_nan (cand_cost c) = false) ->
  choose_model tiktoken_count default_prompt price_rows input_text
    expected_output_tokens quality_floor ceiling provider_hints = Ok d ->
  exists d',
    choose_model tiktoken_count default_prompt price_rows input_text
      expected_output_tokens quality_floor ceiling' provider_hints = Ok d'
    /\ fle (estimated_cost_usd d') (estimated_cost_usd d) = true.
Proof.
  intros Hpos Hrel Hnum Hd.
  destruct (choose_model_Ok_sorted _ _ _ _ _ _ _ _ _ Hd)
    as (cands & _ & _ & _ & _ & Hcol & _ & _).
  destruct (choose_model_Ok_inv _ _ _ _ _ _ _ _ _ Hd)
    as (row & cost & tk & Hin & Hc & ->).
  pose proof (consider_relax _ _ _ _ Hpos Hrel Hc) as Hc'.
  destruct (collect_Ok_any_ceiling ceiling ceiling' _ Hcol) as [cs' Hcs'].
  pose proof (collect_In _ _ _ _ _ _ _ _ _ _ Hcs' Hin Hc') as Hmem.
  assert (Hnum' : Forall (fun c => is_nan (cand_cost c) = false) cs').
  { apply Forall_forall. intros c Hcin.
    destruct (collect_In_inv _ _ _ Hcs' Hcin) as (r & Hr & Hrc).
    exact (Hnum r c Hr Hrc). }
  unfold choose_model. rewrite Hcs'. cbn [bind].
  destruct cs' as [|c0 cs0]; [contradiction|].
  destruct (sort_by_key flt cand_cost (c0 :: cs0))
    as [|[[row' cost'] tk'] rest] eqn:Es.
  - apply sort_by_key_nil_inv in Es. discriminate.
  - eexists. split; [reflexivity|]. simpl.
    exact (sort_by_key_head_le cand_cost _ _ _ Hnum' Es _ Hmem).
Qed.

End RoutingPolicyMore.

Section TokenBounds.

Import TokenUtils.

(** X4.  The heuristic counts no token exactly for the empty text,
    never more tokens than characters, and from four characters on it
    is the floor of a quarter of the length. *)
Theorem approx_tokens_bounds (text : string) :
  (approx_tokens text = 0 <-> text = "")
  /\ 0 <= approx_tokens text <= Z.of_nat (String.length text)
  /\ (4 <= Z.of_nat (String.length text) ->
      4 * approx_tokens text <= Z.of_nat (String.length text)
        < 4 * approx_tokens text + 4).
Proof.
  unfold approx_tokens, truthy_str. rewrite negb_involutive.
  destruct text as [|c t].
  - simpl. repeat split; auto; lia.
  - replace (String c t =? "")%string with false by reflexivity.
    set (n := Z.of_nat (String.length (String c t))).
    assert (Hn : 1 <= n).
    { unfold n. simpl String.length. lia. }
    pose proof (Z.div_mod n 4 ltac:(lia)) as Hdm.
    pose proof (Z.mod_pos_bound n 4 ltac:(lia)) as Hmod.
    split; [split; [lia|discriminate]|].
    split; lia.
Qed.

End TokenBounds.

(** ** The planner of the router *)

Section PlannerFacts.

Import ApiMain.

Variable getenv : string -> option string.
Variable models : list Row.


(** The first loop keeps exactly the viable rows, in order. *)
Lemma gather_viable_filter (in_toks out_toks quality_floor : Z)
    (rows : list Row) :
  gather_viable getenv in_toks out_toks quality_floor rows
  = map (fun m => (_estimate_cost m in_toks out_toks, m))
        (filter (viable getenv quality_floor) rows).
Proof.
  induction rows as [|m rest IH]; [reflexivity|].
  simpl. unfold viable at 1.
  destruct (or_default (r_baseline_quality m) 1 <? quality_floor);
    simpl; [exact IH|].
  destruct (is_ollama (r_provider m)); simpl; [rewrite IH; reflexivity|].
  destruct (_has_key_for getenv (r_provider m)); simpl;
    [rewrite IH; reflexivity|exact IH].
Qed.

(** X5.  The planner's estimates are at least one token each for every
    prompt and every requested output length, and with non-negative
    prices the estimated cost of a row is non-negative. *)
Theorem planner_estimates_positive (prompt : string)
    (expected_out_tokens : Z) (row : Row) :
  (0 <= or_default (r_price_in_per_1k row) 0)%Q ->
  (0 <= or_default (r_price_out_per_1k row) 0)%Q ->
  1 <= fst (_estimate_tokens prompt expected_out_tokens)
  /\ 1 <= snd (_estimate_tokens prompt expected_out_tokens)
  /\ (0 <= _estimate_cost row
             (fst (_estimate_tokens prompt expected_out_tokens))
             (snd (_estimate_tokens prompt expected_out_tokens)))%Q.
Proof.
  intros Hin Hout.
  unfold _estimate_tokens, _chars_to_tokens. simpl fst. simpl snd.
  split; [lia|]. split; [lia|].
  unfold _estimate_cost.
  set (i := Z.max 1 (Z.of_nat (String.length prompt) / 4)).
  set (o := Z.max 1 expected_out_tokens).
  assert (Hi : (0 <= inject_Z i / 1000)%Q).
  { apply Qle_shift_div_l; [reflexivity|].
    rewrite Qmult_0_l. change 0%Q with (inject_Z 0).
    rewrite <- Zle_Qle. unfold i. lia. }
  assert (Ho : (0 <= inject_Z o / 1000)%Q).
  { apply Qle_shift_div_l; [reflexivity|].
    rewrite Qmult_0_l. change 0%Q with (inject_Z 0).
    rewrite <- Zle_Qle. unfold o. lia. }
  pose proof (Qmult_le_0_compat _ _ Hi Hin).
  pose proof (Qmult_le_0_compat _ _ Ho Hout).
  lra.
Qed.



(** X8.  When no row is viable the quality floor is dropped: the
    planner returns the first local row of the price table whatever its
    quality, and the built-in [tinyllama] row when the table has no
    local row (in particular when it is empty). *)
Theorem pick_model_fallback_local (prompt : string)
    (expected_out_tokens : Z) (quality_floor : Z) :
  (forall r, In r models -> viable getenv quality_floor r = false) ->
  _pick_model_by_policy getenv models prompt expected_out_tokens quality_floor
  = Ok (hd tiny_local_default
          (filter (fun m => is_ollama (r_provider m)) models)).
Proof.
  intro Hnone. unfold _pick_model_by_policy.
  destruct (_estimate_tokens prompt expected_out_tokens) as [i o].
  rewrite gather_viable_filter.
  assert (Hf : filter (viable getenv quality_floor) models = []).
  { destruct (filter (viable getenv quality_floor) models) as [|v vs] eqn:Ev;
      [reflexivity|].
    assert (H : In v (filter (viable getenv quality_floor) models))
      by (rewrite Ev; left; reflexivity).
    apply filter_In in H. destruct H as [Hin Hv].
    rewrite (Hnone v Hin) in Hv. discriminate. }
  rewrite Hf. simpl.
  destruct (filter (fun m => is_ollama (r_provider m)) models); reflexivity.
Qed.

End PlannerFacts.

(** ** More on calls to the inference server *)

Section CallOllamaMore.

Import ApiMain.

Local Arguments Z.of_nat : simpl never.
Local Arguments Z.ltb : simpl never.
Local Arguments Qmult : simpl never.
Local Arguments inject_Z : simpl never.
Local Arguments String.eqb : simpl never.

Variable backoff : Q.
Variable primary_model fallback_model : string.
Variable post : trace -> string -> string -> post_result.
Variable model prompt : string.
Variable retries : Z.

Let run := call_ollama_from backoff primary_model fallback_model post
                            model prompt retries.

Lemma calls_failed_attempts (a n : nat) :
  calls (failed_attempts backoff model a n) = repeat (Post Primary model) n.
Proof.
  revert a. induction n as [|n IH]; intro a; [reflexivity|].
  simpl. unfold calls in IH. rewrite IH. reflexivity.
Qed.

Lemma sleeps_failed_attempts (a n : nat) :
  sleeps (failed_attempts backoff model a n)
  = map (fun attempt => (backoff * inject_Z (attempt + 1))%Q)
        (map Z.of_nat (seq a n)).
Proof.
  revert a. induction n as [|n IH]; intro a; [reflexivity|].
  simpl. rewrite IH. reflexivity.
Qed.

(** The waits [time.sleep] accepts: the backoff is not negative and the
    longest wait, the last one, is at most [max_wait]. *)
Let waits_accepted : Prop :=
  (0 <= backoff)%Q /\ (backoff * inject_Z retries <= max_wait)%Q.

(** While the server answers with transient errors and retries are
    left, the loop only records the attempt and its wait. *)
Lemma run_skip_failures (j : nat) :
  waits_accepted ->
  forall (a : nat) (attempts : list Z) (tr : trace),
    Z.of_nat a + Z.of_nat j <= retries ->
    (forall t, (t < j)%nat ->
       exists msg,
         post (tr ++ failed_attempts backoff model a t) model prompt
         = HTTPError msg) ->
    run (map Z.of_nat (seq a j) ++ attempts) tr
    = run attempts (tr ++ failed_attempts backoff model a j).
Proof.
  unfold run. intros [Hpos Hmax].
  induction j as [|j IH]; intros a attempts tr Hle Hfail.
  - simpl. rewrite app_nil_r. reflexivity.
  - destruct (Hfail 0%nat ltac:(lia)) as [msg Hmsg].
    simpl in Hmsg. rewrite app_nil_r in Hmsg.
    simpl seq. simpl map. simpl app. simpl call_ollama_from.
    rewrite Hmsg.
    assert (Hlt : (Z.of_nat a <? retries) = true) by (apply Z.ltb_lt; lia).
    rewrite Hlt.
    rewrite (time_sleep_accepts backoff retries (Z.of_nat a) Hpos Hmax)
      by lia.
    rewrite IH.
    + f_equal. simpl. rewrite <- !app_assoc. reflexivity.
    + lia.
    + intros t Ht.
      destruct (Hfail (S t) ltac:(lia)) as [m Hm].
      exists m. simpl in Hm. rewrite <- !app_assoc. exact Hm.
Qed.

Lemma py_range_split (i : nat) :
  Z.of_nat i <= retries ->
  py_range (retries + 1)
  = map Z.of_nat (seq 0 i)
      ++ Z.of_nat i
      :: map Z.of_nat (seq (S i) (Z.to_nat (retries + 1) - S i)).
Proof.
  intro Hle. unfold py_range.
  replace (Z.to_nat (retries + 1))
    with (i + S (Z.to_nat (retries + 1) - S i))%nat at 1 by lia.
  rewrite seq_app, map_app. simpl. reflexivity.
Qed.

(** X9.  With waits that [time.sleep] accepts (a backoff that is not
    negative, waits of at most [max_wait]): if the server fails
    transiently [i] times ([i] at most [retries]) and then answers or
    crashes, [call_ollama] stops at that request: it returns the answer (or lets the other exception
    through unchanged), after [i + 1] requests for the model, the [i]
    waits in between, and no request for the fallback model. *)
Theorem call_ollama_stops_at_first_answer (i : nat) (outcome : post_result) :
  (0 <= backoff)%Q ->
  (backoff * inject_Z retries <= max_wait)%Q ->
  Z.of_nat i <= retries ->
  (forall tr, (List.length (calls tr) < i)%nat ->
     exists msg, post tr model prompt = HTTPError msg) ->
  (forall tr, List.length (calls tr) = i ->
     post tr model prompt = outcome) ->
  (forall msg, outcome <> HTTPError msg) ->
  snd (call_ollama backoff primary_model fallback_model post model prompt
         retries [])
  = failed_attempts backoff model 0 i ++ [Post Primary model]
  /\ match outcome with
     | Responded data =>
         fst (call_ollama backoff primary_model fallback_model post model
                prompt retries []) = Ok (response_of data)
     | Crashed e =>
         fst (call_ollama backoff primary_model fallback_model post model
                prompt retries []) = Raise e
     | HTTPError _ => False
     end.
Proof.
  intros Hpos Hmax Hle Hfail Hans Hnot.
  unfold call_ollama. rewrite (py_range_split i Hle).
  fold run. rewrite (run_skip_failures i (conj Hpos Hmax)).
  - unfold run. simpl app. simpl call_ollama_from.
    rewrite (Hans (failed_attempts backoff model 0 i)).
    + destruct outcome as [data|msg|e].
      * split; reflexivity.
      * exfalso. exact (Hnot msg eq_refl).
      * split; reflexivity.
    + rewrite calls_failed_attempts. apply repeat_length.
  - lia.
  - intros t Ht. apply Hfail. simpl.
    rewrite calls_failed_attempts, repeat_length. exact Ht.
Qed.

(** What the loop does once every attempt has failed transiently. *)
Lemma call_ollama_exhausted :
  waits_accepted ->
  0 <= retries ->
  (forall tr, (List.length (calls tr) <= Z.to_nat retries)%nat ->
     exists msg, post tr model prompt = HTTPError msg) ->
  let tried := failed_attempts backoff model 0 (Z.to_nat retries)
                 ++ [Post Primary model] in
  exists last_err,
    call_ollama backoff primary_model fallback_model post model prompt
      retries []
    = if (model =? primary_model)%string && truthy_str fallback_model
      then
        match post tried fallback_model prompt with
        | Responded data =>
            (Ok (response_of data), tried ++ [Post Fallback fallback_model])
        | HTTPError e2 =>
            (Raise (HTTPException 502
                      ("Ollama error (fallback failed): " ++ e2)%string),
             tried ++ [Post Fallback fallback_model])
        | Crashed e2 =>
            (Raise (HTTPException 502
                      ("Ollama error (fallback failed): " ++ exc_str e2)%string),
             tried ++ [Post Fallback fallback_model])
        end
      else (Raise (HTTPException 502 ("Ollama error: " ++ last_err)%string),
            tried).
Proof.
  intros Hacc Hpos Hfail tried.
  assert (Hle : Z.of_nat (Z.to_nat retries) <= retries) by lia.
  destruct (Hfail (failed_attempts backoff model 0 (Z.to_nat retries)))
    as [msg Hmsg].
  { rewrite calls_failed_attempts, repeat_length. lia. }
  exists msg.
  unfold call_ollama. rewrite (py_range_split _ Hle).
  fold run. rewrite (run_skip_failures _ Hacc).
  - unfold run. simpl app. simpl call_ollama_from.
    rewrite Hmsg.
    assert (Hlt : (Z.of_nat (Z.to_nat retries) <? retries) = false)
      by (apply Z.ltb_ge; lia).
    rewrite Hlt. fold tried.
    destruct ((model =? primary_model)%string && truthy_str fallback_model);
      [|reflexivity].
    destruct (post tried fallback_model prompt); reflexivity.
  - lia.
  - intros t Ht. apply Hfail. simpl.
    rewrite calls_failed_attempts, repeat_length. lia.
Qed.

(** X10.  With waits that [time.sleep] accepts (a backoff that is not
    negative, waits of at most [max_wait]): when every attempt fails
    transiently and the call has no
    fallback (the model is not the triage primary, or no fallback is
    configured), the caller gets an HTTP 502 that carries the last
    error, after [retries + 1] requests. *)
Theorem call_ollama_exhausted_is_502 :
  (0 <= backoff)%Q ->
  (backoff * inject_Z retries <= max_wait)%Q ->
  0 <= retries ->
  (forall tr, (List.length (calls tr) <= Z.to_nat retries)%nat ->
     exists msg, post tr model prompt = HTTPError msg) ->
  (model =? primary_model)%string && truthy_str fallback_model = false ->
  exists last_err,
    post (failed_attempts backoff model 0 (Z.to_nat retries)) model prompt
    = HTTPError last_err
    /\ call_ollama backoff primary_model fallback_model post model prompt
         retries []
       = (Raise (HTTPException 502 ("Ollama error: " ++ last_err)%string),
          failed_attempts backoff model 0 (Z.to_nat retries)
            ++ [Post Primary model]).
Proof.
  intros Hback Hmax Hpos Hfail Hnofb.
  assert (Hle : Z.of_nat (Z.to_nat retries) <= retries) by lia.
  destruct (Hfail (failed_attempts backoff model 0 (Z.to_nat retries)))
    as [msg Hmsg].
  { rewrite calls_failed_attempts, repeat_length. lia. }
  exists msg. split; [exact Hmsg|].
  unfold call_ollama. rewrite (py_range_split _ Hle).
  fold run. rewrite (run_skip_failures _ (conj Hback Hmax)).
  - unfold run. simpl app. simpl call_ollama_from.
    rewrite Hmsg.
    assert (Hlt : (Z.of_nat (Z.to_nat retries) <? retries) = false)
      by (apply Z.ltb_ge; lia).
    rewrite Hlt, Hnofb. reflexivity.
  - lia.
  - intros t Ht. apply Hfail. simpl.
    rewrite calls_failed_attempts, repeat_length. lia.
Qed.

(** X11.  With waits that [time.sleep] accepts (a backoff that is not
    negative, waits of at most [max_wait]): when every attempt for the
    triage primary fails transiently and the fallback model answers, [call_ollama] returns the fallback's
    answer: the failure of the primary is absorbed. *)
Theorem call_ollama_fallback_rescues (data : jobject) :
  (0 <= backoff)%Q ->
  (backoff * inject_Z retries <= max_wait)%Q ->
  0 <= retries ->
  model = primary_model ->
  fallback_model <> "" ->
  (forall tr, (List.length (calls tr) <= Z.to_nat retries)%nat ->
     exists msg, post tr model prompt = HTTPError msg) ->
  (forall tr, List.length (calls tr) = S (Z.to_nat retries) ->
     post tr fallback_model prompt = Responded data) ->
  call_ollama backoff primary_model fallback_model post model prompt
    retries []
  = (Ok (response_of data),
     failed_attempts backoff model 0 (Z.to_nat retries)
       ++ [Post Primary model] ++ [Post Fallback fallback_model]).
Proof.
  intros Hback Hmax Hpos Hmodel Hfb Hfail Hans.
  destruct (call_ollama_exhausted (conj Hback Hmax) Hpos Hfail)
    as [last_err Hrun].
  rewrite Hrun.
  assert (Hcond : (model =? primary_model)%string
                  && truthy_str fallback_model = true).
  { apply andb_true_iff. split.
    - apply String.eqb_eq. exact Hmodel.
    - unfold truthy_str. apply negb_true_iff, String.eqb_neq. exact Hfb. }
  rewrite Hcond, Hans.
  - rewrite <- app_assoc. reflexivity.
  - rewrite calls_app, calls_failed_attempts, length_app, repeat_length.
    simpl. lia.
Qed.

Lemma total_wait_failed_attempts (a n : nat) :
  (2 * total_wait (failed_attempts backoff model a n)
   == backoff
      * inject_Z (Z.of_nat n * (2 * Z.of_nat a + Z.of_nat n + 1)))%Q.
Proof.
  revert a. induction n as [|n IH]; intro a.
  - unfold total_wait. simpl. change (inject_Z 0) with 0%Q. ring.
  - unfold total_wait in *. simpl sleeps. simpl fold_right.
    specialize (IH (S a)).
    rewrite Qmult_plus_distr_r, IH.
    rewrite !Nat2Z.inj_succ. unfold Z.succ.
    rewrite !inject_Z_mult, !inject_Z_plus, !inject_Z_mult.
    change (inject_Z 2) with 2%Q. change (inject_Z 1) with 1%Q.
    rewrite ?inject_Z_plus. change (inject_Z 1) with 1%Q.
    ring.
Qed.

(** X12.  Against a server that fails every request, and with waits
    that [time.sleep] accepts (a backoff that is not negative, waits of
    at most [max_wait]), the time [call_ollama] spends waiting is
    [RETRY_BACKOFF_S * retries * (retries + 1) / 2]. *)
Theorem call_ollama_total_wait :
  (0 <= backoff)%Q ->
  (backoff * inject_Z retries <= max_wait)%Q ->
  0 <= retries ->
  always_fails post ->
  (2 * total_wait
         (snd (call_ollama backoff primary_model fallback_model post model
                 prompt retries []))
   == backoff * inject_Z (retries * (retries + 1)))%Q.
Proof.
  intros Hback Hmax Hpos Hdown.
  assert (Hfail : forall tr,
            (List.length (calls tr) <= Z.to_nat retries)%nat ->
            exists msg, post tr model prompt = HTTPError msg)
    by (intros tr _; apply Hdown).
  destruct (call_ollama_exhausted (conj Hback Hmax) Hpos Hfail)
    as [last_err Hrun].
  assert (Htot : forall extra,
            sleeps extra = [] ->
            total_wait
              (failed_attempts backoff model 0 (Z.to_nat retries) ++ extra)
            = total_wait (failed_attempts backoff model 0 (Z.to_nat retries))).
  { intros extra He. unfold total_wait.
    rewrite sleeps_app, He, app_nil_r. reflexivity. }
  assert (Hsum : (2 * total_wait
                        (failed_attempts backoff model 0 (Z.to_nat retries))
                  == backoff * inject_Z (retries * (retries + 1)))%Q).
  { rewrite total_wait_failed_attempts.
    replace (Z.of_nat (Z.to_nat retries)
             * (2 * Z.of_nat 0 + Z.of_nat (Z.to_nat retries) + 1))
      with (retries * (retries + 1)) by lia.
    reflexivity. }
  rewrite Hrun.
  destruct ((model =? primary_model)%string && truthy_str fallback_model).
  - destruct (post _ fallback_model prompt); simpl snd;
      rewrite <- app_assoc, Htot by reflexivity; exact Hsum.
  - simpl snd. rewrite Htot by reflexivity. exact Hsum.
Qed.

(** With a negative number of retries the loop body never runs:
    no request is sent, whatever the server would answer, and the
    caller gets the HTTP 502 of the line after the loop. *)
Theorem call_ollama_negative_retries :
  retries < 0 ->
  call_ollama backoff primary_model fallback_model post model prompt
    retries []
  = (Raise (HTTPException 502 "Ollama call fell through unexpectedly"), []).
Proof.
  intro Hneg. unfold call_ollama, py_range.
  replace (Z.to_nat (retries + 1)) with 0%nat by lia.
  reflexivity.
Qed.

End CallOllamaMore.

(** ** More on the endpoints of the router *)

Section EndpointFacts.

Import ApiMain.

Variable getenv : string -> option string.
Variable models : list Row.
Variable retries : Z.
Variable backoff : Q.
Variable primary_model fallback_model : string.
Variable post : trace -> string -> string -> post_result.
Variable prefetch : string -> IntegrationSpec -> result (option string).
Variable triage_prompt mailtriage_prompt maillead_prompt summary_prompt :
  string -> string -> string.
Variable dispatch : string -> json -> IntegrationSpec -> result jobject.
Variable elapsed_ms : Z.
Variable random_job_id : string.

(** A text returned by [call_ollama] is the [response] of an answer the
    server gave for the prompt. *)
Lemma call_ollama_from_Ok (model prompt : string) (n : Z)
    (attempts : list Z) :
  forall (tr tr' : trace) (out : json),
    call_ollama_from backoff primary_model fallback_model post model prompt
      n attempts tr = (Ok out, tr') ->
    exists t m data,
      post t m prompt = Responded data /\ out = response_of data.
Proof.
  induction attempts as [|attempt rest IH]; intros tr tr' out H.
  - discriminate.
  - simpl in H.
    destruct (post tr model prompt) as [data|msg|e] eqn:Epost.
    + injection H as <- _. eauto.
    + destruct (attempt <? n).
      * destruct (time_sleep (backoff * inject_Z (attempt + 1)));
          [exact (IH _ _ _ H)|discriminate].
      * destruct ((model =? primary_model)%string
                  && truthy_str fallback_model); [|discriminate].
        destruct (post (tr ++ [Post Primary model]) fallback_model prompt)
          as [data2|msg2|e2] eqn:Epost2; try discriminate.
        injection H as <- _. eauto.
    + discriminate.
Qed.

(** X13.  The warm-up makes one attempt only: it never waits, sends at
    most one request for the model it warms and at most one for the
    fallback, and reports an HTTP error of the call in its answer
    instead of raising it. *)
Theorem warmup_single_attempt (kind : option string) :
  let model := choose_model primary_model 3 (Some (or_default kind "")) in
  let run := warmup backoff primary_model fallback_model post elapsed_ms kind in
  sleeps (snd run) = []
  /\ (exists k fb,
        calls (snd run) = repeat (Post Primary model) k ++ fb
        /\ (k <= 1)%nat
        /\ (fb = [] \/ fb = [Post Fallback fallback_model]))
  /\ (forall status_code detail,
        fst run <> Raise (HTTPException status_code detail)).
Proof.
  intros model run. unfold run, warmup. fold model.
  destruct (call_ollama_from_trace backoff primary_model fallback_model post
              model "ok" 0 1 0 [])
    as (k & fb & Hk & _ & Hcalls & Hfb & Hsleeps & _).
  { left. reflexivity. }
  change (call_ollama_from backoff primary_model fallback_model post model
            "ok" 0 (map Z.of_nat (seq 0 1)) [])
    with (call_ollama backoff primary_model fallback_model post model
            "ok" 0 []) in Hcalls, Hsleeps.
  assert (Hs : sleeps (snd (call_ollama backoff primary_model fallback_model
                              post model "ok" 0 [])) = []).
  { rewrite Hsleeps. replace (k - 1)%nat with 0%nat by lia. reflexivity. }
  destruct (call_ollama backoff primary_model fallback_model post model
              "ok" 0 []) as [[out|[cls msg|code detail]] tr]; simpl in *.
  - split; [exact Hs|]. split; [exists k, fb; auto|]. discriminate.
  - split; [exact Hs|]. split; [exists k, fb; auto|]. discriminate.
  - split; [exact Hs|]. split; [exists k, fb; auto|]. discriminate.
Qed.

(** When the prefetch of an integration raises, [/route] fails
    with that error and the inference server is never contacted. *)
Theorem route_prefetch_error_skips_model (req : RouteRequest)
    (spec : IntegrationSpec) (e : exn) :
  req_integration req = Some spec ->
  prefetch (kind spec) spec = Raise e ->
  route getenv models retries backoff primary_model fallback_model post
        prefetch triage_prompt mailtriage_prompt maillead_prompt
        summary_prompt dispatch elapsed_ms random_job_id req
  = (Raise e, []).
Proof.
  intros Hspec Hpre. unfold route, build_prompt.
  rewrite Hspec, Hpre. reflexivity.
Qed.

(** X14.  Without an integration, a completed [/route] request carries
    no artifact and no integration status, and its text is the
    [response] field of an answer the server gave to the request's own
    prompt. *)
Theorem route_plain_returns_server_text (req : RouteRequest)
    (resp : RouteResponse) (tr : trace) :
  req_integration req = None ->
  route getenv models retries backoff primary_model fallback_model post
        prefetch triage_prompt mailtriage_prompt maillead_prompt
        summary_prompt dispatch elapsed_ms random_job_id req
  = (Ok resp, tr) ->
  artifact_uri resp = None
  /\ integration_status resp = None
  /\ exists t m data,
       post t m (req_prompt req) = Responded data
       /\ response_of data = JStr (output_text resp).
Proof.
  intros Hnone. unfold route, build_prompt. rewrite Hnone.
  destruct (_pick_model_by_policy getenv models (req_prompt req)
              (req_expected_output_tokens req) (req_quality_floor req))
    as [planned|e]; [|discriminate].
  destruct (r_provider planned) as [provider0|]; [|discriminate].
  destruct (r_model planned) as [model0|]; [|discriminate].
  simpl option_map.
  set (m := if negb (provider0 =? "ollama")%string
            then choose_model primary_model (req_quality_floor req) None
            else model0).
  unfold call_ollama.
  destruct (call_ollama_from backoff primary_model fallback_model post m
              (req_prompt req) retries (py_range (retries + 1)) [])
    as [[output|e] tr0] eqn:Ecall; [|discriminate].
  destruct (call_ollama_from_Ok _ _ _ _ _ _ _ Ecall)
    as (t & m' & data & Hpost & Hout).
  unfold finish_route. rewrite Hnone. simpl.
  destruct output as [| | | |s| |]; simpl; try discriminate.
  intro H. injection H as <- _. simpl.
  split; [reflexivity|]. split; [reflexivity|].
  exists t, m', data. split; [exact Hpost|]. symmetry. exact Hout.
Qed.

(** X15.  When the integration returns a non-empty [output_override],
    the completed response carries that text in place of the model's
    output. *)
Theorem route_output_override (req : RouteRequest) (spec : IntegrationSpec)
    (override : string) (resp : RouteResponse) (tr : trace) :
  req_integration req = Some spec ->
  override <> "" ->
  (forall output result,
     dispatch (kind spec) output spec = Ok result ->
     get "output_override" result = Some (JStr override)) ->
  route getenv models retries backoff primary_model fallback_model post
        prefetch triage_prompt mailtriage_prompt maillead_prompt
        summary_prompt dispatch elapsed_ms random_job_id req
  = (Ok resp, tr) ->
  output_text resp = override.
Proof.
  intros Hspec Hne Hdisp. unfold route.
  destruct (build_prompt prefetch triage_prompt mailtriage_prompt
              maillead_prompt summary_prompt req) as [prompt|e];
    [|discriminate].
  destruct (_pick_model_by_policy getenv models prompt
              (req_expected_output_tokens req) (req_quality_floor req))
    as [planned|e]; [|discriminate].
  destruct (r_provider planned) as [provider0|]; [|discriminate].
  destruct (r_model planned) as [model0|]; [|discriminate].
  destruct (call_ollama _ _ _ _ _ _ _ _) as [[output|e] tr0];
    [|discriminate].
  unfold finish_route. rewrite Hspec.
  destruct (dispatch (kind spec) output spec) as [result|e] eqn:Ed;
    simpl; [|discriminate].
  assert (Hov : get_default "output_override" JNull result = JStr override).
  { unfold get_default. rewrite (Hdisp _ _ Ed). reflexivity. }
  assert (Ht : truthy (JStr override) = true).
  { simpl. unfold truthy_str. apply negb_true_iff, String.eqb_neq. exact Hne. }
  rewrite Hov, Ht. simpl.
  destruct (as_opt_str (get_default "artifact_uri" JNull result));
    simpl; [|discriminate].
  destruct (as_opt_str (get_default "integration_status" (JStr "ok") result));
    simpl; [|discriminate].
  intro H. injection H as <- _. reflexivity.
Qed.

(** X16.  With an empty price table every completed [/route] request is
    served by the built-in local model [tinyllama]. *)
Theorem route_empty_catalog_uses_tinyllama (req : RouteRequest)
    (resp : RouteResponse) (tr : trace) :
  route getenv [] retries backoff primary_model fallback_model post
        prefetch triage_prompt mailtriage_prompt maillead_prompt
        summary_prompt dispatch elapsed_ms random_job_id req
  = (Ok resp, tr) ->
  model resp = "tinyllama"
  /\ exists k fb,
       calls tr = repeat (Post Primary "tinyllama") k ++ fb
       /\ (k <= max_attempts retries)%nat
       /\ (fb = [] \/ fb = [Post Fallback fallback_model]).
Proof.
  unfold route.
  destruct (build_prompt prefetch triage_prompt mailtriage_prompt
              maillead_prompt summary_prompt req) as [prompt|e];
    [|discriminate].
  unfold _pick_model_by_policy.
  destruct (_estimate_tokens prompt (req_expected_output_tokens req))
    as [i o].
  simpl.
  destruct (call_ollama_calls_bounded backoff primary_model fallback_model
              post "tinyllama" prompt retries) as (k & fb & Hcalls & Hk & Hfb).
  destruct (call_ollama backoff primary_model fallback_model post
              "tinyllama" prompt retries []) as [[output|e] tr0];
    [|discriminate].
  intro H. injection H as Hfin <-.
  apply finish_route_Ok in Hfin. destruct Hfin as (_ & Hm & _).
  split; [exact Hm|]. exists k, fb. auto.
Qed.

End EndpointFacts.

(** ** More on the provider adapters *)

Section ProviderMore.

Import TokenUtils Providers.

Lemma mem_In (x : string) (l : list string) : mem x l = true <-> In x l.
Proof.
  unfold mem. rewrite existsb_exists. split.
  - intros (y & Hy & Heq). apply String.eqb_eq in Heq. subst y. exact Hy.
  - intro H. exists x. split; [exact H|apply String.eqb_refl].
Qed.

Lemma first_available_In (available : list string) (m : string) :
  first_available available = Some m -> In m available.
Proof.
  destruct available as [|a l]; [discriminate|].
  intro H. injection H as <-. left. reflexivity.
Qed.

Lemma first_available_None (available : list string) :
  first_available available = None <-> available = [].
Proof.
  destruct available; simpl; split; intro H; auto; discriminate.
Qed.

Section ChooseBest.

Variable get_close_matches : string -> list string -> list string.

(** [difflib.get_close_matches] returns some of the candidates it was
    given. *)
Hypothesis matches_are_candidates :
  forall req available m,
    In m (get_close_matches req available) -> In m available.

Lemma choose_best_model_In (requested : string) (available : list string)
    (chosen : string) :
  _choose_best_model get_close_matches requested available = Some chosen ->
  In chosen available.
Proof.
  unfold _choose_best_model.
  destruct (truthy_str (strip requested)); simpl.
  - destruct (mem (strip requested) available) eqn:Ex.
    + intro H. injection H as <-. apply mem_In. exact Ex.
    + destruct (contains_char "."%char (strip requested)
                && mem (before_char "."%char (strip requested)) available)
        eqn:Epre.
      * intro H. injection H as <-.
        apply andb_true_iff in Epre. apply mem_In. tauto.
      * destruct (get_close_matches (strip requested) available)
          as [|m ms] eqn:Eg.
        -- apply first_available_In.
        -- intro H. injection H as <-.
           apply (matches_are_candidates (strip requested)).
           rewrite Eg. left. reflexivity.
  - apply first_available_In.
Qed.

Lemma choose_best_model_nil (requested : string) :
  _choose_best_model get_close_matches requested [] = None.
Proof.
  unfold _choose_best_model. simpl.
  destruct (truthy_str (strip requested)); simpl; [|reflexivity].
  rewrite andb_false_r.
  destruct (get_close_matches (strip requested) []) as [|m ms] eqn:Eg;
    [reflexivity|].
  exfalso. apply (matches_are_candidates (strip requested) [] m).
  rewrite Eg. left. reflexivity.
Qed.

(** X17.  Model-name reconciliation only ever substitutes an installed
    model: the chosen tag is one of the available ones, an installed
    requested tag is kept as it is, and there is no choice exactly when
    nothing is installed. *)
Theorem choose_best_model_is_installed (requested : string)
    (available : list string) :
  (forall chosen,
     _choose_best_model get_close_matches requested available = Some chosen ->
     In chosen available)
  /\ (_choose_best_model get_close_matches requested available = None
      <-> available = [])
  /\ (strip requested <> "" ->
      In (strip requested) available ->
      _choose_best_model get_close_matches requested available
      = Some (strip requested)).
Proof.
  split; [intros chosen; apply choose_best_model_In|].
  split.
  - split.
    + intro Hnone. destruct available as [|a l]; [reflexivity|].
      exfalso. unfold _choose_best_model in Hnone.
      destruct (truthy_str (strip requested));
        cbn [negb first_available] in Hnone; [|discriminate].
      destruct (mem (strip requested) (a :: l)); [discriminate|].
      destruct (contains_char "."%char (strip requested)
                && mem (before_char "."%char (strip requested)) (a :: l));
        [discriminate|].
      destruct (get_close_matches (strip requested) (a :: l)); discriminate.
    + intros ->. apply choose_best_model_nil.
  - intros Hne Hin. unfold _choose_best_model.
    unfold truthy_str. apply String.eqb_neq in Hne. rewrite Hne. simpl.
    apply mem_In in Hin. rewrite Hin. reflexivity.
Qed.

(** When the local server reports no installed model, the Ollama
    adapter raises [RuntimeError] whatever model is requested, and no
    answer of the generation endpoint can change that. *)
Theorem ollama_complete_nothing_installed
    (post_generate : jobject -> result json)
    (model prompt : string) (max_tokens : Z) (temperature : Q)
    (system_prompt : option string) :
  exists msg,
    ollama_complete get_close_matches (Ok []) post_generate model prompt
      max_tokens temperature system_prompt
    = Raise (Exc "RuntimeError" msg).
Proof.
  unfold ollama_complete. simpl.
  rewrite choose_best_model_nil. eexists. reflexivity.
Qed.

End ChooseBest.

(** X18.  The OpenAI adapter never reports a negative token count,
    whatever the upstream answer contains. *)
Theorem openai_complete_counts_nonnegative
    (api_key : option string) (post_chat : jobject -> result json)
    (model prompt : string) (max_tokens : Z) (temperature : Q)
    (system_prompt : option string) (kwargs : jobject)
    (text : string) (stats : TokenStats) :
  openai_complete api_key post_chat model prompt max_tokens temperature
    system_prompt kwargs = Ok (text, stats) ->
  0 <= tokens_in stats /\ 0 <= tokens_out stats.
Proof.
  unfold openai_complete.
  destruct (negb (truthy_opt api_key)); [discriminate|].
  destruct (post_chat _) as [j|e]; simpl; [|discriminate].
  destruct j as [| | | | | |d]; try discriminate.
  destruct (openai_text d); simpl; [|discriminate].
  destruct (dict_or_empty (get_default "usage" JNull d)) as [usage|e];
    simpl; [|discriminate].
  destruct (usage_count "prompt_tokens" usage); simpl; [|discriminate].
  destruct (usage_count "completion_tokens" usage); simpl; [|discriminate].
  intro H. injection H as _ <-. simpl. lia.
Qed.

Lemma insert_sorted_In (x y : string) (l : list string) :
  In x (insert_sorted y l) <-> x = y \/ In x l.
Proof.
  induction l as [|z l IH]; simpl.
  - intuition congruence.
  - destruct (String.ltb z y); simpl; [rewrite IH|]; intuition congruence.
Qed.

Lemma sorted_In (x : string) (l : list string) :
  In x (sorted l) <-> In x l.
Proof.
  induction l as [|y l IH]; simpl; [tauto|].
  rewrite insert_sorted_In, IH. intuition congruence.
Qed.

Lemma insert_sorted_NoDup (y : string) (l : list string) :
  NoDup l -> ~ In y l -> NoDup (insert_sorted y l).
Proof.
  induction l as [|z l IH]; intros Hnd Hnot; simpl.
  - constructor; [tauto|constructor].
  - destruct (String.ltb z y).
    + inversion Hnd as [|? ? Hz Hl]; subst.
      constructor.
      * rewrite insert_sorted_In. simpl in Hnot. intuition congruence.
      * apply IH; [exact Hl|]. simpl in Hnot. tauto.
    + constructor; assumption.
Qed.

Lemma sorted_NoDup (l : list string) : NoDup l -> NoDup (sorted l).
Proof.
  induction l as [|y l IH]; intro Hnd; simpl; [constructor|].
  inversion Hnd as [|? ? Hy Hl]; subst.
  apply insert_sorted_NoDup; [exact (IH Hl)|].
  rewrite sorted_In. exact Hy.
Qed.

Lemma truthy_str_iff (s : string) : truthy_str s = true <-> s <> "".
Proof.
  unfold truthy_str. rewrite negb_true_iff. apply String.eqb_neq.
Qed.

Lemma names_of_In (x : string) (entries : list TagEntry) :
  In x (names_of entries)
  <-> x <> ""
      /\ exists m,
           In m entries
           /\ x = (if contains_char ":"%char (or_empty (tag_name m))
                   then before_char ":"%char (or_empty (tag_name m))
                   else or_empty (tag_name m)).
Proof.
  induction entries as [|m rest IH]; simpl.
  - split; [tauto|]. intros (_ & m & [] & _).
  - set (name := if contains_char ":"%char (or_empty (tag_name m))
                 then before_char ":"%char (or_empty (tag_name m))
                 else or_empty (tag_name m)).
    destruct (truthy_str name) eqn:Et.
    + apply truthy_str_iff in Et. simpl. rewrite IH. split.
      * intros [<-|(Hne & m' & Hin & Hx)].
        -- split; [exact Et|]. exists m. auto.
        -- split; [exact Hne|]. exists m'. auto.
      * intros (Hne & m' & [<-|Hin] & Hx).
        -- left. symmetry. exact Hx.
        -- right. split; [exact Hne|]. exists m'. auto.
    + rewrite IH. split.
      * intros (Hne & m' & Hin & Hx). split; [exact Hne|]. exists m'. auto.
      * intros (Hne & m' & [<-|Hin] & Hx).
        -- exfalso. fold name in Hx. subst x.
           apply truthy_str_iff in Hne. congruence.
        -- split; [exact Hne|]. exists m'. auto.
Qed.

Lemma add_alternatives_In (x : string) (entries : list TagEntry) :
  forall names,
    In x (add_alternatives entries names)
    <-> In x names
        \/ (x <> ""
            /\ exists m,
                 In m entries /\ x = strip (or_empty (tag_model m))).
Proof.
  induction entries as [|m rest IH]; intro names; simpl.
  - split; [tauto|]. intros [H|(_ & m & [] & _)]. exact H.
  - set (alt := strip (or_empty (tag_model m))).
    destruct (truthy_str alt && negb (mem alt names)) eqn:Ec.
    + apply andb_true_iff in Ec. destruct Ec as [Et _].
      apply truthy_str_iff in Et.
      rewrite IH, in_app_iff. simpl. split.
      * intros [[H|[<-|[]]]|(Hne & m' & Hin & Hx)].
        -- left. exact H.
        -- right. split; [exact Et|]. exists m. auto.
        -- right. split; [exact Hne|]. exists m'. auto.
      * intros [H|(Hne & m' & [<-|Hin] & Hx)].
        -- left. left. exact H.
        -- left. right. left. symmetry. exact Hx.
        -- right. split; [exact Hne|]. exists m'. auto.
    + rewrite IH. split.
      * intros [H|(Hne & m' & Hin & Hx)]; [left; exact H|].
        right. split; [exact Hne|]. exists m'. auto.
      * intros [H|(Hne & m' & [<-|Hin] & Hx)]; [left; exact H| |].
        -- left. fold alt in Hx. subst x.
           apply andb_false_iff in Ec. destruct Ec as [Ec|Ec].
           ++ apply truthy_str_iff in Hne. congruence.
           ++ apply negb_false_iff in Ec. apply mem_In. exact Ec.
        -- right. split; [exact Hne|]. exists m'. auto.
Qed.

(** X19.  The list of installed models has no duplicate and no empty
    tag, and holds exactly the non-empty names cut before their colon
    and the non-empty stripped [model] fields of the entries. *)
Theorem list_installed_models_spec (entries : list TagEntry) :
  NoDup (_list_installed_models entries)
  /\ forall x,
       In x (_list_installed_models entries)
       <-> x <> ""
           /\ exists m,
                In m entries
                /\ (x = (if contains_char ":"%char (or_empty (tag_name m))
                         then before_char ":"%char (or_empty (tag_name m))
                         else or_empty (tag_name m))
                    \/ x = strip (or_empty (tag_model m))).
Proof.
  unfold _list_installed_models, set_of. split.
  - apply sorted_NoDup, NoDup_nodup.
  - intro x. rewrite sorted_In, nodup_In, add_alternatives_In, names_of_In.
    split.
    + intros [(Hne & m & Hin & Hx)|(Hne & m & Hin & Hx)];
        (split; [exact Hne|]); exists m; auto.
    + intros (Hne & m & Hin & [Hx|Hx]).
      * left. split; [exact Hne|]. exists m. auto.
      * right. split; [exact Hne|]. exists m. auto.
Qed.

End ProviderMore.

(** ** More on the job table *)

Section ModelsMore.

Import Models.

Lemma find_app_not_found {A : Type} (p : A -> bool) (l1 l2 : list A) :
  existsb p l1 = false -> find p (l1 ++ l2) = find p l2.
Proof.
  induction l1 as [|a l1 IH]; simpl; [reflexivity|].
  destruct (p a); simpl; [discriminate|exact IH].
Qed.

Lemma insert_job_Ok (j : Job) (db db' : Db) :
  insert_job j db = Ok db' ->
  id_is_free j db = true
  /\ db' = mkDb (jobs db ++ [j]) (job_costs db) (events db).
Proof.
  unfold insert_job, id_is_free.
  destruct (existsb (has_id (job_id j)) (jobs db)); [discriminate|].
  intro H. injection H as <-. auto.
Qed.

Lemma insert_job_keeps_invariant (j : Job) (db db' : Db) :
  NoDup (ids db) ->
  insert_job j db = Ok db' ->
  NoDup (ids db')
  /\ get_job_by_id db' (job_id j) = Some j
  /\ List.length (jobs db') = S (List.length (jobs db))
  /\ job_costs db' = job_costs db
  /\ events db' = events db.
Proof.
  intros Hnd Hins.
  destruct (insert_job_Ok _ _ _ Hins) as [Hfree ->].
  split.
  { unfold ids. simpl. rewrite map_app. simpl.
    apply NoDup_app; [exact Hnd|repeat constructor; auto|].
    intros a Ha [<-|[]]. exact (id_is_free_not_in _ _ Hfree Ha). }
  split.
  { unfold get_job_by_id. simpl.
    rewrite find_app_not_found.
    - simpl. unfold has_id. rewrite String.eqb_refl. reflexivity.
    - unfold id_is_free in Hfree. apply negb_true_iff in Hfree. exact Hfree. }
  split; [simpl; rewrite length_app; simpl; lia|].
  split; reflexivity.
Qed.

(** X20.  The two ways an upsert fails: the lookup raises
    [MultipleResultsFound] when two or more rows carry the key, and the
    insert raises [IntegrityError] when the new job's primary key is
    taken. *)
Theorem upsert_job_failures :
  (forall db key d now,
     truthy_str key = true ->
     (2 <= List.length (rows_with_key key db))%nat ->
     exists msg,
       upsert_job_by_dedupe_key db (Some key) d now
       = Raise (Exc "MultipleResultsFound" msg))
  /\
  (forall db key d now,
     (truthy_opt key = false
      \/ exists k, key = Some k /\ rows_with_key k db = []) ->
     id_is_free d db = false ->
     exists msg,
       upsert_job_by_dedupe_key db key d now
       = Raise (Exc "IntegrityError" msg)).
Proof.
  split.
  - intros db key d now Hk Hlen.
    unfold upsert_job_by_dedupe_key. rewrite Hk. simpl.
    fold (rows_with_key key db).
    destruct (rows_with_key key db) as [|a [|b rest]]; simpl in Hlen;
      try lia.
    eexists. reflexivity.
  - intros db key d now Hkey Htaken.
    assert (Hins : exists msg,
              insert_job d db = Raise (Exc "IntegrityError" msg)).
    { unfold insert_job. unfold id_is_free in Htaken.
      apply negb_false_iff in Htaken. rewrite Htaken.
      eexists. reflexivity. }
    destruct Hins as [msg Hins]. exists msg.
    unfold upsert_job_by_dedupe_key.
    destruct Hkey as [Hkey|(k & -> & Hrows)].
    + destruct key as [k|]; simpl in Hkey.
      * rewrite Hkey. simpl. rewrite Hins. reflexivity.
      * rewrite Hins. reflexivity.
    + destruct (negb (truthy_str k)).
      * rewrite Hins. reflexivity.
      * fold (rows_with_key k db). rewrite Hrows. simpl.
        rewrite Hins. reflexivity.
Qed.

(** X21.  A successful upsert keeps the primary keys of the table
    unique, adds at most one row, leaves the cost and event tables
    alone, and the job it returns is the row a lookup by its id
    finds. *)
Theorem upsert_job_keeps_table_sound (db db' : Db) (key : option string)
    (d j : Job) (now : Z) :
  NoDup (ids db) ->
  upsert_job_by_dedupe_key db key d now = Ok (db', j) ->
  NoDup (ids db')
  /\ get_job_by_id db' (job_id j) = Some j
  /\ (List.length (jobs db) <= List.length (jobs db')
      <= S (List.length (jobs db)))%nat
  /\ job_costs db' = job_costs db
  /\ events db' = events db.
Proof.
  intros Hnd Hup.
  assert (Hinsert : forall r,
            (db0 <- insert_job d db ;; Ok (db0, d)) = Ok r ->
            NoDup (ids (fst r))
            /\ get_job_by_id (fst r) (job_id (snd r)) = Some (snd r)
            /\ (List.length (jobs db) <= List.length (jobs (fst r))
                <= S (List.length (jobs db)))%nat
            /\ job_costs (fst r) = job_costs db
            /\ events (fst r) = events db).
  { intros r Hr.
    destruct (insert_job d db) as [db0|e] eqn:Hins; simpl in Hr;
      [|discriminate].
    injection Hr as <-. simpl.
    destruct (insert_job_keeps_invariant _ _ _ Hnd Hins)
      as (H1 & H2 & H3 & H4 & H5).
    repeat split; auto; lia. }
  unfold upsert_job_by_dedupe_key in Hup.
  destruct key as [k|]; [|exact (Hinsert _ Hup)].
  destruct (negb (truthy_str k)); [exact (Hinsert _ Hup)|].
  fold (rows_with_key k db) in Hup.
  destruct (rows_with_key k db) as [|a [|b rest]] eqn:Hrows; simpl in Hup.
  - exact (Hinsert _ Hup).
  - injection Hup as <- <-.
    assert (Hin : In a (jobs db)).
    { assert (H : In a (rows_with_key k db)) by (rewrite Hrows; left; auto).
      apply filter_In in H. tauto. }
    split; [rewrite update_job_ids; exact Hnd|].
    split.
    { destruct (get_job_by_id db (job_id a)) as [old|] eqn:Hold.
      - apply (get_job_by_id_update db _ old); [exact Hold|reflexivity].
      - exfalso. unfold get_job_by_id in Hold.
        pose proof (find_none _ _ Hold a Hin) as Hno.
        unfold has_id in Hno. rewrite String.eqb_refl in Hno. discriminate. }
    split; [rewrite update_job_length; lia|].
    split; reflexivity.
  - discriminate.
Qed.

End ModelsMore.

(** ** More on the queue worker *)

Section QueueWorkerMore.

Import TokenUtils RoutingPolicy Models QueueWorker.

Variable tiktoken_count : string -> option Z.
Variable default_prompt : string.
Variable redaction_enabled : bool.
Variable timeout_s : Z.
Variable price_rows : list ModelRow.
Variable mask_pii : string -> string.
Variable complete :
  string -> string -> string -> Z -> Q -> string -> Z ->
  result (string * TokenStats).
Variable latency_ms : Z.

(** The database and the delivery that [_handle_message] leaves, for an
    adapter whose answer depends on the call only. *)
Let handle (db : Db) (payload : Payload) : Db * Delivery :=
  fst (_handle_message tiktoken_count default_prompt redaction_enabled
         timeout_s price_rows mask_pii (fun _ => complete) latency_ms
         db payload).

(** The database a delivery leaves behind is the one it found, that
    one with the job marked [running], or the latter with the job marked
    [succeeded] and one cost row and one event appended. *)
Lemma handle_message_outcomes (db : Db) (payload : Payload) :
  (handle db payload = (db, Acked)
   /\ get_job_by_id db (p_job_id payload) = None)
  \/ (exists job,
        get_job_by_id db (p_job_id payload) = Some job
        /\ ((exists e,
               handle db payload
               = (update_job (set_status running job) db, Requeued e))
            \/ (exists cost_row event_row,
                  handle db payload
                  = (mkDb (jobs (update_job (set_status succeeded job)
                                   (update_job (set_status running job) db)))
                          (job_costs db ++ [cost_row])
                          (events db ++ [event_row]),
                     Acked)
                  /\ jc_job_id cost_row = p_job_id payload
                  /\ ev_job_id event_row = p_job_id payload))).
Proof.
  unfold handle.
  destruct (handle_message_cases tiktoken_count default_prompt
              redaction_enabled timeout_s price_rows mask_pii
              (fun _ => complete) latency_ms db payload)
    as [[Hnone ->]|(job & Hjob & [[e ->]
                                 |(d & _ & _ & [(e & _ & ->)
                                               |(t & st & _ & ->)])])].
  - left. auto.
  - right. exists job. split; [exact Hjob|]. left. eexists. reflexivity.
  - right. exists job. split; [exact Hjob|]. left. eexists. reflexivity.
  - right. exists job. split; [exact Hjob|]. right.
    eexists _, _. split; [reflexivity|]. split; reflexivity.
Qed.

(** X22.  A successful delivery: when routing and the provider call
    succeed for an existing job, the message is acknowledged, the job is
    [succeeded], and exactly one cost row (the decision's provider,
    model and estimated cost, the adapter's token counts) and one event
    are appended. *)
Theorem handle_message_success (db : Db) (payload : Payload) (job : Job)
    (decision : RouteDecision) (text : string) (stats : TokenStats) :
  get_job_by_id db (p_job_id payload) = Some job ->
  route_decision tiktoken_count default_prompt redaction_enabled price_rows
    mask_pii (p_body payload) = Ok decision ->
  mem (rd_provider decision) registry_keys = true ->
  complete (rd_provider decision) (rd_model decision)
    (prepare_prompt redaction_enabled mask_pii (p_body payload))
    (or_default (b_expected_output_tokens (p_body payload)) 512)
    (temperature decision) (system_prompt decision) timeout_s
  = Ok (text, stats) ->
  exists db',
    handle db payload = (db', Acked)
    /\ get_job_by_id db' (p_job_id payload) = Some (set_status succeeded job)
    /\ job_costs db'
       = job_costs db
           ++ [mkJobCost (p_job_id payload) (rd_provider decision)
                 (rd_model decision) (tokens_in stats) (tokens_out stats)
                 (estimated_cost_usd decision) latency_ms]
    /\ events db'
       = events db
           ++ [mkEvent (p_job_id payload) "info"
                 ("Routed to " ++ rd_provider decision ++ ":"
                    ++ rd_model decision)%string].
Proof.
  intros Hjob Hroute Hreg Hcall.
  pose proof (get_job_by_id_id _ _ _ Hjob) as Hid.
  unfold handle, _handle_message.
  rewrite Hjob, Hroute. unfold registry_get. rewrite Hreg, Hcall.
  rewrite (get_job_by_id_update db _ job (set_status running job) Hjob Hid).
  cbn [fst].
  eexists. split; [reflexivity|].
  split.
  { change (get_job_by_id
              (update_job (set_status succeeded job)
                 (update_job (set_status running job) db))
              (p_job_id payload)
            = Some (set_status succeeded job)).
    apply (get_job_by_id_update _ _ (set_status running job)).
    - apply (get_job_by_id_update db _ job); assumption.
    - exact Hid. }
  simpl. rewrite Hid. split; reflexivity.
Qed.

(** X23.  A delivery never adds or removes a job, never touches a job
    other than the one of the message, and never marks a job [failed]:
    a job that is [failed] afterwards was [failed] before. *)
Theorem handle_message_frame (db : Db) (payload : Payload) :
  ids (fst (handle db payload)) = ids db
  /\ (forall id, id <> p_job_id payload ->
        get_job_by_id (fst (handle db payload)) id = get_job_by_id db id)
  /\ (forall j, In j (jobs (fst (handle db payload))) ->
        status j = failed ->
        In j (jobs db)).
Proof.
  destruct (handle_message_outcomes db payload)
    as [[-> _]|(job & Hjob & [[e ->]|(c & ev & -> & _)])]; simpl fst.
  - auto.
  - pose proof (get_job_by_id_id _ _ _ Hjob) as Hid.
    split; [apply update_job_ids|].
    split.
    + intros id Hne. apply get_job_by_id_update_other. simpl. congruence.
    + intros j Hin Hst. apply update_job_In in Hin.
      destruct Hin as [->|Hin]; [discriminate|exact Hin].
  - pose proof (get_job_by_id_id _ _ _ Hjob) as Hid.
    split.
    { change (ids (update_job (set_status succeeded job)
                     (update_job (set_status running job) db)) = ids db).
      rewrite !update_job_ids. reflexivity. }
    split.
    + intros id Hne.
      change (get_job_by_id
                (update_job (set_status succeeded job)
                   (update_job (set_status running job) db)) id
              = get_job_by_id db id).
      rewrite !get_job_by_id_update_other; simpl; congruence.
    + intros j Hin Hst.
      change (In j (jobs (update_job (set_status succeeded job)
                            (update_job (set_status running job) db))))
        in Hin.
      apply update_job_In in Hin.
      destruct Hin as [->|Hin]; [discriminate|].
      apply update_job_In in Hin.
      destruct Hin as [->|Hin]; [discriminate|exact Hin].
Qed.

(** X24.  The cost ledger is append-only and written on acknowledgement
    only: a delivery that is put back on the queue leaves the cost and
    event tables as they were, and an acknowledged one appends at most
    one cost row and one event, both for the job of the message. *)
Theorem handle_message_ledger (db : Db) (payload : Payload) :
  (forall e, snd (handle db payload) = Requeued e ->
     job_costs (fst (handle db payload)) = job_costs db
     /\ events (fst (handle db payload)) = events db)
  /\ (snd (handle db payload) = Acked ->
      (job_costs (fst (handle db payload)) = job_costs db
       /\ events (fst (handle db payload)) = events db)
      \/ (exists cost_row event_row,
            job_costs (fst (handle db payload)) = job_costs db ++ [cost_row]
            /\ events (fst (handle db payload)) = events db ++ [event_row]
            /\ jc_job_id cost_row = p_job_id payload
            /\ ev_job_id event_row = p_job_id payload)).
Proof.
  destruct (handle_message_outcomes db payload)
    as [[-> _]|(job & Hjob & [[e ->]|(c & ev & -> & Hc & Hev)])];
    simpl fst; simpl snd.
  - split; [discriminate|]. intros _. left. auto.
  - split; [intros e' _; auto|discriminate].
  - split; [discriminate|]. intros _. right. exists c, ev. auto.
Qed.

End QueueWorkerMore.

(** ** Connection retries of the queue *)

Section BackoffFacts.

Import QueueWorker.

Lemma py_min_r (a b : Q) : (b < a)%Q -> py_min a b = b.
Proof.
  intro H. unfold py_min. apply Qlt_bool_iff in H. rewrite H. reflexivity.
Qed.

Lemma py_min_l (a b : Q) : (a <= b)%Q -> py_min a b = a.
Proof.
  intro H. unfold py_min. apply Qlt_bool_false_iff in H. rewrite H.
  reflexivity.
Qed.

Lemma py_min_le_l (a b : Q) : (py_min a b <= a)%Q.
Proof.
  unfold py_min. destruct (Qlt_bool b a) eqn:E.
  - apply Qlt_bool_iff in E. apply Qlt_le_weak. exact E.
  - apply Qle_refl.
Qed.

Lemma py_min_mono (a b b' : Q) :
  (b <= b')%Q -> (py_min a b <= py_min a b')%Q.
Proof.
  intro H. unfold py_min.
  destruct (Qlt_bool b a) eqn:E; destruct (Qlt_bool b' a) eqn:E'.
  - exact H.
  - apply Qlt_bool_iff in E. apply Qlt_le_weak. exact E.
  - apply Qlt_bool_false_iff in E. apply Qlt_bool_iff in E'.
    exfalso. apply (Qlt_irrefl a).
    eapply Qle_lt_trans; [exact E|]. eapply Qle_lt_trans; eauto.
  - apply Qle_refl.
Qed.

Lemma power_of_two_step (n : Z) : (2 ^ n == 2 * 2 ^ (n - 1))%Q.
Proof.
  replace n with ((n - 1) + 1) at 1 by lia.
  rewrite Qpower_plus by discriminate.
  change (2 ^ 1)%Q with 2%Q. ring.
Qed.

(** The power of two of a retry converts to a float up to attempt 1024
    and no further. *)
Lemma float_of_int_power_Ok (attempt : Z) :
  attempt <= 1024 ->
  float_of_int (2 ^ (attempt - 1)) = Ok (nearest_float (2 ^ (attempt - 1))).
Proof.
  intro H. unfold float_of_int.
  assert (Hlt : Z.abs (2 ^ (attempt - 1)) < 2 ^ 1024 - 2 ^ 970).
  { destruct (Z.lt_ge_cases (attempt - 1) 0) as [Hneg|Hpos].
    - rewrite (Z.pow_neg_r _ _ Hneg). reflexivity.
    - rewrite Z.abs_eq by (apply Z.pow_nonneg; lia).
      apply Z.le_lt_trans with (2 ^ 1023); [|reflexivity].
      apply Z.pow_le_mono_r; lia. }
  apply Z.ltb_lt in Hlt. rewrite Hlt. reflexivity.
Qed.

Lemma float_of_int_power_overflow (attempt : Z) :
  1025 <= attempt ->
  float_of_int (2 ^ (attempt - 1)) = Raise overflow_error.
Proof.
  intro H. unfold float_of_int.
  assert (Hge : 2 ^ 1024 - 2 ^ 970 <= Z.abs (2 ^ (attempt - 1))).
  { rewrite Z.abs_eq by (apply Z.pow_nonneg; lia).
    apply Z.le_trans with (2 ^ 1024); [discriminate|].
    apply Z.pow_le_mono_r; lia. }
  apply Z.ltb_ge in Hge. rewrite Hge. reflexivity.
Qed.

Lemma backoff_delay_Ok (base cap : Q) (attempt : Z) :
  attempt <= 1024 ->
  backoff_delay base cap attempt = Ok (capped_delay base cap attempt).
Proof.
  intro H. unfold backoff_delay.
  rewrite (float_of_int_power_Ok _ H). reflexivity.
Qed.

Lemma backoff_delay_overflow (base cap : Q) (attempt : Z) :
  1025 <= attempt ->
  backoff_delay base cap attempt = Raise overflow_error.
Proof.
  intro H. unfold backoff_delay.
  rewrite (float_of_int_power_overflow _ H). reflexivity.
Qed.

(** X25.  Up to attempt 1024 [_sleep_backoff] computes a delay, which
    never exceeds the cap; for a non-negative base the delay never
    decreases from one attempt to the next, and it doubles as long as
    the doubled value fits under the cap.  From attempt 1025 on the
    delay cannot be computed: the conversion of [2 ** (attempt - 1)] to
    a float raises [OverflowError]. *)
Theorem backoff_delay_capped_doubling (base cap : Q) (attempt : Z) :
  (attempt <= 1024 ->
   exists d,
     backoff_delay base cap attempt = Ok d
     /\ (d <= cap)%Q
     /\ (attempt < 1024 ->
         exists d',
           backoff_delay base cap (attempt + 1) = Ok d'
           /\ ((0 <= base)%Q -> (d <= d')%Q)
           /\ ((0 <= base)%Q -> (base * 2 ^ attempt <= cap)%Q ->
               (d' == 2 * d)%Q)))
  /\ (1025 <= attempt ->
      backoff_delay base cap attempt
      = Raise (Exc "OverflowError" "int too large to convert to float")).
Proof.
  split; [|apply backoff_delay_overflow].
  intro Hle. exists (capped_delay base cap attempt).
  split; [apply backoff_delay_Ok; exact Hle|].
  unfold capped_delay.
  split; [apply py_min_le_l|].
  intro Hlt. exists (capped_delay base cap (attempt + 1)).
  split; [apply backoff_delay_Ok; lia|].
  unfold capped_delay.
  replace (attempt + 1 - 1) with attempt by lia.
  pose proof (power_of_two_step attempt) as Hstep.
  assert (Hpow : (0 <= 2 ^ (attempt - 1))%Q)
    by (apply Qpower_0_le; discriminate).
  split.
  - intro Hbase. apply py_min_mono.
    rewrite Hstep.
    pose proof (Qmult_le_0_compat _ _ Hbase Hpow). lra.
  - intros Hbase Hfit.
    pose proof (Qmult_le_0_compat _ _ Hbase Hpow) as Hnn.
    assert (Hdbl : (base * 2 ^ attempt == 2 * (base * 2 ^ (attempt - 1)))%Q).
    { rewrite Hstep. ring. }
    assert (Hprev : (base * 2 ^ (attempt - 1) <= cap)%Q).
    { rewrite Hdbl in Hfit. lra. }
    unfold py_min.
    destruct (Qlt_bool (base * 2 ^ attempt) cap) eqn:E1;
      destruct (Qlt_bool (base * 2 ^ (attempt - 1)) cap) eqn:E2.
    + exact Hdbl.
    + apply Qlt_bool_iff in E1. apply Qlt_bool_false_iff in E2.
      rewrite Hdbl in E1. lra.
    + apply Qlt_bool_false_iff in E1. rewrite Hdbl in E1, Hfit. lra.
    + apply Qlt_bool_false_iff in E1. apply Qlt_bool_false_iff in E2.
      rewrite Hdbl in E1, Hfit. lra.
Qed.

End BackoffFacts.

Section ConnectFacts.

Import QueueWorker.

Local Arguments Z.of_nat : simpl never.

Variable connect_robust : Z -> result string.

Lemma connects_app (t1 t2 : list conn_event) :
  connects (t1 ++ t2) = connects t1 ++ connects t2.
Proof.
  induction t1 as [|[a|d] t1 IH]; simpl; [reflexivity| |exact IH].
  rewrite IH. reflexivity.
Qed.

Lemma waits_app (t1 t2 : list conn_event) :
  waits (t1 ++ t2) = waits t1 ++ waits t2.
Proof.
  induction t1 as [|[a|d] t1 IH]; simpl; [reflexivity|exact IH|].
  rewrite IH. reflexivity.
Qed.

(** The publisher's loop against a broker that refuses [k] more
    attempts, the last of them attempt [max 1 max_attempts]. *)
Lemma client_connect_loop_fails (max_attempts : Z) (k : nat) :
  forall (a : nat) (tr : list conn_event) (fuel : nat),
    (forall attempt, exists e, connect_robust attempt = Raise e) ->
    max_attempts <= 1025 ->
    (1 <= k <= fuel)%nat ->
    Z.of_nat a + Z.of_nat k = Z.max 1 max_attempts ->
    exists e tr',
      QueueClient.connect_loop connect_robust fuel max_attempts
        (Z.of_nat a) tr = Some (Raise e, tr')
      /\ connect_robust (Z.max 1 max_attempts) = Raise e
      /\ connects tr' = connects tr ++ map Z.of_nat (seq (S a) k)
      /\ waits tr'
         = waits tr
             ++ map (capped_delay 1 10) (map Z.of_nat (seq (S a) (k - 1))).
Proof.
  induction k as [|k IH]; intros a tr fuel Hdown Hmax Hk Hsum; [lia|].
  destruct fuel as [|fuel]; [lia|].
  simpl QueueClient.connect_loop.
  destruct (Hdown (Z.of_nat a + 1)) as [e He]. rewrite He.
  destruct (max_attempts <=? Z.of_nat a + 1) eqn:Elim.
  - apply Z.leb_le in Elim.
    assert (k = 0%nat) by lia. subst k.
    exists e, (tr ++ [Connect (Z.of_nat a + 1)]).
    split; [reflexivity|].
    split; [replace (Z.max 1 max_attempts) with (Z.of_nat a + 1) by lia;
            exact He|].
    rewrite connects_app, waits_app. simpl.
    rewrite app_nil_r, Nat2Z.inj_succ. unfold Z.succ. auto.
  - apply Z.leb_gt in Elim.
    destruct k as [|k]; [lia|].
    replace (Z.of_nat a + 1) with (Z.of_nat (S a)) by lia.
    rewrite backoff_delay_Ok by lia.
    destruct (IH (S a)
                ((tr ++ [Connect (Z.of_nat (S a))])
                   ++ [Wait (capped_delay 1 10 (Z.of_nat (S a)))])
                fuel Hdown Hmax ltac:(lia) ltac:(lia))
      as (e' & tr' & Hrun & Hlast & Hc & Hw).
    exists e', tr'. split; [exact Hrun|]. split; [exact Hlast|].
    rewrite Hc, Hw, !connects_app, !waits_app. simpl.
    rewrite !app_nil_r, <- !app_assoc. simpl.
    rewrite Nat.sub_0_r. auto.
Qed.

(** X26.  Publishing against a broker that refuses every connection,
    with a limit of at most 1025 attempts (the default is 10): the
    publisher makes exactly [max 1 max_attempts] attempts, numbered
    from 1, waits after each but the last with the capped doubling
    delay (cap 10 s), and raises the error of the last attempt. *)
Theorem client_connect_gives_up (max_attempts : Z) (fuel : nat) :
  (forall attempt, exists e, connect_robust attempt = Raise e) ->
  max_attempts <= 1025 ->
  (Z.to_nat (Z.max 1 max_attempts) <= fuel)%nat ->
  exists e tr,
    QueueClient._connect_with_retry connect_robust fuel max_attempts
    = Some (Raise e, tr)
    /\ connect_robust (Z.max 1 max_attempts) = Raise e
    /\ connects tr
       = map Z.of_nat (seq 1 (Z.to_nat (Z.max 1 max_attempts)))
    /\ waits tr
       = map (capped_delay 1 10)
             (map Z.of_nat (seq 1 (Z.to_nat (Z.max 1 max_attempts) - 1))).
Proof.
  intros Hdown Hmax Hfuel.
  unfold QueueClient._connect_with_retry.
  change 0 with (Z.of_nat 0).
  apply (client_connect_loop_fails max_attempts
           (Z.to_nat (Z.max 1 max_attempts)) 0 [] fuel Hdown Hmax); lia.
Qed.

(** The worker's loop when the broker accepts attempt [a + k] after
    refusing the ones before. *)
Lemma worker_connect_loop_succeeds (max_attempts : Z) (conn : string)
    (k : nat) :
  forall (a : nat) (tr : list conn_event) (fuel : nat),
    (1 <= k <= fuel)%nat ->
    (a + k <= 1025)%nat ->
    (forall attempt, Z.of_nat a < attempt < Z.of_nat (a + k) ->
       exists e, connect_robust attempt = Raise e) ->
    connect_robust (Z.of_nat (a + k)) = Ok conn ->
    max_attempts = 0 \/ Z.of_nat (a + k) <= max_attempts ->
    exists tr',
      connect_loop connect_robust fuel max_attempts (Z.of_nat a) tr
      = Some (Ok conn, tr')
      /\ connects tr' = connects tr ++ map Z.of_nat (seq (S a) k)
      /\ waits tr'
         = waits tr
             ++ map (capped_delay 1 15) (map Z.of_nat (seq (S a) (k - 1))).
Proof.
  induction k as [|k IH]; intros a tr fuel Hk Hbound Hfail Hok Hlim; [lia|].
  destruct fuel as [|fuel]; [lia|].
  simpl connect_loop.
  replace (Z.of_nat a + 1) with (Z.of_nat (S a)) by lia.
  destruct k as [|k].
  - replace (a + 1)%nat with (S a) in Hok by lia. rewrite Hok.
    exists (tr ++ [Connect (Z.of_nat (S a))]).
    split; [reflexivity|].
    rewrite connects_app, waits_app. simpl. rewrite app_nil_r. auto.
  - destruct (Hfail (Z.of_nat (S a)) ltac:(lia)) as [e He]. rewrite He.
    assert (Hcont : negb (max_attempts =? 0)
                    && (max_attempts <=? Z.of_nat (S a)) = false).
    { destruct Hlim as [->|Hlim]; [reflexivity|].
      apply andb_false_iff. right. apply Z.leb_gt. lia. }
    rewrite Hcont.
    rewrite backoff_delay_Ok by lia.
    destruct (IH (S a)
                ((tr ++ [Connect (Z.of_nat (S a))])
                   ++ [Wait (capped_delay 1 15 (Z.of_nat (S a)))])
                fuel ltac:(lia) ltac:(lia))
      as (tr' & Hrun & Hc & Hw).
    + intros attempt Hrange. apply Hfail. lia.
    + replace (S a + S k)%nat with (a + S (S k))%nat by lia. exact Hok.
    + replace (S a + S k)%nat with (a + S (S k))%nat by lia. exact Hlim.
    + exists tr'. split; [exact Hrun|].
      rewrite Hc, Hw, !connects_app, !waits_app. simpl.
      rewrite !app_nil_r, <- !app_assoc. simpl.
      rewrite Nat.sub_0_r. auto.
Qed.

(** X27.  The worker connects as soon as the broker accepts: if
    attempts 1 to [k - 1] are refused and attempt [k] succeeds, for a
    [k] of at most 1025, within the limit or with no limit
    ([max_attempts = 0]), the worker returns that connection after
    exactly [k] attempts and [k - 1] waits of the capped doubling delay
    (cap 15 s). *)
Theorem worker_connects_when_broker_is_up (max_attempts : Z)
    (conn : string) (k fuel : nat) :
  (1 <= k <= fuel)%nat ->
  (k <= 1025)%nat ->
  (forall attempt, 1 <= attempt < Z.of_nat k ->
     exists e, connect_robust attempt = Raise e) ->
  connect_robust (Z.of_nat k) = Ok conn ->
  max_attempts = 0 \/ Z.of_nat k <= max_attempts ->
  exists tr,
    _connect_rabbitmq_with_retry connect_robust fuel max_attempts
    = Some (Ok conn, tr)
    /\ connects tr = map Z.of_nat (seq 1 k)
    /\ waits tr = map (capped_delay 1 15) (map Z.of_nat (seq 1 (k - 1))).
Proof.
  intros Hk Hbound Hfail Hok Hlim.
  unfold _connect_rabbitmq_with_retry.
  change 0 with (Z.of_nat 0) at 1.
  apply (worker_connect_loop_succeeds max_attempts conn k 0 [] fuel Hk).
  - simpl. exact Hbound.
  - intros attempt Hrange. apply Hfail. simpl in Hrange. lia.
  - exact Hok.
  - exact Hlim.
Qed.




End ConnectFacts.

(** ** The rate limiter *)

Section RateLimiterFacts.

Import Utils.

(** X29.  Within one window the limiter admits a key until its count
    reaches [reqs] and refuses it from then on: of [n] calls, the first
    [reqs - count] (if any are left) are allowed and all later ones
    refused. *)
Theorem rate_limiter_window_quota (key : string) (ws : Z) (times : list Q) :
  forall rl : RateLimiter,
    enabled rl = true ->
    (forall t, In t times -> window_start t = ws) ->
    let room := Z.to_nat (reqs rl - bucket rl key ws) in
    fst (allow_all rl key times)
    = repeat true (Nat.min (List.length times) room)
        ++ repeat false (List.length times - room).
Proof.
  induction times as [|t rest IH]; intros rl Hen Hwin room; [reflexivity|].
  assert (Ht : window_start t = ws) by (apply Hwin; left; reflexivity).
  assert (Hrest : forall t', In t' rest -> window_start t' = ws)
    by (intros t' Hin; apply Hwin; right; exact Hin).
  simpl allow_all. unfold allow. rewrite Hen, Ht. simpl negb. cbv iota.
  destruct (reqs rl <=? bucket rl key ws) eqn:Efull.
  - apply Z.leb_le in Efull.
    specialize (IH rl Hen Hrest). cbv zeta in IH. fold room in IH.
    destruct (allow_all rl key rest) as [oks rl2].
    simpl fst in IH. simpl fst.
    assert (Hroom : room = 0%nat) by (unfold room; lia).
    clearbody room. subst room.
    rewrite Nat.min_0_r, Nat.sub_0_r in IH. simpl in IH.
    rewrite Nat.min_0_r, Nat.sub_0_r. simpl. rewrite IH. reflexivity.
  - apply Z.leb_gt in Efull.
    set (rl1 := mkRateLimiter true (reqs rl)
                  (bucket_set (bucket rl) key ws (bucket rl key ws + 1))).
    specialize (IH rl1 eq_refl Hrest). cbv zeta in IH.
    assert (Hb : bucket rl1 key ws = bucket rl key ws + 1).
    { unfold rl1, bucket_set. simpl.
      rewrite String.eqb_refl, Z.eqb_refl. reflexivity. }
    rewrite Hb in IH. change (reqs rl1) with (reqs rl) in IH.
    destruct (allow_all rl1 key rest) as [oks rl2].
    simpl fst in IH. simpl fst.
    assert (Hroom : room
                    = S (Z.to_nat (reqs rl - (bucket rl key ws + 1))))
      by (unfold room; lia).
    clearbody room. subst room.
    simpl. rewrite IH. reflexivity.
Qed.

(** X30.  A refusal tells how long the window still lasts: the time to
    wait is positive and at most the 60 seconds of a window, and the
    limiter is left unchanged. *)
Theorem rate_limiter_refusal_ttl (rl : RateLimiter) (key : string) (now : Q) :
  enabled rl = true ->
  reqs rl <= bucket rl key (window_start now) ->
  exists ttl,
    allow rl key now = ((false, ttl), rl)
    /\ (0 < ttl <= 60)%Q.
Proof.
  intros Hen Hfull. unfold allow. rewrite Hen. simpl negb. cbv iota.
  apply Z.leb_le in Hfull. rewrite Hfull.
  eexists. split; [reflexivity|].
  unfold window_start, window.
  rewrite inject_Z_mult.
  change (inject_Z 60) with 60%Q.
  pose proof (Qfloor_le (now / 60)) as Hlo.
  pose proof (Qlt_floor (now / 60)) as Hhi.
  rewrite inject_Z_plus in Hhi. change (inject_Z 1) with 1%Q in Hhi.
  set (f := inject_Z (Qfloor (now / 60))) in *.
  assert (Hnow : (now == now / 60 * 60)%Q) by (field).
  assert (H1 : (f * 60 <= now / 60 * 60)%Q).
  { apply Qmult_le_compat_r; [exact Hlo|discriminate]. }
  assert (H2 : (now / 60 * 60 < (f + 1) * 60)%Q).
  { apply Qmult_lt_compat_r; [reflexivity|exact Hhi]. }
  rewrite <- Hnow in H1, H2.
  split; lra.
Qed.

End RateLimiterFacts.

(** ** Scenarios for the further properties *)

Section MoreScenarios.

Import TokenUtils RoutingPolicy.

Lemma choose_model_decision_within_limits_witness :
  exists row,
    In row two_row_catalog
    /\ rd_provider hosted_decision = provider row
    /\ rd_model hosted_decision = model row
    /\ 4 <= baseline_quality row
    /\ tokens hosted_decision
       = estimate_tokens no_tiktoken (provider row) (model row)
           "hello world!" 50
    /\ tokens_in (tokens hosted_decision) <= max_input_tokens row
    /\ tokens_out (tokens hosted_decision) <= max_output_tokens row
    /\ estimated_cost row (tokens hosted_decision)
       = Ok (estimated_cost_usd hosted_decision).
Proof.
  apply (choose_model_decision_within_limits no_tiktoken "Be brief."
           two_row_catalog "hello world!" 50 4 no_hints fzero
           hosted_decision).
  reflexivity.
Defined.

Lemma choose_model_obeys_hints_witness :
  (forall h, hint_provider (mkHints (Some "hosted") None) = Some h ->
             h <> "" -> rd_provider hosted_decision = h)
  /\ (forall h, hint_model (mkHints (Some "hosted") None) = Some h ->
                h <> "" -> rd_model hosted_decision = h).
Proof.
  apply (choose_model_obeys_hints no_tiktoken "Be brief." two_row_catalog
           "hello world!" 50 2 (mkHints (Some "hosted") None) fzero
           hosted_decision).
  reflexivity.
Defined.

(** Under a ceiling of one cent the hosted row is selected at floor 4;
    without a cap it still is, at the same cost. *)
Lemma choose_model_relaxed_budget_witness :
  exists d',
    choose_model no_tiktoken "Be brief." two_row_catalog "hello world!" 50 4
      fzero no_hints = Ok d'
    /\ fle (estimated_cost_usd d') (estimated_cost_usd hosted_decision) = true.
Proof.
  apply (choose_model_relaxed_budget no_tiktoken "Be brief." two_row_catalog
           "hello world!" 50 4 no_hints (decimal 1 2) fzero hosted_decision).
  - reflexivity.
  - left. reflexivity.
  - intros row c [<-|[<-|[]]] H; vm_compute in H.
    + discriminate.
    + injection H as <-. reflexivity.
  - reflexivity.
Defined.

End MoreScenarios.

Section PlannerScenarios.

Import ApiMain.

Lemma planner_estimates_positive_witness :
  1 <= fst (_estimate_tokens "" (-3))
  /\ 1 <= snd (_estimate_tokens "" (-3))
  /\ (0 <= _estimate_cost
             (mkRow (Some "openai") (Some "gpt-4o-mini") (Some 4%Z)
                (Some (15 # 100)) (Some (6 # 10)))
             (fst (_estimate_tokens "" (-3)))
             (snd (_estimate_tokens "" (-3))))%Q.
Proof.
  apply (planner_estimates_positive "" (-3)
           (mkRow (Some "openai") (Some "gpt-4o-mini") (Some 4)
              (Some (15 # 100)) (Some (6 # 10)))); discriminate.
Defined.


Example pick_model_prefers_free_local :
  _pick_model_by_policy env_with_openai_key mixed_catalog "hello world!" 128 3
  = Ok (mkRow (Some "ollama") (Some "phi3:mini") (Some 3) None None).
Proof. reflexivity. Qed.

Lemma pick_model_fallback_local_witness :
  _pick_model_by_policy empty_env mixed_catalog "hello world!" 128 5
  = Ok (hd tiny_local_default
          (filter (fun m => is_ollama (r_provider m)) mixed_catalog)).
Proof.
  apply (pick_model_fallback_local empty_env mixed_catalog "hello world!"
           128 5).
  intros r [<-|[<-|[<-|[]]]]; reflexivity.
Defined.

Lemma call_ollama_stops_at_first_answer_witness :
  snd (call_ollama 5 "phi3:mini" "tinyllama" flaky_server "phi3:mini" "ok"
         2 [])
  = failed_attempts 5 "phi3:mini" 0 1 ++ [Post Primary "phi3:mini"]
  /\ fst (call_ollama 5 "phi3:mini" "tinyllama" flaky_server "phi3:mini"
            "ok" 2 [])
     = Ok (response_of [("response", JStr "done")]).
Proof.
  apply (call_ollama_stops_at_first_answer 5 "phi3:mini" "tinyllama"
           flaky_server "phi3:mini" "ok" 2 1
           (Responded [("response", JStr "done")])).
  - discriminate.
  - discriminate.
  - discriminate.
  - intros tr H. exists "timed out". unfold flaky_server.
    apply Nat.ltb_lt in H. rewrite H. reflexivity.
  - intros tr H. unfold flaky_server. rewrite H. reflexivity.
  - discriminate.
Defined.

Lemma call_ollama_exhausted_is_502_witness :
  exists last_err,
    server_down (failed_attempts 5 "tinyllama" 0 (Z.to_nat 2)) "tinyllama"
      "ok" = HTTPError last_err
    /\ call_ollama 5 "phi3:mini" "tinyllama" server_down "tinyllama" "ok" 2 []
       = (Raise (HTTPException 502 ("Ollama error: " ++ last_err)%string),
          failed_attempts 5 "tinyllama" 0 (Z.to_nat 2)
            ++ [Post Primary "tinyllama"]).
Proof.
  apply (call_ollama_exhausted_is_502 5 "phi3:mini" "tinyllama" server_down
           "tinyllama" "ok" 2).
  - discriminate.
  - discriminate.
  - discriminate.
  - intros tr _. exists "timed out". reflexivity.
  - reflexivity.
Defined.

Lemma call_ollama_fallback_rescues_witness :
  call_ollama 5 "phi3:mini" "tinyllama" primary_down "phi3:mini" "ok" 2 []
  = (Ok (response_of [("response", JStr "from fallback")]),
     failed_attempts 5 "phi3:mini" 0 (Z.to_nat 2)
       ++ [Post Primary "phi3:mini"] ++ [Post Fallback "tinyllama"]).
Proof.
  apply (call_ollama_fallback_rescues 5 "phi3:mini" "tinyllama" primary_down
           "phi3:mini" "ok" 2 [("response", JStr "from fallback")]).
  - discriminate.
  - discriminate.
  - discriminate.
  - reflexivity.
  - discriminate.
  - intros tr _. exists "timed out". reflexivity.
  - intros tr _. reflexivity.
Defined.

Lemma call_ollama_total_wait_witness :
  (2 * total_wait
         (snd (call_ollama 5 "phi3:mini" "tinyllama" server_down "phi3:mini"
                 "ok" 3 []))
   == 5 * inject_Z (3 * (3 + 1)))%Q.
Proof.
  apply (call_ollama_total_wait 5 "phi3:mini" "tinyllama" server_down
           "phi3:mini" "ok" 3).
  - discriminate.
  - discriminate.
  - discriminate.
  - intros tr m p. exists "timed out". reflexivity.
Defined.

Lemma route_plain_returns_server_text_witness :
  artifact_uri plain_response = None
  /\ integration_status plain_response = None
  /\ exists t m data,
       server_up t m (req_prompt plain_request) = Responded data
       /\ response_of data = JStr (output_text plain_response).
Proof.
  apply (route_plain_returns_server_text env_with_openai_key hosted_catalog
           2 5 "phi3:mini" "tinyllama" server_up (fun _ _ => Ok None)
           append append append append (fun _ _ _ => Ok []) 42
           "a1b2c3d4e5f60718" plain_request plain_response
           [Post Primary "phi3:mini"]); reflexivity.
Defined.

Lemma route_output_override_witness :
  output_text
    (mkRouteResponse "a1b2c3d4e5f60718" "ollama" "tinyllama" "Saved." 0 42
       false (Some "https://example.test/notes.docx") (Some "ok"))
  = "Saved.".
Proof.
  apply (route_output_override empty_env [] 2 5 "phi3:mini" "tinyllama"
           server_up (fun _ _ => Ok None) append append append append
           dispatch_with_override 42 "a1b2c3d4e5f60718" word_request
           word_spec "Saved."
           (mkRouteResponse "a1b2c3d4e5f60718" "ollama" "tinyllama" "Saved."
              0 42 false (Some "https://example.test/notes.docx") (Some "ok"))
           [Post Primary "tinyllama"]).
  - reflexivity.
  - discriminate.
  - intros output result H. injection H as <-. reflexivity.
  - reflexivity.
Defined.

Lemma route_empty_catalog_uses_tinyllama_witness :
  model
    (mkRouteResponse "a1b2c3d4e5f60718" "ollama" "tinyllama" "done" 0 42
       false None None) = "tinyllama"
  /\ exists k fb,
       calls [Post Primary "tinyllama"]
       = repeat (Post Primary "tinyllama") k ++ fb
       /\ (k <= max_attempts 2)%nat
       /\ (fb = [] \/ fb = [Post Fallback "tinyllama"]).
Proof.
  apply (route_empty_catalog_uses_tinyllama empty_env 2 5 "phi3:mini"
           "tinyllama" server_up (fun _ _ => Ok None) append append append
           append (fun _ _ _ => Ok []) 42 "a1b2c3d4e5f60718" plain_request
           (mkRouteResponse "a1b2c3d4e5f60718" "ollama" "tinyllama" "done" 0
              42 false None None)
           [Post Primary "tinyllama"]).
  reflexivity.
Defined.

End PlannerScenarios.

Section AdapterScenarios.

Import TokenUtils Providers.

Lemma choose_best_model_is_installed_witness :
  (forall chosen,
     _choose_best_model (fun _ _ => []) "llama3.1" ["llama3"; "mistral"]
     = Some chosen ->
     In chosen ["llama3"; "mistral"])
  /\ (_choose_best_model (fun _ _ => []) "llama3.1" ["llama3"; "mistral"]
      = None <-> ["llama3"; "mistral"] = [])
  /\ (strip "llama3.1" <> "" ->
      In (strip "llama3.1") ["llama3"; "mistral"] ->
      _choose_best_model (fun _ _ => []) "llama3.1" ["llama3"; "mistral"]
      = Some (strip "llama3.1")).
Proof.
  apply (choose_best_model_is_installed (fun _ _ => [])).
  intros req available m [].
Defined.

Example choose_best_model_version_prefix :
  _choose_best_model (fun _ _ => []) " llama3.1 " ["llama3"; "mistral"]
  = Some "llama3".
Proof. reflexivity. Qed.

Example list_installed_models_example :
  _list_installed_models tags_answer
  = ["llama3"; "llama3:latest"; "phi3"; "phi3:mini"].
Proof. reflexivity. Qed.

Lemma openai_complete_counts_nonnegative_witness :
  0 <= tokens_in (mkTokenStats 0 7) /\ 0 <= tokens_out (mkTokenStats 0 7).
Proof.
  apply (openai_complete_counts_nonnegative (Some "sk-test")
           (fun _ =>
              Ok (JObj [("usage", JObj [("prompt_tokens", JInt (-5));
                                        ("completion_tokens", JInt 7)])]))
           "gpt-4o-mini" "hello world!" 512 (2 # 10) None [] ""
           (mkTokenStats 0 7)).
  reflexivity.
Defined.

End AdapterScenarios.

Section StoreScenarios.

Import TokenUtils RoutingPolicy Models QueueWorker.

Lemma upsert_job_keeps_table_sound_witness :
  NoDup (ids (mkDb [queued_job; first_submission] [] []))
  /\ get_job_by_id (mkDb [queued_job; first_submission] [] [])
       (job_id first_submission) = Some first_submission
  /\ (List.length (jobs one_job_db)
      <= List.length (jobs (mkDb [queued_job; first_submission] [] []))
      <= S (List.length (jobs one_job_db)))%nat
  /\ job_costs (mkDb [queued_job; first_submission] [] [])
     = job_costs one_job_db
  /\ events (mkDb [queued_job; first_submission] [] []) = events one_job_db.
Proof.
  apply (upsert_job_keeps_table_sound one_job_db
           (mkDb [queued_job; first_submission] [] []) (Some "k1")
           first_submission first_submission 200).
  - repeat constructor. intros [].
  - reflexivity.
Defined.

Lemma handle_message_success_witness :
  exists db',
    fst (_handle_message no_tiktoken "Be brief." true 60 [local_tiny]
           (fun s => s) (fun _ => always_answers) 7 one_job_db job_message)
    = (db', Acked)
    /\ get_job_by_id db' (p_job_id job_message)
       = Some (set_status succeeded queued_job)
    /\ job_costs db'
       = job_costs one_job_db
           ++ [mkJobCost (p_job_id job_message) (rd_provider local_decision)
                 (rd_model local_decision) (tokens_in (mkTokenStats 3 7))
                 (tokens_out (mkTokenStats 3 7))
                 (estimated_cost_usd local_decision) 7]
    /\ events db'
       = events one_job_db
           ++ [mkEvent (p_job_id job_message) "info"
                 ("Routed to " ++ rd_provider local_decision ++ ":"
                    ++ rd_model local_decision)%string].
Proof.
  apply (handle_message_success no_tiktoken "Be brief." true 60 [local_tiny]
           (fun s => s) always_answers 7 one_job_db job_message queued_job
           local_decision "done" (mkTokenStats 3 7)); reflexivity.
Defined.

Lemma client_connect_gives_up_witness :
  exists e tr,
    QueueClient._connect_with_retry broker_down 5 3 = Some (Raise e, tr)
    /\ broker_down (Z.max 1 3) = Raise e
    /\ connects tr = map Z.of_nat (seq 1 (Z.to_nat (Z.max 1 3)))
    /\ waits tr
       = map (capped_delay 1 10)
             (map Z.of_nat (seq 1 (Z.to_nat (Z.max 1 3) - 1))).
Proof.
  apply (client_connect_gives_up broker_down 3 5).
  - intros attempt. eexists. reflexivity.
  - lia.
  - simpl. lia.
Defined.

Example client_connect_trace :
  QueueClient._connect_with_retry broker_down 5 3
  = Some (Raise (Exc "AMQPConnectionError" "connection refused"),
          [Connect 1; Wait 1; Connect 2; Wait 2; Connect 3]).
Proof. reflexivity. Qed.

(** A limit beyond 1025 is never reached: the 1025th wait cannot be
    computed. *)
Example client_connect_overflows :
  option_map fst (QueueClient._connect_with_retry broker_down 2000 2000)
  = Some (Raise overflow_error).
Proof. vm_compute. reflexivity. Qed.

Lemma worker_connects_when_broker_is_up_witness :
  exists tr,
    _connect_rabbitmq_with_retry broker_up_at_third 10 0
    = Some (Ok "connection", tr)
    /\ connects tr = map Z.of_nat (seq 1 3)
    /\ waits tr = map (capped_delay 1 15) (map Z.of_nat (seq 1 (3 - 1))).
Proof.
  apply (worker_connects_when_broker_is_up broker_up_at_third 0 "connection"
           3 10).
  - lia.
  - lia.
  - intros attempt H. unfold broker_up_at_third.
    destruct (attempt =? 3) eqn:E.
    + apply Z.eqb_eq in E. simpl in H. lia.
    + eexists. reflexivity.
  - reflexivity.
  - left. reflexivity.
Defined.


Example worker_connect_overflows :
  option_map fst (_connect_rabbitmq_with_retry broker_down 1100 0)
  = Some (Raise overflow_error).
Proof. vm_compute. reflexivity. Qed.

End StoreScenarios.

Section LimiterScenarios.

Import Utils.

Lemma rate_limiter_window_quota_witness :
  fst (allow_all fresh_limiter "alice" [1; 10; 59]%Q)
  = repeat true
      (Nat.min (List.length [1; 10; 59]%Q)
         (Z.to_nat (reqs fresh_limiter - bucket fresh_limiter "alice" 0)))
    ++ repeat false
         (List.length [1; 10; 59]%Q
          - Z.to_nat (reqs fresh_limiter - bucket fresh_limiter "alice" 0)).
Proof.
  apply (rate_limiter_window_quota "alice" 0 [1; 10; 59]%Q fresh_limiter).
  - reflexivity.
  - intros t [<-|[<-|[<-|[]]]]; reflexivity.
Defined.

Example rate_limiter_third_call_refused :
  fst (allow_all fresh_limiter "alice" [1; 10; 59]%Q) = [true; true; false].
Proof. reflexivity. Qed.

Lemma rate_limiter_refusal_ttl_witness :
  exists ttl,
    allow (mkRateLimiter true 2 (fun _ _ => 2)) "alice" 75
    = ((false, ttl), mkRateLimiter true 2 (fun _ _ => 2))
    /\ (0 < ttl <= 60)%Q.
Proof.
  apply (rate_limiter_refusal_ttl (mkRateLimiter true 2 (fun _ _ => 2))
           "alice" 75).
  - reflexivity.
  - simpl. lia.
Defined.

End LimiterScenarios.
